(** * Synthetic e-commerce data generator: the order lifecycle engine

    A shallow embedding of [populate_data.py]: the date-range helpers, the
    customer generator and [populate_orders_and_items_new_lifecycle], with
    the properties of the generated data stated and proved over it.

    Conventions of the embedding.
    - A [datetime] is a number of microseconds since the epoch (the
      resolution of Python's [datetime]); a [timedelta] is a number of
      microseconds, so [timedelta.days] is floor division by one day.
    - Money is counted in cents.  The script computes totals in binary
      floating point and rounds them to two decimals; here the arithmetic
      on amounts is exact, and [round(x, 2)] is rounding of an exact
      rational number of cents.
    - Python's process-wide [random] generator and the [Faker] instance are
      the two tapes of a [world]; every primitive reads the next value of
      its tape, so a statement for all worlds is a statement for all runs.
    - The four tables are lists of rows; surrogate keys that the database
      assigns on insertion play no role in the generator and are left out
      of the order and item rows. *)

From Stdlib Require Import ZArith QArith Qround Lqa String.
From stdpp Require Import gmap list strings.

Open Scope Z_scope.

(** ** Dates and durations *)

Definition datetime := Z.
Definition timedelta := Z.

Definition us_per_second : Z := 1000000.
Definition us_per_minute : Z := 60 * us_per_second.
Definition us_per_hour : Z := 60 * us_per_minute.
Definition us_per_day : Z := 24 * us_per_hour.

(** [timedelta(days=d, hours=h, minutes=m, seconds=s)] *)
Definition mk_timedelta (d h m s : Z) : timedelta :=
  d * us_per_day + h * us_per_hour + m * us_per_minute + s * us_per_second.

(** [td.days]: Python normalises a negative duration to a negative number
    of days and a non-negative remainder. *)
Definition td_days (td : timedelta) : Z := td / us_per_day.

(** [int(td.total_seconds())]: truncation towards zero. *)
Definition td_int_total_seconds (td : timedelta) : Z := Z.quot td us_per_second.

(** [datetime.strptime(s, '%Y-%m-%d')] of a well-formed date: midnight of
    that day.  A date argument is given by its day number. *)
Definition strptime_date (day : Z) : datetime := day * us_per_day.

(** [dt.strftime('%Y%m%d-%H%M%S')]: the text determines, and is determined
    by, the whole second the instant falls in. *)
Definition strftime_seconds (dt : datetime) : Z := dt / us_per_second.

(** [dt.date()] *)
Definition date_of (dt : datetime) : Z := dt / us_per_day.

(** ** Exceptions, the two random tapes and the monad of the script *)

Inductive exn := ValueError | IndexError | KeyError.

Record world := {
  rand_tape : nat -> Z;
  faker_tape : nat -> string
}.

Inductive outcome (A : Type) :=
| Ok (a : A) (w : world)
| Raise (e : exn).
Arguments Ok {A} a w.
Arguments Raise {A} e.

Definition M (A : Type) := world -> outcome A.

Definition ret {A} (a : A) : M A := fun w => Ok a w.
Definition raise {A} (e : exn) : M A := fun _ => Raise e.
Definition bind {A B} (m : M A) (f : A -> M B) : M B :=
  fun w => match m w with
           | Ok a w' => f a w'
           | Raise e => Raise e
           end.

#[global] Instance M_ret : MRet M := @ret.
#[global] Instance M_bind : MBind M := fun A B f m => bind m f.

(** [for _ in range(n)] over a loop state *)
Fixpoint repeatM {A} (n : nat) (body : A -> M A) (a : A) : M A :=
  match n with
  | O => ret a
  | S n' => a' ← body a; repeatM n' body a'
  end.

(** [for x in xs] over a loop state *)
Fixpoint foldM {A B} (body : A -> B -> M A) (xs : list B) (a : A) : M A :=
  match xs with
  | [] => ret a
  | x :: xs' => a' ← body a x; foldM body xs' a'
  end.

(** *** The [random] module *)

Definition next_rand : M Z :=
  fun w => Ok (rand_tape w O)
              {| rand_tape := fun n => rand_tape w (S n);
                 faker_tape := faker_tape w |}.

(** A uniform integer in [0, n), for [0 < n]. *)
Definition randbelow (n : Z) : M Z :=
  z ← next_rand; ret (z mod n).

(** [random.randint(a, b)]: empty range raises [ValueError]. *)
Definition randint (a b : Z) : M Z :=
  if b <? a then raise ValueError
  else z ← randbelow (b - a + 1); ret (a + z).

(** [random.choice(seq)]: an empty sequence raises [IndexError]. *)
Definition choice {A} (l : list A) : M A :=
  match l with
  | [] => raise IndexError
  | x :: _ => i ← randbelow (Z.of_nat (length l)); ret (nth (Z.to_nat i) l x)
  end.

(** [random.random()]: a multiple of 2^-53 in [0, 1). *)
Definition random_resolution : positive := 9007199254740992.

Definition random_unit : M Q :=
  z ← randbelow (Z.pos random_resolution); ret (z # random_resolution)%Q.

(** [random.uniform(a, b)] is [a + (b - a) * random()]. *)
Definition uniform (a b : Q) : M Q :=
  u ← random_unit; ret (a + (b - a) * u)%Q.

(** [random.sample(population, k)]: [k] elements at pairwise distinct
    positions, in selection order; [k] out of range raises [ValueError]. *)
Fixpoint sample_loop {A} (k : nat) (pool : list A) : M (list A) :=
  match k with
  | O => ret []
  | S k' =>
      j ← randbelow (Z.of_nat (length pool));
      match pool !! Z.to_nat j with
      | Some x => xs ← sample_loop k' (delete (Z.to_nat j) pool); ret (x :: xs)
      | None => raise IndexError
      end
  end.

Definition sample {A} (population : list A) (k : Z) : M (list A) :=
  if (k <? 0) || (Z.of_nat (length population) <? k) then raise ValueError
  else sample_loop (Z.to_nat k) population.

(** *** Faker *)

Definition next_fake : M string :=
  fun w => Ok (faker_tape w O)
              {| rand_tape := rand_tape w;
                 faker_tape := fun n => faker_tape w (S n) |}.

(** *** Numbers *)

(** [int(x)] of a float: truncation towards zero. *)
Definition py_int (q : Q) : Z := Z.quot (Qnum q) (Z.pos (Qden q)).

(** [round(x, 2)] on an amount given in cents: the nearest whole cent,
    ties to the even one. *)
Definition round2 (cents : Q) : Z :=
  let f := Qfloor cents in
  match Qcompare (cents - inject_Z f) (1 # 2) with
  | Lt => f
  | Gt => f + 1
  | Eq => if Z.even f then f else f + 1
  end.

(** ** The helper functions of the script *)

(** [random_timestamp(start_dt, end_dt)] *)
Definition random_timestamp (start_dt end_dt : datetime) : M datetime :=
  let time_between := end_dt - start_dt in
  random_seconds ← randint 0 (td_int_total_seconds time_between);
  ret (start_dt + mk_timedelta 0 0 0 random_seconds).

(** [generate_random_timestamp(start_date, end_date)] *)
Definition generate_random_timestamp (start_date end_date : datetime) : M datetime :=
  let time_between := end_date - start_date in
  let days_between := td_days time_between in
  random_days ← randint 0 days_between;
  random_hours ← randint 0 23;
  random_minutes ← randint 0 59;
  random_seconds ← randint 0 59;
  ret (start_date + mk_timedelta random_days random_hours random_minutes random_seconds).

(** ** The relational store *)

Inductive status := pending | completed | cancelled | refunded.

(** A logical order identifier [<YYYYMMDD-HHMMSS>-<NNNNNN>]: the second of
    the order date and the per-second sequence number. *)
Record order_id := { oid_stamp : Z; oid_seq : Z }.

Record customer_row := {
  c_id : Z; c_name : string; c_email : string; c_country : string;
  c_signup_date : Z; c_created_at : datetime
}.

Record product_row := {
  p_id : Z; p_name : string; p_category : string; p_price : Z;
  p_created_at : datetime
}.

(** A row of [source_orders]: (id, customer_id, order_date, status,
    total_amount, created_at). *)
Record order_record := {
  r_id : order_id; r_customer_id : Z; r_order_date : datetime;
  r_status : status; r_total_amount : Z; r_created_at : datetime
}.

(** A row of [source_order_items]: (order_id, product_id, quantity,
    unit_price, created_at). *)
Record item_record := {
  i_order_id : order_id; i_product_id : Z; i_quantity : Z;
  i_unit_price : Z; i_created_at : datetime
}.

Record store := {
  source_customers : list customer_row;
  source_products : list product_row;
  source_orders : list order_record;
  source_order_items : list item_record
}.

(** The database context: [connected] stands for [ctx.connection] and
    [ctx.cursor] being set. *)
Record context := { connected : bool; db : store }.

Inductive table :=
| t_source_customers | t_source_products | t_source_orders | t_source_order_items.

#[global] Instance status_eq_dec : EqDecision status.
Proof. solve_decision. Defined.
#[global] Instance order_id_eq_dec : EqDecision order_id.
Proof. solve_decision. Defined.

(** [MAX(x)] over a column: [None] is SQL's NULL of the empty table. *)
Definition sql_max (column : list Z) : option Z :=
  foldr (fun x acc => Some (match acc with None => x | Some y => Z.max x y end))
        None column.

Definition sql_min (column : list Z) : option Z :=
  foldr (fun x acc => Some (match acc with None => x | Some y => Z.min x y end))
        None column.

Definition created_at_column (s : store) (t : table) : list datetime :=
  match t with
  | t_source_customers => c_created_at <$> source_customers s
  | t_source_products => p_created_at <$> source_products s
  | t_source_orders => r_created_at <$> source_orders s
  | t_source_order_items => i_created_at <$> source_order_items s
  end.

(** [SELECT MAX(created_at) FROM data.<table_name>] *)
Definition select_max_created_at (s : store) (t : table) : option datetime :=
  sql_max (created_at_column s t).

(** ** Date ranges *)

(** [standalone_calculate_date_range(cursor, table_name, days_from_max,
    start_date)]; [now] is the value of [datetime.now()]. *)
Definition standalone_calculate_date_range (s : store) (now : datetime)
    (table_name : table) (days_from_max : Z) (start_date : option Z)
  : datetime * datetime :=
  match start_date with
  | Some d =>
      let start_datetime := strptime_date d in
      let end_datetime := start_datetime + mk_timedelta days_from_max 0 0 0 in
      (start_datetime, end_datetime)
  | None =>
      let max_date :=
        match select_max_created_at s table_name with
        | Some m => m
        | None => now
        end in
      let start_datetime := max_date in
      let end_datetime := start_datetime + mk_timedelta days_from_max 0 0 0 in
      (start_datetime, end_datetime)
  end.

(** 2025-06-01, the default anchor of [calculate_date_range]. *)
Definition default_anchor_day : Z := 20240.

(** [calculate_date_range(self, table_name, days_from_max, start_date)]:
    the older helper, defined in the script but called by none of the
    functions that [main] runs. *)
Definition calculate_date_range (s : store) (now : datetime)
    (table_name : table) (days_from_max : Z) (start_date : option Z)
  : datetime * datetime :=
  let max_created_at := select_max_created_at s table_name in
  let current_time := now in
  let start_datetime :=
    match max_created_at with
    | None =>
        match start_date with
        | Some d => strptime_date d
        | None => strptime_date default_anchor_day
        end
    | Some m => m + mk_timedelta 0 0 1 0
    end in
  let end_datetime := start_datetime + mk_timedelta days_from_max 0 0 0 in
  let end_datetime :=
    if current_time <? end_datetime then current_time else end_datetime in
  if end_datetime <=? start_datetime then
    let end_datetime := start_datetime + mk_timedelta 0 1 0 0 in
    if current_time <? end_datetime
    then (current_time - mk_timedelta 0 1 0 0, current_time)
    else (start_datetime, end_datetime)
  else (start_datetime, end_datetime).

(** ** The customer generator *)

(** A tuple handed to the bulk insert of customers: (name, email, country,
    signup_date, created_at). *)
Record customer_tuple := {
  n_name : string; n_email : string; n_country : string;
  n_signup_date : Z; n_created_at : datetime
}.

(** [while email in existing_emails and tries < 50: email = fake.email();
    tries += 1], with [budget] the number of tries that are left. *)
Fixpoint retry_email (budget : nat) (existing_emails : gset string)
    (email : string) : M string :=
  match budget with
  | O => ret email
  | S budget' =>
      if decide (email ∈ existing_emails)
      then email' ← next_fake; retry_email budget' existing_emails email'
      else ret email
  end.

Definition customer_step (start_dt end_dt : datetime)
    (acc : list customer_tuple * gset string)
  : M (list customer_tuple * gset string) :=
  let '(rows, existing_emails) := acc in
  name ← next_fake;
  email ← next_fake;
  email ← retry_email 50 existing_emails email;
  let existing_emails := {[email]} ∪ existing_emails in
  country ← next_fake;
  signup ← random_timestamp start_dt end_dt;
  created_at ← random_timestamp start_dt end_dt;
  ret (rows ++ [ {| n_name := name; n_email := email; n_country := country;
                    n_signup_date := date_of signup;
                    n_created_at := created_at |} ],
       existing_emails).

(** [populate_customers(ctx, num_records, days_from_max, start_date)]: the
    rows it hands to the bulk insert. *)
Definition populate_customers (ctx : context) (now : datetime)
    (num_records : Z) (days_from_max : Z) (start_date : option Z)
  : M (list customer_tuple) :=
  if num_records <=? 0 then ret []
  else
    let '(start_dt, end_dt) :=
      standalone_calculate_date_range (db ctx) now t_source_customers
        days_from_max start_date in
    let existing_emails : gset string :=
      list_to_set (c_email <$> source_customers (db ctx)) in
    '(rows, _) ← repeatM (Z.to_nat num_records) (customer_step start_dt end_dt)
                   ([], existing_emails);
    ret rows.

(** ** The order lifecycle engine *)

(** An entry of an order's ['items'] list. *)
Record item := {
  it_product_id : Z; it_quantity : Z; it_unit_price : Z;
  it_created_at : datetime
}.

(** The dictionary that stands for a logical order while a run lasts. *)
Record order := {
  o_id : order_id; o_customer_id : Z; o_order_date : datetime;
  o_total_amount : Z; o_has_items : bool; o_items : list item
}.

(** A value of [product_data]. *)
Record product_info := { pd_created_at : datetime; pd_price : Z }.

#[global] Instance item_eq_dec : EqDecision item.
Proof. solve_decision. Defined.
#[global] Instance order_eq_dec : EqDecision order.
Proof. solve_decision. Defined.

(** [{row[0]: {'created_at': row[1], 'price': row[2]} for row in rows}]:
    a later row replaces an earlier one with the same key. *)
Definition product_dict (rows : list product_row) : gmap Z product_info :=
  foldl (fun m row =>
           <[p_id row := {| pd_created_at := p_created_at row;
                            pd_price := p_price row |}]> m)
        ∅ rows.

(** [[pid for pid, pdata in product_data.items()
      if pdata['created_at'] <= order_date]] *)
Definition eligible_products_at (product_data : gmap Z product_info)
    (order_date : datetime) : list Z :=
  fst <$> filter (fun kv => pd_created_at (snd kv) <= order_date)
                 (map_to_list product_data).

(** Stage 1, the body of [for order_num in range(num_orders)]. *)
Definition stage1_step (customer_ids : list Z)
    (start_datetime end_datetime : datetime)
    (acc : list order * gmap Z Z) : M (list order * gmap Z Z) :=
  let '(pending_orders, order_counters) := acc in
  customer_id ← choice customer_ids;
  original_order_date ← generate_random_timestamp start_datetime end_datetime;
  let timestamp_str := strftime_seconds original_order_date in
  let order_counters :=
    match order_counters !! timestamp_str with
    | None => <[timestamp_str := 1]> order_counters
    | Some c => <[timestamp_str := c + 1]> order_counters
    end in
  let order_id :=
    {| oid_stamp := timestamp_str;
       oid_seq := default 0 (order_counters !! timestamp_str) |} in
  ret (pending_orders ++
         [ {| o_id := order_id; o_customer_id := customer_id;
              o_order_date := original_order_date; o_total_amount := 0;
              o_has_items := false; o_items := [] |} ],
       order_counters).

(** [while attempts < 10]: draw a product, keep it when it is new to the
    order or the catalogue has a single eligible product; [budget] is the
    number of attempts that are left. *)
Fixpoint try_unique_product (budget : nat) (eligible_products : list Z)
    (products_in_order : gset Z) : M (option Z) :=
  match budget with
  | O => ret None
  | S budget' =>
      temp_product_id ← choice eligible_products;
      if bool_decide (temp_product_id ∉ products_in_order)
         || bool_decide (length eligible_products = 1%nat)
      then ret (Some temp_product_id)
      else try_unique_product budget' eligible_products products_in_order
  end.

(** Stage 2, the body of [for _ in range(num_items)]. *)
Definition item_step (product_data : gmap Z product_info)
    (eligible_products : list Z) (order_date : datetime)
    (acc : list item * gset Z * Z) : M (list item * gset Z * Z) :=
  let '(items, products_in_order, order_total) := acc in
  found ← try_unique_product 10 eligible_products products_in_order;
  product_id ← match found with
               | Some p => ret p
               | None => choice eligible_products
               end;
  let products_in_order := {[product_id]} ∪ products_in_order in
  quantity ← randint 1 3;
  catalog_price ← match product_data !! product_id with
                  | Some p => ret (pd_price p)
                  | None => raise KeyError
                  end;
  r ← random_unit;
  unit_price ← (if Qle_bool (1 # 10) r
                then ret (inject_Z catalog_price)
                else discount ← uniform (1 # 10) (3 # 10);
                     ret (inject_Z catalog_price * (1 - discount))%Q);
  let unit_price := round2 unit_price in
  let line_total := quantity * unit_price in
  let order_total := order_total + line_total in
  minutes ← randint 1 60;
  seconds ← randint 0 59;
  let item_created_at := order_date + mk_timedelta 0 0 minutes seconds in
  ret (items ++ [ {| it_product_id := product_id; it_quantity := quantity;
                     it_unit_price := unit_price;
                     it_created_at := item_created_at |} ],
       products_in_order, order_total).

(** Stage 2, the body of [for order in orders_to_get_items].  The sampled
    orders are the dictionaries of [pending_orders] themselves, so the
    sample is a list of positions and the update is made in place. *)
Definition stage2_step (product_data : gmap Z product_info)
    (max_items_per_order : Z) (pending_orders : list order) (ref : nat)
  : M (list order) :=
  match pending_orders !! ref with
  | None => raise IndexError
  | Some order =>
      let order_date := o_order_date order in
      let eligible_products := eligible_products_at product_data order_date in
      match eligible_products with
      | [] => ret pending_orders
      | _ :: _ =>
          num_items ← randint 1 max_items_per_order;
          '(items, _, order_total) ←
             repeatM (Z.to_nat num_items)
                     (item_step product_data eligible_products order_date)
                     (o_items order, ∅, 0);
          ret (<[ref := {| o_id := o_id order;
                           o_customer_id := o_customer_id order;
                           o_order_date := o_order_date order;
                           o_total_amount := round2 (inject_Z order_total);
                           o_has_items := true;
                           o_items := items |}]> pending_orders)
      end
  end.

Definition status_record (order : order) (st : status) (created_at : datetime)
  : order_record :=
  {| r_id := o_id order; r_customer_id := o_customer_id order;
     r_order_date := o_order_date order; r_status := st;
     r_total_amount := o_total_amount order; r_created_at := created_at |}.

Definition item_tuple (order : order) (it : item) : item_record :=
  {| i_order_id := o_id order; i_product_id := it_product_id it;
     i_quantity := it_quantity it; i_unit_price := it_unit_price it;
     i_created_at := it_created_at it |}.

(** [if t > end_datetime: t = end_datetime - timedelta(hours=random.randint(1, 12))] *)
Definition clamp_to_end (end_datetime t : datetime) : M datetime :=
  if end_datetime <? t
  then h ← randint 1 12; ret (end_datetime - mk_timedelta 0 h 0 0)
  else ret t.

(** The status progression records of one order. *)
Definition status_progression (end_datetime : datetime)
    (completed_orders refunded_orders : list order) (order : order)
  : M (list order_record) :=
  let order_date := o_order_date order in
  if bool_decide (order ∈ completed_orders) then
    d ← randint 1 4;
    completed_at ← clamp_to_end end_datetime (order_date + mk_timedelta d 0 0 0);
    let completed_rec := status_record order completed completed_at in
    if bool_decide (order ∈ refunded_orders) then
      d ← randint 1 2;
      refunded_at ← clamp_to_end end_datetime (completed_at + mk_timedelta d 0 0 0);
      ret [completed_rec; status_record order refunded refunded_at]
    else ret [completed_rec]
  else
    d ← randint 1 4;
    cancelled_at ← clamp_to_end end_datetime (order_date + mk_timedelta d 0 0 0);
    ret [status_record order cancelled cancelled_at].

(** The body of the final [for order in pending_orders]. *)
Definition materialize_order (end_datetime : datetime)
    (completed_orders refunded_orders : list order)
    (acc : list order_record * list item_record) (order : order)
  : M (list order_record * list item_record) :=
  let '(all_order_records, all_item_records) := acc in
  let all_order_records :=
    all_order_records ++ [status_record order pending (o_order_date order)] in
  let all_item_records :=
    all_item_records ++ (item_tuple order <$> o_items order) in
  progression ← status_progression end_datetime completed_orders
                  refunded_orders order;
  ret (all_order_records ++ progression, all_item_records).

(** What a run has built when it reaches the insertion. *)
Record generation := {
  g_start_datetime : datetime;
  g_end_datetime : datetime;
  g_pending_orders : list order;
  g_completed_orders : list order;
  g_refunded_orders : list order;
  g_completion_rate : Q;
  all_order_records : list order_record;
  all_item_records : list item_record
}.

(** The window of a run: the date range of [source_orders], its start
    moved after the earliest product when that product is younger. *)
Definition order_window (s : store) (now : datetime) (days : Z)
    (start_date : option Z) (min_product_time : datetime)
  : datetime * datetime :=
  let '(start_datetime, end_datetime) :=
    standalone_calculate_date_range s now t_source_orders days start_date in
  let start_datetime :=
    if start_datetime <? min_product_time
    then min_product_time + mk_timedelta 0 0 1 0
    else start_datetime in
  (start_datetime, end_datetime).

(** The generation part of [populate_orders_and_items_new_lifecycle]:
    [None] is the reported abort ([return False] before anything is
    generated). *)
Definition new_lifecycle_generate (ctx : context) (now : datetime)
    (num_orders max_items_per_order days : Z) (start_date : option Z)
  : M (option generation) :=
  if negb (connected ctx) then ret None else
  let customer_ids := c_id <$> source_customers (db ctx) in
  if bool_decide (customer_ids = []) then ret None else
  let product_data := product_dict (source_products (db ctx)) in
  if bool_decide (product_data = ∅) then ret None else
  match sql_min (pd_created_at <$> (snd <$> map_to_list product_data)) with
  | None => raise ValueError
  | Some min_product_time =>
      let '(start_datetime, end_datetime) :=
        order_window (db ctx) now days start_date min_product_time in
      (* stage 1 *)
      '(pending_orders, _) ←
         repeatM (Z.to_nat num_orders)
                 (stage1_step customer_ids start_datetime end_datetime)
                 ([], ∅);
      (* stage 2 *)
      item_rate ← uniform (85 # 100) 1;
      let num_orders_with_items := py_int (inject_Z num_orders * item_rate) in
      orders_to_get_items ←
         sample (seq 0 (length pending_orders)) num_orders_with_items;
      pending_orders ←
         foldM (stage2_step product_data max_items_per_order)
               orders_to_get_items pending_orders;
      (* stage 3 *)
      let orders_with_items := filter (fun o => o_has_items o = true) pending_orders in
      completion_rate ← uniform (90 # 100) 1;
      let num_to_complete :=
        py_int (inject_Z (Z.of_nat (length orders_with_items)) * completion_rate) in
      completed_orders ←
         (if bool_decide (orders_with_items = []) then ret []
          else sample orders_with_items num_to_complete);
      (* stage 4 *)
      refund_rate ← uniform (5 # 100) (10 # 100);
      let num_to_refund :=
        py_int (inject_Z (Z.of_nat (length completed_orders)) * refund_rate) in
      refunded_orders ←
         (if bool_decide (completed_orders = []) then ret []
          else sample completed_orders num_to_refund);
      (* record materialisation *)
      '(order_records, item_records) ←
         foldM (materialize_order end_datetime completed_orders refunded_orders)
               pending_orders ([], []);
      ret (Some {| g_start_datetime := start_datetime;
                   g_end_datetime := end_datetime;
                   g_pending_orders := pending_orders;
                   g_completed_orders := completed_orders;
                   g_refunded_orders := refunded_orders;
                   g_completion_rate := completion_rate;
                   all_order_records := order_records;
                   all_item_records := item_records |})
  end.

(** [populate_orders_and_items_new_lifecycle(ctx, num_orders,
    max_items_per_order, days, start_date)]: the value it returns and the
    store it leaves.  The closing report divides by [num_orders]; with no
    order requested that raises inside the [try], and the handler returns
    [False] (nothing had been inserted). *)
Definition populate_orders_and_items_new_lifecycle (ctx : context)
    (now : datetime) (num_orders max_items_per_order days : Z)
    (start_date : option Z) : M (bool * context) :=
  g ← new_lifecycle_generate ctx now num_orders max_items_per_order days
        start_date;
  match g with
  | None => ret (false, ctx)
  | Some g =>
      let s := db ctx in
      let ctx' :=
        {| connected := connected ctx;
           db := {| source_customers := source_customers s;
                    source_products := source_products s;
                    source_orders := source_orders s ++ all_order_records g;
                    source_order_items :=
                      source_order_items s ++ all_item_records g |} |} in
      if num_orders =? 0 then ret (false, ctx') else ret (true, ctx')
  end.

(** ** The product generator *)

Definition PRODUCT_CATEGORIES : list string :=
  [ "Dresses"; "Tops & Blouses"; "Sweaters & Knitwear"; "Jackets & Coats";
    "Pants & Trousers"; "Skirts"; "Jeans & Denim"; "Activewear & Athleisure";
    "Lingerie & Intimates"; "Sleepwear & Loungewear"; "Swimwear & Beachwear";
    "Handbags & Purses"; "Jewelry & Watches"; "Scarves & Wraps";
    "Belts & Accessories"; "Shoes & Footwear"; "Sunglasses & Eyewear";
    "Hats & Hair Accessories"; "Tech Accessories"; "Gift Cards & Sets" ].

Definition base_names : list string :=
  [ "Classic"; "Essential"; "Premium"; "Luxury"; "Comfort"; "Style"; "Trend";
    "Modern"; "Vintage"; "Elegant"; "Casual"; "Formal"; "Active"; "Cozy";
    "Chic"; "Bold" ].

(** [needle in hay] on strings *)
Fixpoint str_contains (needle hay : string) : bool :=
  String.prefix needle hay ||
  match hay with
  | EmptyString => false
  | String _ rest => str_contains needle rest
  end.

(** The space character. *)
Definition space : Ascii.ascii := Ascii.ascii_of_nat 32.

(** [s.split(' ')[0]]: what precedes the first space. *)
Fixpoint first_word (s : string) : string :=
  match s with
  | EmptyString => EmptyString
  | String c rest =>
      if Ascii.eqb c space then EmptyString else String c (first_word rest)
  end.

(** A tuple handed to the bulk insert of products: (name, category, price,
    created_at). *)
Record product_tuple := {
  t_name : string; t_category : string; t_price : Z; t_created_at : datetime
}.

(** [Decimal(str(round(random.uniform(lo, hi), 2)))], in cents. *)
Definition random_price (lo hi : Q) : M Z :=
  dollars ← uniform lo hi; ret (round2 (100 * dollars)%Q).

(** The body of [for _ in range(num_records)] in [populate_products]. *)
Definition product_step (start_dt end_dt : datetime)
    (rows : list product_tuple) : M (list product_tuple) :=
  base_name ← choice base_names;
  category ← choice PRODUCT_CATEGORIES;
  let name := String.append base_name
                (String.append " " (first_word category)) in
  price ← (if str_contains "Luxury" category || str_contains "Premium" base_name
           then random_price 200 800
           else if str_contains "Accessories" category
                   || str_contains "Jewelry" category
           then random_price 25 200
           else random_price 30 150);
  created_at ← random_timestamp start_dt end_dt;
  ret (rows ++ [ {| t_name := name; t_category := category;
                    t_price := price; t_created_at := created_at |} ]).

(** [populate_products(ctx, num_records, days_from_max, start_date)]: the
    rows it hands to the bulk insert. *)
Definition populate_products (ctx : context) (now : datetime)
    (num_records : Z) (days_from_max : Z) (start_date : option Z)
  : M (list product_tuple) :=
  if num_records <=? 0 then ret []
  else
    let '(start_dt, end_dt) :=
      standalone_calculate_date_range (db ctx) now t_source_products
        days_from_max start_date in
    repeatM (Z.to_nat num_records) (product_step start_dt end_dt) [].

(** * The vocabulary of the statements *)

(** The value a computation returns, when it returns. *)
Definition result_of {A} (o : outcome A) : option A :=
  match o with
  | Ok a _ => Some a
  | Raise _ => None
  end.

(** The sum of a list of amounts. *)
Definition sum_Z (l : list Z) : Z := foldr Z.add 0 l.

(** The sum over an order's items of quantity × unit price. *)
Definition items_total (l : list item) : Z :=
  sum_Z ((fun it => it_quantity it * it_unit_price it) <$> l).

(** The same sum over the rows of [source_order_items]. *)
Definition item_records_total (l : list item_record) : Z :=
  sum_Z ((fun it => i_quantity it * i_unit_price it) <$> l).

(** An order as stage 1 creates it. *)
Definition pristine (o : order) : Prop :=
  o_total_amount o = 0 ∧ o_has_items o = false ∧ o_items o = [].

(** The invariant of stage 1: identifiers are pairwise distinct, and the
    counter of a second bounds the sequence numbers given out for it. *)
Definition stage1_inv (acc : list order * gmap Z Z) : Prop :=
  let '(pending_orders, order_counters) := acc in
  NoDup (o_id <$> pending_orders) ∧
  Forall pristine pending_orders ∧
  Forall (fun o => ∃ c, order_counters !! oid_stamp (o_id o) = Some c
                        ∧ oid_seq (o_id o) ≤ c) pending_orders.

(** An item is dated at or after its order, and its product is in the
    catalogue with a creation date at or before the order's. *)
Definition item_ok (product_data : gmap Z product_info) (order_date : datetime)
    (it : item) : Prop :=
  order_date ≤ it_created_at it ∧
  ∃ info, product_data !! it_product_id it = Some info
          ∧ pd_created_at info ≤ order_date.

(** An order after stage 2: its total is the sum of its items, it is
    flagged exactly when it has items, and its items are well dated. *)
Definition order_ok (product_data : gmap Z product_info) (o : order) : Prop :=
  o_total_amount o = items_total (o_items o) ∧
  (o_has_items o = false → o_items o = []) ∧
  (o_has_items o = true → o_items o ≠ []) ∧
  Forall (item_ok product_data (o_order_date o)) (o_items o).

(** The invariant of the loop over the sampled orders: those still to be
    visited have no item yet, every order is consistent, and no identifier
    has changed. *)
Definition stage2_inv (product_data : gmap Z product_info)
    (ids : list order_id) (refs : list nat) (pending_orders : list order) : Prop :=
  NoDup refs ∧
  (∀ i o, i ∈ refs → pending_orders !! i = Some o → o_items o = []) ∧
  Forall (order_ok product_data) pending_orders ∧
  o_id <$> pending_orders = ids.

(** A stage timestamp: [base] plus a whole number of days between 1 and
    [dmax], or, when that passes the end of the window, the end of the
    window minus 1 to 12 hours. *)
Definition stage_time (end_datetime base : datetime) (dmax : Z) (t : datetime)
  : Prop :=
  ∃ d, 1 ≤ d ≤ dmax ∧
    ((base + mk_timedelta d 0 0 0 ≤ end_datetime
      ∧ t = base + mk_timedelta d 0 0 0) ∨
     (end_datetime < base + mk_timedelta d 0 0 0
      ∧ ∃ h, 1 ≤ h ≤ 12 ∧ t = end_datetime - mk_timedelta 0 h 0 0)).

(** The three shapes of an order's status progression. *)
Inductive progression_shape (end_datetime : datetime)
    (completed_orders refunded_orders : list order) (o : order)
  : list order_record → Prop :=
| shape_cancelled t :
    o ∉ completed_orders →
    stage_time end_datetime (o_order_date o) 4 t →
    progression_shape end_datetime completed_orders refunded_orders o
      [status_record o cancelled t]
| shape_completed t :
    o ∈ completed_orders → o ∉ refunded_orders →
    stage_time end_datetime (o_order_date o) 4 t →
    progression_shape end_datetime completed_orders refunded_orders o
      [status_record o completed t]
| shape_refunded t t' :
    o ∈ completed_orders → o ∈ refunded_orders →
    stage_time end_datetime (o_order_date o) 4 t →
    stage_time end_datetime t 2 t' →
    progression_shape end_datetime completed_orders refunded_orders o
      [status_record o completed t; status_record o refunded t'].

(** The rows of [source_orders] that one logical order contributes. *)
Definition order_chunk (end_datetime : datetime)
    (completed_orders refunded_orders : list order) (o : order)
    (chunk : list order_record) : Prop :=
  ∃ progression,
    progression_shape end_datetime completed_orders refunded_orders o progression
    ∧ chunk = status_record o pending (o_order_date o) :: progression.

(** The rows of [source_order_items] that one logical order contributes. *)
Definition item_chunk (o : order) : list item_record :=
  item_tuple o <$> o_items o.

(** What holds of everything a run builds. *)
Record generation_ok (ctx : context) (g : generation) : Prop := {
  ok_ids : NoDup (o_id <$> g_pending_orders g);
  ok_orders :
    Forall (order_ok (product_dict (source_products (db ctx))))
           (g_pending_orders g);
  ok_completed :
    ∀ o, o ∈ g_completed_orders g →
         o ∈ g_pending_orders g ∧ o_has_items o = true;
  ok_completed_NoDup : NoDup (g_completed_orders g);
  ok_completed_count :
    Z.of_nat (length (g_completed_orders g)) =
    py_int (inject_Z (Z.of_nat (length (filter (fun o => o_has_items o = true)
                                               (g_pending_orders g))))
            * g_completion_rate g);
  ok_rate : (9 # 10 <= g_completion_rate g)%Q ∧ (g_completion_rate g <= 1)%Q;
  ok_refunded : ∀ o, o ∈ g_refunded_orders g → o ∈ g_completed_orders g;
  ok_records :
    ∃ chunks,
      Forall2 (order_chunk (g_end_datetime g) (g_completed_orders g)
                           (g_refunded_orders g))
              (g_pending_orders g) chunks
      ∧ all_order_records g = concat chunks;
  ok_items : all_item_records g = concat (item_chunk <$> g_pending_orders g)
}.

(** Every row of a chunk carries the key of the element it comes from. *)
Definition keyed {A B K} (ka : A → K) (kb : B → K) (a : A) (c : list B) : Prop :=
  Forall (fun b => kb b = ka a) c.

(** The rows of one status. *)
Definition with_status (st : status) (l : list order_record) : list order_record :=
  filter (fun r => r_status r = st) l.

(** The rows of one logical order. *)
Definition records_of (oid : order_id) (l : list order_record) : list order_record :=
  filter (fun r => r_id r = oid) l.

(** The item rows of one logical order. *)
Definition items_of (oid : order_id) (l : list item_record) : list item_record :=
  filter (fun it => i_order_id it = oid) l.

(** The orders that received items, [orders_with_items] in the script. *)
Definition orders_with_items (g : generation) : list order :=
  filter (fun o => o_has_items o = true) (g_pending_orders g).

(** The range as the specification words it: the explicit start date when
    one is given, else a start strictly after the latest row of the
    table, else the default anchor (2025-06-01 in [calculate_date_range]);
    an end that does not pass the current time, after the start, and
    equal to start + days or to the current time whenever the earlier of
    the two is after the start. *)
Definition date_range_as_specified (s : store) (now : datetime) (t : table)
    (days : Z) (start_date : option Z) (range : datetime * datetime) : Prop :=
  let '(start_datetime, end_datetime) := range in
  match start_date with
  | Some d => start_datetime = strptime_date d
  | None =>
      match select_max_created_at s t with
      | Some m => m < start_datetime
      | None => start_datetime = strptime_date default_anchor_day
      end
  end ∧
  end_datetime ≤ now ∧
  start_datetime < end_datetime ∧
  (start_datetime < Z.min (start_datetime + mk_timedelta days 0 0 0) now →
   end_datetime = Z.min (start_datetime + mk_timedelta days 0 0 0) now).

(** [m] run from [w] returns a value, and the value satisfies [P]. *)
Definition returns {A} (m : M A) (w : world) (P : A → Prop) : Prop :=
  ∃ a w', m w = Ok a w' ∧ P a.

(** The price band, in cents, of a product row as its name and category
    determine it. *)
Definition price_tier (name category : string) : Z * Z :=
  if String.prefix "Premium " name then (20000, 80000)
  else if str_contains "Accessories" category || str_contains "Jewelry" category
       then (2500, 20000)
       else (3000, 15000).

(** A well-formed row of the product generator for the window
    [start_dt, end_dt]. *)
Definition product_tuple_ok (start_dt end_dt : datetime) (row : product_tuple)
  : Prop :=
  t_category row ∈ PRODUCT_CATEGORIES ∧
  (∃ base_name, base_name ∈ base_names ∧
     t_name row = String.append base_name
                    (String.append " " (first_word (t_category row)))) ∧
  (price_tier (t_name row) (t_category row)).1 ≤ t_price row ∧
  t_price row ≤ (price_tier (t_name row) (t_category row)).2 ∧
  0 ≤ t_price row ∧
  start_dt ≤ t_created_at row ≤ end_dt.

(** A well-formed row of the customer generator for the window
    [start_dt, end_dt]. *)
Definition customer_tuple_ok (start_dt end_dt : datetime) (row : customer_tuple)
  : Prop :=
  start_dt ≤ n_created_at row ≤ end_dt ∧
  date_of start_dt ≤ n_signup_date row ≤ date_of end_dt.

(** The answer of Faker at position [p] is not among [taken] and has not
    been given at an earlier position. *)
Definition fresh_answer (w : world) (taken : list string) (p : nat) : Prop :=
  (faker_tape w p ∉ taken) ∧
  Forall (fun q => faker_tape w q ≠ faker_tape w p) (seq 0 p).

(** Among the 51 answers of Faker from position [i] on (a first email and
    fifty retries), one is fresh. *)
Definition fresh_within_budget (w : world) (taken : list string) (i : nat)
  : Prop :=
  Exists (fun j => fresh_answer w taken (i + j)) (seq 0 51).

(** The Faker tape of [w] is the tape of [w0] from position [k] on. *)
Definition faker_at (k : nat) (w0 w : world) : Prop :=
  ∀ n, faker_tape w n = faker_tape w0 (k + n)%nat.

(** The invariant of the loop of [populate_customers], after [i] customers
    and [k] answers of Faker: the set of emails holds the persisted ones
    and otherwise only answers already given; the emails of the rows are
    pairwise distinct, in the set, and not persisted. *)
Definition customers_inv (w0 : world) (persisted : list string) (i : nat)
    (acc : list customer_tuple * gset string) (w : world) : Prop :=
  ∃ k, (k ≤ 53 * i)%nat ∧ faker_at k w0 w ∧
    (∀ e, e ∈ persisted → e ∈ acc.2) ∧
    (∀ e, e ∈ acc.2 → e ∈ persisted ∨ ∃ q, (q < k)%nat ∧ faker_tape w0 q = e) ∧
    NoDup (n_email <$> acc.1) ∧
    (∀ e, e ∈ n_email <$> acc.1 → e ∈ acc.2 ∧ e ∉ persisted).

(** What stage 1 fixes of an order, and stage 2 leaves alone. *)
Definition order_key (o : order) : order_id * Z * datetime :=
  (o_id o, o_customer_id o, o_order_date o).

(** The customer is one of the pool, the order date is not before the
    start of the window nor more than 23:59:59 past its end, and the
    identifier is stamped with the second of the order date. *)
Definition key_ok (customer_ids : list Z) (start_datetime end_datetime : datetime)
    (key : order_id * Z * datetime) : Prop :=
  key.1.2 ∈ customer_ids ∧
  start_datetime ≤ key.2 ≤ end_datetime + mk_timedelta 0 23 59 59 ∧
  oid_stamp key.1.1 = strftime_seconds key.2.

(** The number of identifiers with a given stamp. *)
Definition stamp_count (stamp : Z) (ids : list order_id) : nat :=
  length (filter (fun oid => oid_stamp oid = stamp) ids).

(** The sequence number of an identifier counts the identifiers of the
    same stamp up to and including it. *)
Definition seq_numbered (ids : list order_id) : Prop :=
  ∀ i oid, ids !! i = Some oid →
    oid_seq oid = Z.of_nat (stamp_count (oid_stamp oid) (take (S i) ids)).

(** The invariant of stage 1 for the dates, the customers and the
    numbering of the identifiers. *)
Definition stage1_facts (customer_ids : list Z)
    (start_datetime end_datetime : datetime)
    (acc : list order * gmap Z Z) : Prop :=
  Forall (key_ok customer_ids start_datetime end_datetime) (order_key <$> acc.1) ∧
  (∀ stamp, default 0 (acc.2 !! stamp)
            = Z.of_nat (stamp_count stamp (o_id <$> acc.1))) ∧
  seq_numbered (o_id <$> acc.1).

(** An item has a quantity from 1 to 3, is dated from one minute to 60
    minutes and 59 seconds after its order, and is priced at the catalogue
    price of its product or at that price less 10 to 30 per cent, rounded
    to the cent. *)
Definition item_bounds (product_data : gmap Z product_info)
    (order_date : datetime) (it : item) : Prop :=
  1 ≤ it_quantity it ≤ 3 ∧
  order_date + mk_timedelta 0 0 1 0 ≤ it_created_at it ∧
  it_created_at it ≤ order_date + mk_timedelta 0 0 60 59 ∧
  ∃ info, product_data !! it_product_id it = Some info ∧
    (it_unit_price it = pd_price info ∨
     ∃ discount, (1 # 10 <= discount)%Q ∧ (discount <= 3 # 10)%Q ∧
       it_unit_price it
         = round2 (inject_Z (pd_price info) * (1 - discount))%Q).

(** An order has at most [max_items_per_order] items, each within its
    bounds. *)
Definition items_bounds (product_data : gmap Z product_info)
    (max_items_per_order : Z) (o : order) : Prop :=
  Z.of_nat (length (o_items o)) ≤ Z.max 0 max_items_per_order ∧
  Forall (item_bounds product_data (o_order_date o)) (o_items o).

(** The invariant of stage 2 for the items and for what stage 1 fixed. *)
Definition stage2_facts (product_data : gmap Z product_info)
    (max_items_per_order : Z) (keys : list (order_id * Z * datetime))
    (refs : list nat) (pending_orders : list order) : Prop :=
  stage2_inv product_data (fst <$> (fst <$> keys)) refs pending_orders ∧
  order_key <$> pending_orders = keys ∧
  Forall (items_bounds product_data max_items_per_order) pending_orders.

(** More of what holds of everything a run builds. *)
Record generation_facts (ctx : context) (now : datetime)
    (max_items_per_order days : Z) (start_date : option Z) (g : generation)
  : Prop := {
  gf_window :
    ∃ min_product_time,
      sql_min (pd_created_at <$>
               (snd <$> map_to_list (product_dict (source_products (db ctx)))))
        = Some min_product_time ∧
      (g_start_datetime g, g_end_datetime g)
        = order_window (db ctx) now days start_date min_product_time;
  gf_keys :
    Forall (key_ok (c_id <$> source_customers (db ctx))
                   (g_start_datetime g) (g_end_datetime g))
           (order_key <$> g_pending_orders g);
  gf_numbered : seq_numbered (o_id <$> g_pending_orders g);
  gf_items :
    Forall (items_bounds (product_dict (source_products (db ctx)))
                         max_items_per_order)
           (g_pending_orders g);
  gf_refunded_NoDup : NoDup (g_refunded_orders g);
  gf_refund_rate :
    ∃ refund_rate,
      (5 # 100 <= refund_rate)%Q ∧ (refund_rate <= 10 # 100)%Q ∧
      Z.of_nat (length (g_refunded_orders g)) =
        py_int (inject_Z (Z.of_nat (length (g_completed_orders g)))
                * refund_rate)
}.

(** * Worked runs

    The first: thirteen orders over the thirty days from 2025-01-01, two
    customers and two products, one of which appears on 2025-01-12; the
    tape makes every rate close to its upper bound, so that one order is
    refunded. *)

(** A tape that puts every rate close to its upper bound. *)
Definition demo_world : world :=
  {| rand_tape := fun n => - Z.of_nat (S n);
     faker_tape := fun _ => EmptyString |}.

(** The store before the run. *)
Definition demo_ctx : context :=
  {| connected := true;
     db := {| source_customers :=
                [ {| c_id := 1; c_name := "Ada"; c_email := "ada@example.org";
                     c_country := "Peru"; c_signup_date := 20080;
                     c_created_at := strptime_date 20080 |};
                  {| c_id := 2; c_name := "Eve"; c_email := "eve@example.org";
                     c_country := "Chad"; c_signup_date := 20081;
                     c_created_at := strptime_date 20081 |} ];
              source_products :=
                [ {| p_id := 1; p_name := "Classic Skirts";
                     p_category := "Skirts"; p_price := 4999;
                     p_created_at := strptime_date 20085 |};
                  {| p_id := 2; p_name := "Bold Dresses";
                     p_category := "Dresses"; p_price := 12050;
                     p_created_at := strptime_date 20100 |} ];
              source_orders := [];
              source_order_items := [] |} |}.

(** The run, and what it builds. *)
Definition demo_run : outcome (option generation) :=
  new_lifecycle_generate demo_ctx 0 13 3 30 (Some 20089) demo_world.

(** A placeholder for the branches that the runs below do not take. *)
Definition empty_generation : generation :=
  {| g_start_datetime := 0; g_end_datetime := 0; g_pending_orders := [];
     g_completed_orders := []; g_refunded_orders := [];
     g_completion_rate := 0; all_order_records := [];
     all_item_records := [] |}.

Definition demo_generation : generation :=
  Eval vm_compute in
    match result_of demo_run with
    | Some (Some g) => g
    | _ => empty_generation
    end.

(** The order placed on 2025-01-16 at 00:11:10, with its three items. *)
Definition demo_order : order :=
  {| o_id := {| oid_stamp := 1736986270; oid_seq := 1 |};
     o_customer_id := 1; o_order_date := 1736986270000000;
     o_total_amount := 39097; o_has_items := true;
     o_items :=
       [ {| it_product_id := 1; it_quantity := 1; it_unit_price := 4999;
            it_created_at := 1736986939000000 |};
         {| it_product_id := 2; it_quantity := 2; it_unit_price := 12050;
            it_created_at := 1736986634000000 |};
         {| it_product_id := 1; it_quantity := 2; it_unit_price := 4999;
            it_created_at := 1736989379000000 |} ] |}.

(** The pending and the completed row of that order, and the row of its
    second item. *)
Definition demo_pending_record : order_record :=
  {| r_id := {| oid_stamp := 1736986270; oid_seq := 1 |};
     r_customer_id := 1; r_order_date := 1736986270000000;
     r_status := pending; r_total_amount := 39097;
     r_created_at := 1736986270000000 |}.

Definition demo_completed_record : order_record :=
  {| r_id := {| oid_stamp := 1736986270; oid_seq := 1 |};
     r_customer_id := 1; r_order_date := 1736986270000000;
     r_status := completed; r_total_amount := 39097;
     r_created_at := 1737331870000000 |}.

Definition demo_item_record : item_record :=
  {| i_order_id := {| oid_stamp := 1736986270; oid_seq := 1 |};
     i_product_id := 2; i_quantity := 2; i_unit_price := 12050;
     i_created_at := 1736986634000000 |}.

(** The tape of another run over the same store and window, on which the
    refund of an order falls past the end of the window. *)
Definition clamp_world : world :=
  {| rand_tape := fun n => - (3 * Z.of_nat n + 1);
     faker_tape := fun _ => EmptyString |}.

Definition clamp_run : outcome (option generation) :=
  new_lifecycle_generate demo_ctx 0 13 3 30 (Some 20089) clamp_world.

Definition clamp_generation : generation :=
  Eval vm_compute in
    match result_of clamp_run with
    | Some (Some g) => g
    | _ => empty_generation
    end.

(** The tape on which every draw is the bottom of its range. *)
Definition zero_world : world :=
  {| rand_tape := fun _ => 0; faker_tape := fun _ => EmptyString |}.

(** The first run, with an explicit start date, and the store it leaves. *)
Definition first_run : outcome (bool * context) :=
  populate_orders_and_items_new_lifecycle demo_ctx 0 13 3 30 (Some 20089)
    demo_world.

Definition after_first_run : context :=
  Eval vm_compute in
    match result_of first_run with
    | Some (_, ctx) => ctx
    | None => demo_ctx
    end.

(** The second run, on 2025-02-11, for one order over seven days and with
    no start date. *)
Definition second_run : outcome (option generation) :=
  new_lifecycle_generate after_first_run (strptime_date 20130) 1 3 7 None
    zero_world.

Definition second_generation : generation :=
  Eval vm_compute in
    match result_of second_run with
    | Some (Some g) => g
    | _ => empty_generation
    end.

(** A Faker that answers a name, then the same email again and again, then
    a country, for each customer. *)
Definition same_email_world : world :=
  {| rand_tape := fun _ => 0;
     faker_tape := fun n =>
       match (n mod 53)%nat with
       | 0%nat => "Ada King"
       | 52%nat => "Peru"
       | _ => "ada@example.org"
       end |}.

(** A Faker whose answers are pairwise distinct, except that its second,
    third and fourth answers are the persisted email ada@example.org. *)
Definition mostly_fresh_world : world :=
  {| rand_tape := fun _ => 0;
     faker_tape := fun n =>
       match n with
       | 1%nat | 2%nat | 3%nat => "ada@example.org"
       | _ => String (Ascii.ascii_of_nat (97 + n mod 26))
                (String (Ascii.ascii_of_nat (97 + (n / 26) mod 26))
                   "@example.org")
       end |}.

(** * Reasoning about runs *)

Lemma result_of_Some {A} (o : outcome A) a :
  result_of o = Some a → ∃ w, o = Ok a w.
Proof. destruct o; simpl; intros; simplify_eq; eauto. Qed.

Lemma bind_Ok {A B} (m : M A) (f : A → M B) w b w' :
  (m ≫= f) w = Ok b w' → ∃ a w1, m w = Ok a w1 ∧ f a w1 = Ok b w'.
Proof.
  unfold mbind, M_bind, bind. destruct (m w) as [a w1|e]; [eauto | discriminate].
Qed.

Lemma ret_Ok {A} (a b : A) w w' : mret (M := M) a w = Ok b w' → a = b ∧ w = w'.
Proof. unfold mret, M_ret, ret. by intros [= -> ->]. Qed.

Lemma bind_Raise {A B} (m : M A) (f : A → M B) w e :
  m w = Raise e → (m ≫= f) w = Raise e.
Proof. unfold mbind, M_bind, bind. by intros ->. Qed.

Lemma bind_step {A B} (m : M A) (f : A → M B) w a w1 :
  m w = Ok a w1 → (m ≫= f) w = f a w1.
Proof. unfold mbind, M_bind, bind. by intros ->. Qed.

(** Split a successful run of [x ← m; k] into its two halves. *)
Ltac bind_inv H :=
  let a := fresh "v" in
  let w := fresh "w" in
  let E := fresh "E" in
  apply bind_Ok in H; destruct H as (a & w & E & H).

Ltac ret_inv H :=
  apply ret_Ok in H; destruct H as [? ?]; simplify_eq.

Section Primitives.

Lemma randbelow_Ok n w z w' : 0 < n → randbelow n w = Ok z w' → 0 ≤ z < n.
Proof.
  intros Hn H. unfold randbelow in H. bind_inv H. ret_inv H.
  by apply Z.mod_pos_bound.
Qed.

Lemma randint_Ok a b w z w' : randint a b w = Ok z w' → a ≤ z ≤ b.
Proof.
  unfold randint. destruct (Z.ltb_spec b a) as [Hlt|Hle]; [discriminate|].
  intros H. bind_inv H. ret_inv H.
  apply randbelow_Ok in E; lia.
Qed.

Lemma randint_empty a b w : b < a → randint a b w = Raise ValueError.
Proof. intros H. unfold randint. by rewrite (proj2 (Z.ltb_lt b a) H). Qed.

Lemma choice_Ok {A} (l : list A) w x w' : choice l w = Ok x w' → x ∈ l.
Proof.
  destruct l as [|y l]; [discriminate|].
  unfold choice. intros H. bind_inv H. ret_inv H.
  apply randbelow_Ok in E; [|simpl; lia].
  apply list_elem_of_In, nth_In. lia.
Qed.

Lemma random_unit_Ok w u w' :
  random_unit w = Ok u w' → (0 <= u)%Q ∧ (u < 1)%Q.
Proof.
  unfold random_unit. intros H. bind_inv H. ret_inv H.
  apply randbelow_Ok in E; [|done].
  unfold Qle, Qlt; simpl. lia.
Qed.

Lemma uniform_Ok a b w q w' :
  (a <= b)%Q → uniform a b w = Ok q w' → (a <= q)%Q ∧ (q <= b)%Q.
Proof.
  intros Hab H. unfold uniform in H. bind_inv H. ret_inv H.
  apply random_unit_Ok in E as [H0 H1].
  assert (0 <= b - a)%Q as Hba by lra.
  pose proof (Qmult_le_0_compat _ _ Hba H0) as Hlo.
  assert (0 <= (b - a) * (1 - v))%Q as Hhi
    by (apply Qmult_le_0_compat; lra).
  split; lra.
Qed.

Lemma sample_loop_Ok {A} k (pool : list A) w xs w' :
  sample_loop k pool w = Ok xs w' →
  length xs = k ∧ ∃ rest, xs ++ rest ≡ₚ pool.
Proof.
  revert pool w xs w'. induction k as [|k IH]; intros pool w xs w' H; simpl in H.
  - ret_inv H. split; [done|]. by exists pool.
  - bind_inv H. destruct (pool !! Z.to_nat v) as [x|] eqn:Hx; [|discriminate].
    bind_inv H. ret_inv H.
    apply IH in E0 as [Hlen (rest & Hperm)].
    split; [simpl; by f_equal|].
    exists rest. simpl. rewrite Hperm.
    symmetry. by apply delete_Permutation.
Qed.

Lemma sample_Ok {A} (l : list A) k w xs w' :
  sample l k w = Ok xs w' →
  length xs = Z.to_nat k ∧ ∃ rest, xs ++ rest ≡ₚ l.
Proof.
  unfold sample. destruct (_ || _); [discriminate|]. apply sample_loop_Ok.
Qed.

Lemma sample_elem_of {A} (l : list A) k w xs w' x :
  sample l k w = Ok xs w' → x ∈ xs → x ∈ l.
Proof.
  intros H Hx. apply sample_Ok in H as [_ (rest & Hperm)].
  rewrite <- Hperm. apply elem_of_app. by left.
Qed.

Lemma sample_NoDup {A} (l : list A) k w xs w' :
  NoDup l → sample l k w = Ok xs w' → NoDup xs.
Proof.
  intros Hl H. apply sample_Ok in H as [_ (rest & Hperm)].
  rewrite <- Hperm in Hl. by apply NoDup_app in Hl as [? _].
Qed.

Lemma clamp_to_end_Ok end_datetime t w t' w' :
  clamp_to_end end_datetime t w = Ok t' w' →
  (t ≤ end_datetime ∧ t' = t) ∨
  (end_datetime < t ∧ ∃ h, 1 ≤ h ≤ 12 ∧ t' = end_datetime - mk_timedelta 0 h 0 0).
Proof.
  unfold clamp_to_end. destruct (Z.ltb_spec end_datetime t) as [Hlt|Hle]; intros H.
  - bind_inv H. ret_inv H. apply randint_Ok in E. right. eauto.
  - ret_inv H. left. done.
Qed.

Lemma round2_inject_Z z : round2 (inject_Z z) = z.
Proof.
  unfold round2. rewrite Qfloor_Z.
  assert (Qcompare (inject_Z z - inject_Z z) (1 # 2) = Lt) as ->; [|done].
  apply (proj1 (Qlt_alt _ _)). unfold Qlt; simpl. lia.
Qed.

End Primitives.

(** ** Loops *)

Lemma repeatM_inv {A} (P : nat → A → Prop) (body : A → M A) n :
  (∀ i a w a' w', P i a → body a w = Ok a' w' → P (S i) a') →
  ∀ k a w a' w', P k a → repeatM n body a w = Ok a' w' → P (n + k)%nat a'.
Proof.
  intros Hstep. induction n as [|n IH]; intros k a w a' w' HP H; simpl in H.
  - by ret_inv H.
  - bind_inv H. replace (S n + k)%nat with (n + S k)%nat by lia. eauto.
Qed.

Lemma foldM_inv {A B} (P : list B → A → Prop) (body : A → B → M A) :
  (∀ x xs a w a' w', P (x :: xs) a → body a x w = Ok a' w' → P xs a') →
  ∀ xs a w a' w', P xs a → foldM body xs a w = Ok a' w' → P [] a'.
Proof.
  intros Hstep xs. induction xs as [|x xs IH]; intros a w a' w' HP H; simpl in H.
  - by ret_inv H.
  - bind_inv H. eauto.
Qed.

Lemma repeatM_Raise_first {A} (body : A → M A) n a w e :
  body a w = Raise e → repeatM (S n) body a w = Raise e.
Proof. intros H. simpl. by apply bind_Raise. Qed.

(** ** Sums of amounts *)

Lemma sum_Z_app l1 l2 : sum_Z (l1 ++ l2) = sum_Z l1 + sum_Z l2.
Proof. induction l1 as [|x l1 IH]; simpl; lia. Qed.

Lemma item_records_total_tuple o l :
  item_records_total (item_tuple o <$> l) = items_total l.
Proof.
  unfold item_records_total, items_total. rewrite <- list_fmap_compose. done.
Qed.

(** ** Stage 1: identifiers are pairwise distinct *)

Lemma stage1_step_inv customer_ids s e acc w acc' w' :
  stage1_inv acc → stage1_step customer_ids s e acc w = Ok acc' w' →
  stage1_inv acc'.
Proof.
  destruct acc as [pending counters]. intros (Hnd & Hpr & Hcnt) H.
  unfold stage1_step in H. bind_inv H. bind_inv H. ret_inv H.
  set (ts := strftime_seconds v0) in *.
  set (counters' := match counters !! ts with
                    | None => <[ts:=1]> counters
                    | Some c => <[ts:=c + 1]> counters
                    end) in *.
  assert (∃ c', counters' !! ts = Some c' ∧
                (∀ c, counters !! ts = Some c → c < c')) as (c' & Hc' & Hfresh).
  { subst counters'. destruct (counters !! ts) as [c|] eqn:Hts.
    - exists (c + 1). rewrite lookup_insert_eq. split; [done|].
      intros ? [= <-]. lia.
    - exists 1. rewrite lookup_insert_eq. split; [done|]. intros ? [=]. }
  assert (∀ k c, counters !! k = Some c → ∃ c2, counters' !! k = Some c2 ∧ c ≤ c2)
    as Hmono.
  { intros k c Hk. destruct (decide (k = ts)) as [->|Hne].
    - exists c'. split; [done|]. specialize (Hfresh _ Hk). lia.
    - exists c. split; [|lia]. subst counters'.
      destruct (counters !! ts); by rewrite lookup_insert_ne. }
  rewrite Hc'. simpl. split_and!.
  - rewrite fmap_app. simpl. apply NoDup_app. split_and!; [done| |apply NoDup_singleton].
    intros i Hi Hin. apply list_elem_of_singleton in Hin. subst i.
    apply list_elem_of_fmap in Hi as (o & Hid & Ho).
    rewrite Forall_forall in Hcnt. destruct (Hcnt _ Ho) as (c & Hc & Hle).
    rewrite <- Hid in Hc, Hle. simpl in *. specialize (Hfresh _ Hc). lia.
  - apply Forall_app. split; [done|]. apply Forall_singleton. done.
  - apply Forall_app. split.
    + eapply Forall_impl; [exact Hcnt|]. intros o (c & Hc & Hle).
      destruct (Hmono _ _ Hc) as (c2 & ? & ?). exists c2. split; [done|lia].
    + apply Forall_singleton. simpl. exists c'. split; [done|lia].
Qed.

Lemma stage1_loop_inv customer_ids s e n w pending counters w' :
  repeatM n (stage1_step customer_ids s e) ([], ∅) w = Ok (pending, counters) w' →
  NoDup (o_id <$> pending) ∧ Forall pristine pending.
Proof.
  intros H.
  pose proof (repeatM_inv (fun _ => stage1_inv) (stage1_step customer_ids s e) n) as Hinv.
  eapply (Hinv _ O) in H.
  - destruct H as (? & ? & _). done.
  - split_and!; [apply NoDup_nil_2|done|done].
Unshelve.
  intros i a w0 a' w0' Ha Hs. eapply stage1_step_inv; eauto.
Qed.

(** ** Stage 2: items, their dates and the order total *)

Lemma pristine_order_ok product_data o : pristine o → order_ok product_data o.
Proof.
  intros (Ht & Hh & Hi). unfold order_ok. rewrite Ht, Hh, Hi.
  split_and!; by auto.
Qed.

Lemma eligible_products_at_elem product_data order_date pid :
  pid ∈ eligible_products_at product_data order_date →
  ∃ info, product_data !! pid = Some info ∧ pd_created_at info ≤ order_date.
Proof.
  unfold eligible_products_at. intros H.
  apply list_elem_of_fmap in H as ([k info] & -> & H).
  apply list_elem_of_filter in H as [Hle H].
  apply elem_of_map_to_list in H. simpl in *. eauto.
Qed.

Lemma try_unique_product_Ok budget eligible pio w p w' :
  try_unique_product budget eligible pio w = Ok (Some p) w' → p ∈ eligible.
Proof.
  revert w. induction budget as [|budget IH]; intros w H; simpl in H.
  - ret_inv H.
  - bind_inv H. destruct (_ || _).
    + ret_inv H. eapply choice_Ok; eauto.
    + eauto.
Qed.

Lemma mk_timedelta_nonneg d h m s :
  0 ≤ d → 0 ≤ h → 0 ≤ m → 0 ≤ s → 0 ≤ mk_timedelta d h m s.
Proof.
  unfold mk_timedelta, us_per_day, us_per_hour, us_per_minute, us_per_second. lia.
Qed.

Lemma item_step_Ok product_data order_date items pio total w items' pio' total' w' :
  item_step product_data (eligible_products_at product_data order_date)
            order_date (items, pio, total) w = Ok (items', pio', total') w' →
  ∃ it, items' = items ++ [it]
        ∧ total' = total + it_quantity it * it_unit_price it
        ∧ item_ok product_data order_date it.
Proof.
  intros H. unfold item_step in H.
  bind_inv H. bind_inv H. bind_inv H. bind_inv H. bind_inv H. bind_inv H.
  bind_inv H. bind_inv H. ret_inv H.
  eexists. split_and!; [reflexivity|reflexivity|].
  assert (v0 ∈ eligible_products_at product_data order_date) as Hel.
  { destruct v as [p|].
    - ret_inv E0. eapply try_unique_product_Ok; eauto.
    - eapply choice_Ok; eauto. }
  apply randint_Ok in E5, E6.
  split; simpl.
  - pose proof (mk_timedelta_nonneg 0 0 v5 v6). lia.
  - by apply eligible_products_at_elem.
Qed.

Lemma items_total_snoc l it :
  items_total (l ++ [it]) = items_total l + it_quantity it * it_unit_price it.
Proof. unfold items_total. rewrite fmap_app, sum_Z_app. simpl. lia. Qed.

Lemma item_loop_Ok product_data order_date n base w items pio total w' :
  repeatM n (item_step product_data
               (eligible_products_at product_data order_date) order_date)
          (base, ∅, 0) w = Ok (items, pio, total) w' →
  Forall (item_ok product_data order_date) base →
  items_total items = items_total base + total ∧
  Forall (item_ok product_data order_date) items ∧
  length items = (n + length base)%nat.
Proof.
  intros H Hbase.
  pose (P := fun (i : nat) (acc : list item * gset Z * Z) =>
               items_total acc.1.1 = items_total base + acc.2 ∧
               Forall (item_ok product_data order_date) acc.1.1 ∧
               length acc.1.1 = (i + length base)%nat).
  assert (P (n + 0)%nat (items, pio, total)) as HP.
  { eapply (repeatM_inv P); [|shelve|exact H].
    intros i [[its p] t] w0 [[its' p'] t'] w0' (Ht & Hok & Hlen) Hs.
    apply item_step_Ok in Hs as (it & -> & -> & Hit). unfold P; simpl in *.
    split_and!.
    - rewrite items_total_snoc. lia.
    - apply Forall_app. split; [done|]. by apply Forall_singleton.
    - rewrite length_app. simpl. lia. }
  rewrite Nat.add_0_r in HP. exact HP.
Unshelve.
  unfold P; simpl. split_and!; [lia|done|done].
Qed.

Lemma stage2_step_inv product_data max_items ids ref refs pending w pending' w' :
  stage2_inv product_data ids (ref :: refs) pending →
  stage2_step product_data max_items pending ref w = Ok pending' w' →
  stage2_inv product_data ids refs pending'.
Proof.
  intros (Hnd & Hfresh & Hok & Hids) H. unfold stage2_step in H.
  apply NoDup_cons in Hnd as [Hnotin Hnd].
  destruct (pending !! ref) as [o|] eqn:Ho; [|discriminate].
  destruct (eligible_products_at product_data (o_order_date o)) as [|p ps] eqn:Hel.
  { ret_inv H. split_and!; try done.
    intros i o' Hi. apply Hfresh. by right. }
  rewrite <- Hel in H. clear Hel p ps.
  bind_inv H. bind_inv H. destruct v0 as [[items pio] total]. ret_inv H.
  apply randint_Ok in E.
  assert (o_items o = []) as Hnil by (eapply Hfresh; [by left|done]).
  rewrite Hnil in E0. apply item_loop_Ok in E0 as (Htot & Hitems & Hlen); [|done].
  split_and!.
  - done.
  - intros i o' Hi Hlk. rewrite list_lookup_insert_ne in Hlk by (intros ->; done).
    eapply Hfresh; [by right|done].
  - apply Forall_insert; [done|]. unfold order_ok; simpl.
    rewrite round2_inject_Z. unfold items_total at 2 in Htot. simpl in Htot.
    split_and!; [lia|done| |done].
    intros _ ->. simpl in Hlen. lia.
  - rewrite list_fmap_insert. simpl. rewrite list_insert_id; [done|].
    rewrite list_lookup_fmap, Ho. done.
Qed.

Lemma stage2_loop_inv product_data max_items ids refs pending w pending' w' :
  stage2_inv product_data ids refs pending →
  foldM (stage2_step product_data max_items) refs pending w = Ok pending' w' →
  Forall (order_ok product_data) pending' ∧ o_id <$> pending' = ids.
Proof.
  intros Hinv H.
  eapply (foldM_inv (stage2_inv product_data ids)) in H; [| |exact Hinv].
  - destruct H as (_ & _ & ? & ?). done.
  - intros x xs a w0 a' w0' Ha Hs. eapply stage2_step_inv; eauto.
Qed.

(** ** Record materialisation *)

Lemma stage_time_intro end_datetime base dmax d w t w' :
  1 ≤ d ≤ dmax →
  clamp_to_end end_datetime (base + mk_timedelta d 0 0 0) w = Ok t w' →
  stage_time end_datetime base dmax t.
Proof.
  intros Hd H. exists d. split; [done|].
  apply clamp_to_end_Ok in H as [[? ?]|[? ?]]; eauto.
Qed.

Lemma status_progression_Ok end_datetime completed_orders refunded_orders o w prog w' :
  status_progression end_datetime completed_orders refunded_orders o w = Ok prog w' →
  progression_shape end_datetime completed_orders refunded_orders o prog.
Proof.
  intros H. unfold status_progression in H.
  case_bool_decide as Hc.
  - bind_inv H. bind_inv H. apply randint_Ok in E.
    eapply stage_time_intro in E0; [|exact E].
    case_bool_decide as Hr.
    + bind_inv H. bind_inv H. ret_inv H. apply randint_Ok in E1.
      eapply stage_time_intro in E2; [|exact E1].
      by apply shape_refunded.
    + ret_inv H. by apply shape_completed.
  - bind_inv H. bind_inv H. ret_inv H. apply randint_Ok in E.
    eapply stage_time_intro in E0; [|exact E].
    by apply shape_cancelled.
Qed.

Lemma materialize_loop_Ok end_datetime completed_orders refunded_orders
    pending recs0 items0 w recs items w' :
  foldM (materialize_order end_datetime completed_orders refunded_orders)
        pending (recs0, items0) w = Ok (recs, items) w' →
  (∃ chunks,
      Forall2 (order_chunk end_datetime completed_orders refunded_orders)
              pending chunks
      ∧ recs = recs0 ++ concat chunks)
  ∧ items = items0 ++ concat (item_chunk <$> pending).
Proof.
  revert recs0 items0 w.
  induction pending as [|o pending IH]; intros recs0 items0 w H; simpl in H.
  - ret_inv H. split; [exists []; split; [constructor|]|]; simpl;
      by rewrite app_nil_r.
  - bind_inv H. unfold materialize_order in E. bind_inv E. ret_inv E.
    apply status_progression_Ok in E0.
    apply IH in H as [(chunks & Hall & ->) ->].
    split.
    + eexists (_ :: chunks). split.
      * constructor; [|exact Hall]. eexists. split; [exact E0|reflexivity].
      * simpl. by rewrite <- !app_assoc.
    + simpl. by rewrite <- app_assoc.
Qed.

(** ** What every successful run has built *)

Lemma py_int_zero q : py_int (inject_Z 0 * q) = 0.
Proof. unfold py_int. destruct q as [n d]. simpl. apply Z.quot_0_l. lia. Qed.

Lemma new_lifecycle_generate_ok ctx now num_orders max_items days start_date w g w' :
  new_lifecycle_generate ctx now num_orders max_items days start_date w
    = Ok (Some g) w' →
  generation_ok ctx g.
Proof.
  intros H. unfold new_lifecycle_generate in H.
  destruct (connected ctx); simpl in H; [|by ret_inv H].
  case_bool_decide; [by ret_inv H|].
  case_bool_decide; [by ret_inv H|].
  destruct (sql_min _) as [min_product_time|]; [|discriminate].
  destruct (order_window _ _ _ _ _) as [start_datetime end_datetime].
  bind_inv H. destruct v as [pending1 counters].
  bind_inv H. bind_inv H. rename v0 into refs.
  bind_inv H. rename v0 into pending.
  bind_inv H. rename v0 into completion_rate.
  bind_inv H. rename v0 into completed_orders.
  bind_inv H. bind_inv H. rename v1 into refunded_orders.
  bind_inv H. destruct v1 as [recs items]. ret_inv H.
  apply stage1_loop_inv in E as [Hnd1 Hpr1].
  assert (NoDup refs) as Hrefs.
  { eapply sample_NoDup; [|exact E1]. apply NoDup_seq. }
  eapply (stage2_loop_inv _ _ (o_id <$> pending1)) in E2 as [Hok Hids].
  2:{ split_and!; [done| |by eapply Forall_impl; [exact Hpr1|];
                           intros; apply pristine_order_ok|done].
      intros i o _ Hlk. rewrite Forall_forall in Hpr1.
      apply list_elem_of_lookup_2 in Hlk. by destruct (Hpr1 _ Hlk) as (_ & _ & ?). }
  assert (NoDup (o_id <$> pending)) as Hnd by (by rewrite Hids).
  assert (NoDup pending) as Hndp by (by eapply NoDup_fmap_1).
  apply uniform_Ok in E3; [|by unfold Qle; simpl].
  apply materialize_loop_Ok in E7 as [(chunks & Hchunks & Hrecs) Hitems].
  simpl in Hrecs, Hitems.
  set (owi := filter (fun o => o_has_items o = true) pending) in *.
  assert ((owi = [] ∧ completed_orders = []) ∨
          sample owi (py_int (inject_Z (Z.of_nat (length owi)) * completion_rate))
                 w4 = Ok completed_orders w5) as Hcomp.
  { destruct (decide (owi = [])) as [He|Hne].
    - rewrite bool_decide_eq_true_2 in E4 by done. ret_inv E4. by left.
    - rewrite bool_decide_eq_false_2 in E4 by done. by right. }
  assert (∀ o, o ∈ refunded_orders → o ∈ completed_orders) as Hrefunded.
  { intros o Ho. destruct (decide (completed_orders = [])) as [He|Hne].
    - rewrite bool_decide_eq_true_2 in E6 by done. ret_inv E6.
      by apply elem_of_nil in Ho.
    - rewrite bool_decide_eq_false_2 in E6 by done.
      eapply sample_elem_of; eauto. }
  clear E4 E6.
  constructor; simpl; try done.
  - intros o Ho. destruct Hcomp as [[_ ->]|Hs]; [by apply elem_of_nil in Ho|].
    eapply sample_elem_of in Hs; [|exact Ho].
    apply list_elem_of_filter in Hs as [? ?]. done.
  - destruct Hcomp as [[_ ->]|Hs]; [apply NoDup_nil_2|].
    eapply sample_NoDup; [|exact Hs]. by apply NoDup_filter.
  - destruct Hcomp as [[He ->]|Hs].
    + subst owi. rewrite He. symmetry. exact (py_int_zero completion_rate).
    + pose proof Hs as Hs'. apply sample_Ok in Hs' as [Hlen _].
      unfold sample in Hs. destruct (_ || _) eqn:Hk; [discriminate|].
      apply orb_false_elim in Hk as [Hk _]. apply Z.ltb_ge in Hk.
      subst owi. rewrite Hlen. lia.
  - destruct E3 as [Hlo Hhi]. split; [|done].
    eapply Qle_trans; [|exact Hlo]. by unfold Qle.
  - eauto.
Qed.

Lemma stage1_step_length customer_ids s e acc w acc' w' :
  stage1_step customer_ids s e acc w = Ok acc' w' →
  length acc'.1 = S (length acc.1).
Proof.
  destruct acc as [pending counters]. intros H.
  unfold stage1_step in H. bind_inv H. bind_inv H. ret_inv H.
  simpl. rewrite length_app. simpl. lia.
Qed.

Lemma stage2_step_length product_data max_items pending ref w pending' w' :
  stage2_step product_data max_items pending ref w = Ok pending' w' →
  length pending' = length pending.
Proof.
  intros H. unfold stage2_step in H.
  destruct (pending !! ref) as [o|]; [|discriminate].
  destruct (eligible_products_at product_data (o_order_date o)); [by ret_inv H|].
  bind_inv H. bind_inv H. destruct v0 as [[items pio] total]. ret_inv H.
  apply length_insert.
Qed.

(** A run builds as many logical orders as were requested. *)
Lemma new_lifecycle_generate_count ctx now num_orders max_items days start_date
    w g w' :
  new_lifecycle_generate ctx now num_orders max_items days start_date w
    = Ok (Some g) w' →
  length (g_pending_orders g) = Z.to_nat num_orders.
Proof.
  intros H. unfold new_lifecycle_generate in H.
  destruct (connected ctx); simpl in H; [|by ret_inv H].
  case_bool_decide; [by ret_inv H|].
  case_bool_decide; [by ret_inv H|].
  destruct (sql_min _) as [min_product_time|]; [|discriminate].
  destruct (order_window _ _ _ _ _) as [start_datetime end_datetime].
  bind_inv H. destruct v as [pending1 counters].
  bind_inv H. bind_inv H. bind_inv H. rename v1 into pending.
  bind_inv H. bind_inv H. bind_inv H. bind_inv H. bind_inv H.
  destruct v5 as [recs items]. ret_inv H. simpl.
  eapply (repeatM_inv (fun i acc => length acc.1 = i) _ _ _ O) in E; [|done].
  eapply (foldM_inv (fun _ a => length a = length pending1)) in E2; [|..|done].
  - simpl in E. lia.
  - intros x xs a w8 a' w8' Ha Hs. apply stage2_step_length in Hs.
    cbv beta in *. lia.
Unshelve.
  intros i a w8 a' w8' Ha Hs. apply stage1_step_length in Hs.
  cbv beta in *. lia.
Qed.

(** ** Rows of one logical order *)

Lemma filter_all {A} (P : A → Prop) `{!∀ x, Decision (P x)} (l : list A) :
  Forall P l → filter P l = l.
Proof.
  induction 1 as [|x l Hx _ IH]; [done|].
  rewrite filter_cons_True by done. by rewrite IH.
Qed.

Lemma filter_none {A} (P : A → Prop) `{!∀ x, Decision (P x)} (l : list A) :
  Forall (fun x => ¬ P x) l → filter P l = [].
Proof.
  induction 1 as [|x l Hx _ IH]; [done|].
  by rewrite filter_cons_False.
Qed.

Lemma elem_of_concat {A} (x : A) (ls : list (list A)) :
  x ∈ concat ls ↔ ∃ l, x ∈ l ∧ l ∈ ls.
Proof.
  induction ls as [|l ls IH]; simpl.
  - split; [by intros ?%elem_of_nil|]. by intros (? & _ & ?%elem_of_nil).
  - rewrite elem_of_app, IH. split.
    + intros [?|(l' & ? & ?)]; [exists l|exists l']; split; try done;
        [by left|by right].
    + intros (l' & Hx & [->|?]%elem_of_cons); [by left|right; eauto].
Qed.

Section ByKey.
Context {A B K : Type} `{!EqDecision K}.
Variables (ka : A → K) (kb : B → K).

Lemma filter_concat_other (l : list A) (cs : list (list B)) k :
  Forall2 (keyed ka kb) l cs → k ∉ ka <$> l →
  filter (fun b => kb b = k) (concat cs) = [].
Proof.
  induction 1 as [|a c l cs Hc _ IH]; intros Hk; [done|].
  simpl. rewrite filter_app.
  rewrite fmap_cons in Hk. apply not_elem_of_cons in Hk as [Hne Hk].
  rewrite IH by done. rewrite app_nil_r. apply filter_none.
  eapply Forall_impl; [exact Hc|]. simpl. congruence.
Qed.

Lemma filter_concat_by_key (l : list A) (cs : list (list B)) i a c :
  Forall2 (keyed ka kb) l cs → NoDup (ka <$> l) →
  l !! i = Some a → cs !! i = Some c →
  filter (fun b => kb b = ka a) (concat cs) = c.
Proof.
  intros Hall. revert i.
  induction Hall as [|a0 c0 l cs Hc Hall IH]; intros i Hnd Ha Hci; [done|].
  rewrite fmap_cons in Hnd. apply NoDup_cons in Hnd as [Hnotin Hnd].
  simpl. rewrite filter_app. destruct i as [|i]; simpl in *.
  - simplify_eq. rewrite filter_all by done.
    rewrite (filter_concat_other l cs) by done. by rewrite app_nil_r.
  - rewrite (IH i) by done.
    rewrite filter_none; [done|].
    eapply Forall_impl; [exact Hc|]. simpl. intros b Hb Heq.
    apply Hnotin. rewrite <- Hb, Heq.
    apply list_elem_of_fmap. exists a. split; [done|].
    by eapply list_elem_of_lookup_2.
Qed.
End ByKey.

Lemma order_chunk_keyed e C R o c :
  order_chunk e C R o c → keyed o_id r_id o c.
Proof.
  intros (prog & Hshape & ->). unfold keyed.
  destruct Hshape; repeat constructor.
Qed.

Lemma item_chunk_keyed o : keyed o_id i_order_id o (item_chunk o).
Proof.
  unfold keyed, item_chunk. apply Forall_fmap, Forall_forall. done.
Qed.

(** A row of [source_orders] comes from one logical order, whose rows and
    items are exactly the rows that carry its identifier. *)
Lemma order_record_origin ctx g r :
  generation_ok ctx g → r ∈ all_order_records g →
  ∃ o chunk,
    o ∈ g_pending_orders g ∧ r_id r = o_id o ∧ r ∈ chunk ∧
    order_chunk (g_end_datetime g) (g_completed_orders g)
                (g_refunded_orders g) o chunk ∧
    filter (fun r' => r_id r' = r_id r) (all_order_records g) = chunk ∧
    filter (fun it => i_order_id it = r_id r) (all_item_records g) = item_chunk o.
Proof.
  intros Hok Hr. destruct (ok_records _ _ Hok) as (chunks & Hall & Hrecs).
  rewrite Hrecs in Hr. apply elem_of_concat in Hr as (chunk & Hrc & Hc).
  apply list_elem_of_lookup in Hc as [i Hi].
  destruct (Forall2_lookup_r _ _ _ _ _ Hall Hi) as (o & Ho & Hchunk).
  assert (r_id r = o_id o) as Hid.
  { apply order_chunk_keyed in Hchunk. unfold keyed in Hchunk.
    rewrite Forall_forall in Hchunk. by apply Hchunk. }
  exists o, chunk. split_and!; try done.
  - by eapply list_elem_of_lookup_2.
  - rewrite Hrecs, Hid.
    eapply (filter_concat_by_key o_id r_id); [|apply (ok_ids _ _ Hok)|exact Ho|exact Hi].
    eapply Forall2_impl; [exact Hall|]. intros; by eapply order_chunk_keyed.
  - rewrite (ok_items _ _ Hok), Hid.
    eapply (filter_concat_by_key o_id i_order_id);
      [|apply (ok_ids _ _ Hok)|exact Ho|].
    + apply Forall2_fmap_r, Forall_Forall2_diag, Forall_forall.
      intros; apply item_chunk_keyed.
    + rewrite list_lookup_fmap, Ho. done.
Qed.

Lemma NoDup_fmap_eq {A B} (f : A → B) (l : list A) x y :
  NoDup (f <$> l) → x ∈ l → y ∈ l → f x = f y → x = y.
Proof.
  induction l as [|a l IH]; intros Hnd Hx Hy Hf; [by apply elem_of_nil in Hx|].
  rewrite fmap_cons in Hnd. apply NoDup_cons in Hnd as [Hnotin Hnd].
  apply elem_of_cons in Hx as [->|Hx]; apply elem_of_cons in Hy as [->|Hy].
  - done.
  - exfalso. apply Hnotin. rewrite Hf. by apply list_elem_of_fmap_2.
  - exfalso. apply Hnotin. rewrite <- Hf. by apply list_elem_of_fmap_2.
  - by apply IH.
Qed.

Lemma order_chunk_fields e C R o c :
  order_chunk e C R o c →
  Forall (fun r => r_id r = o_id o ∧ r_order_date r = o_order_date o) c.
Proof.
  intros (prog & Hshape & ->). destruct Hshape; repeat constructor.
Qed.

Lemma pending_record_emitted ctx g o :
  generation_ok ctx g → o ∈ g_pending_orders g →
  status_record o pending (o_order_date o) ∈ all_order_records g.
Proof.
  intros Hok Ho. destruct (ok_records _ _ Hok) as (chunks & Hall & ->).
  apply list_elem_of_lookup in Ho as [i Hi].
  destruct (Forall2_lookup_l _ _ _ _ _ Hall Hi) as (c & Hc & (prog & _ & ->)).
  apply elem_of_concat. eexists. split; [by left|].
  by eapply list_elem_of_lookup_2.
Qed.

(** * The claims *)

(** ** Totals *)

(** C1. In every run of the new-lifecycle engine, all the status rows of a
    logical order carry the same total_amount, and that amount is the sum
    over the order's item rows of quantity × unit_price; it is 0 when the
    order has no item row. *)
Theorem total_amount_is_item_sum ctx now num_orders max_items days start_date
    w g r r' :
  result_of (new_lifecycle_generate ctx now num_orders max_items days
               start_date w) = Some (Some g) →
  r ∈ all_order_records g → r' ∈ all_order_records g → r_id r' = r_id r →
  r_total_amount r' = r_total_amount r ∧
  r_total_amount r =
    item_records_total (items_of (r_id r) (all_item_records g)) ∧
  (items_of (r_id r) (all_item_records g) = [] → r_total_amount r = 0).
Proof.
  intros Hrun Hr Hr' Hid.
  apply result_of_Some in Hrun as [w' Hrun].
  apply new_lifecycle_generate_ok in Hrun as Hok.
  assert (∀ x, x ∈ all_order_records g →
            r_total_amount x =
            item_records_total (items_of (r_id x) (all_item_records g)))
    as Htotal.
  { intros x Hx.
    destruct (order_record_origin _ _ _ Hok Hx)
      as (o & chunk & Ho & Hxo & Hxc & Hchunk & _ & Hitems).
    unfold items_of. rewrite Hitems. unfold item_chunk.
    rewrite item_records_total_tuple.
    pose proof (ok_orders _ _ Hok) as Hords. rewrite Forall_forall in Hords.
    destruct (Hords _ Ho) as (Htot & _). rewrite <- Htot.
    destruct Hchunk as (prog & Hshape & ->).
    apply elem_of_cons in Hxc as [->|Hxc]; [done|].
    destruct Hshape; repeat (apply elem_of_cons in Hxc as [->|Hxc]; [done|]);
      by apply elem_of_nil in Hxc. }
  split_and!.
  - rewrite (Htotal r), (Htotal r') by done. by rewrite Hid.
  - by apply Htotal.
  - intros Hnil. by rewrite (Htotal r), Hnil.
Qed.

Lemma total_amount_is_item_sum_witness :
  r_total_amount demo_completed_record = r_total_amount demo_pending_record ∧
  r_total_amount demo_pending_record =
    item_records_total
      (items_of (r_id demo_pending_record) (all_item_records demo_generation)) ∧
  (items_of (r_id demo_pending_record) (all_item_records demo_generation) = [] →
   r_total_amount demo_pending_record = 0).
Proof.
  apply (total_amount_is_item_sum demo_ctx 0 13 3 30 (Some 20089) demo_world
           demo_generation demo_pending_record demo_completed_record).
  - vm_compute. reflexivity.
  - apply (list_elem_of_lookup_2 _ 19%nat). vm_compute. reflexivity.
  - apply (list_elem_of_lookup_2 _ 20%nat). vm_compute. reflexivity.
  - reflexivity.
Defined.

(** ** Lifecycle shape *)

(** C2. In every run of the new-lifecycle engine there are as many
    logical orders as were requested, every status row belongs to one of
    them, and the rows of a logical order are: exactly one pending row,
    dated at the order's original order date; exactly one terminal row,
    completed or cancelled and never both; and at most one refunded row,
    present only when the terminal row is the completed one. *)
Theorem one_pending_one_terminal ctx now num_orders max_items days start_date
    w g o :
  result_of (new_lifecycle_generate ctx now num_orders max_items days
               start_date w) = Some (Some g) →
  o ∈ g_pending_orders g →
  let recs := records_of (o_id o) (all_order_records g) in
  (∃ p, with_status pending recs = [p] ∧ r_created_at p = o_order_date o) ∧
  Forall (fun r => r_order_date r = o_order_date o) recs ∧
  (length (with_status completed recs) +
   length (with_status cancelled recs) = 1)%nat ∧
  (length (with_status refunded recs) ≤
   length (with_status completed recs))%nat ∧
  length (g_pending_orders g) = Z.to_nat num_orders ∧
  (∀ r, r ∈ all_order_records g →
        ∃ o', o' ∈ g_pending_orders g ∧ r_id r = o_id o').
Proof.
  intros Hrun Ho recs.
  apply result_of_Some in Hrun as [w' Hrun].
  apply new_lifecycle_generate_ok in Hrun as Hok.
  pose proof (pending_record_emitted _ _ _ Hok Ho) as Hr.
  destruct (order_record_origin _ _ _ Hok Hr)
    as (o' & chunk & Ho' & Hid & Hrc & Hchunk & Hrecs & _).
  simpl in Hid, Hrecs.
  assert (o' = o) as ->.
  { eapply NoDup_fmap_eq; [exact (ok_ids _ _ Hok)|done|done|congruence]. }
  subst recs. unfold records_of. rewrite Hrecs.
  destruct Hchunk as (prog & Hshape & ->).
  split_and!.
  - destruct Hshape; eexists; split; reflexivity.
  - destruct Hshape; repeat constructor.
  - destruct Hshape; reflexivity.
  - destruct Hshape; cbv; lia.
  - by eapply new_lifecycle_generate_count.
  - intros r Hr'.
    destruct (order_record_origin _ _ _ Hok Hr') as (o2 & _ & ? & ? & _).
    eauto.
Qed.

Lemma one_pending_one_terminal_witness :
  let recs := records_of (o_id demo_order) (all_order_records demo_generation) in
  (∃ p, with_status pending recs = [p] ∧
        r_created_at p = o_order_date demo_order) ∧
  Forall (fun r => r_order_date r = o_order_date demo_order) recs ∧
  (length (with_status completed recs) +
   length (with_status cancelled recs) = 1)%nat ∧
  (length (with_status refunded recs) ≤
   length (with_status completed recs))%nat ∧
  length (g_pending_orders demo_generation) = Z.to_nat 13 ∧
  (∀ r, r ∈ all_order_records demo_generation →
        ∃ o', o' ∈ g_pending_orders demo_generation ∧ r_id r = o_id o').
Proof.
  apply (one_pending_one_terminal demo_ctx 0 13 3 30 (Some 20089) demo_world
           demo_generation demo_order).
  - vm_compute. reflexivity.
  - apply (list_elem_of_lookup_2 _ 9%nat). vm_compute. reflexivity.
Defined.

(** ** Items, orders and products *)

Lemma product_dict_lookup_acc rows (m : gmap Z product_info) k info :
  foldl (fun m row =>
           <[p_id row := {| pd_created_at := p_created_at row;
                            pd_price := p_price row |}]> m) m rows !! k
    = Some info →
  (∃ row, row ∈ rows ∧ p_id row = k ∧ pd_created_at info = p_created_at row)
  ∨ m !! k = Some info.
Proof.
  revert m. induction rows as [|row rows IH]; intros m H; simpl in H; [by right|].
  apply IH in H as [(row' & ? & ? & ?)|H].
  - left. exists row'. split_and!; try done. by right.
  - destruct (decide (p_id row = k)) as [<-|Hne].
    + rewrite lookup_insert_eq in H. simplify_eq. left. exists row.
      split_and!; try done. by left.
    + rewrite lookup_insert_ne in H by done. by right.
Qed.

Lemma product_dict_lookup rows k info :
  product_dict rows !! k = Some info →
  ∃ row, row ∈ rows ∧ p_id row = k ∧ pd_created_at info = p_created_at row.
Proof.
  intros H. apply product_dict_lookup_acc in H as [?|H]; [done|].
  by rewrite lookup_empty in H.
Qed.

(** C4. In every run of the new-lifecycle engine, an item row belongs to a
    logical order and refers to a product of the catalogue such that the
    product's creation timestamp is at or before the order's original
    order date, which is at or before the item's creation timestamp; the
    order date is the one of every row of that order, and the product is
    the only one with that identifier ([id] is the primary key). *)
Theorem item_after_order_and_product ctx now num_orders max_items days
    start_date w g it :
  result_of (new_lifecycle_generate ctx now num_orders max_items days
               start_date w) = Some (Some g) →
  NoDup (p_id <$> source_products (db ctx)) →
  it ∈ all_item_records g →
  ∃ r row,
    r ∈ all_order_records g ∧ r_id r = i_order_id it ∧ r_status r = pending ∧
    row ∈ source_products (db ctx) ∧ p_id row = i_product_id it ∧
    p_created_at row ≤ r_order_date r ∧ r_order_date r ≤ i_created_at it ∧
    (∀ r', r' ∈ all_order_records g → r_id r' = i_order_id it →
           r_order_date r' = r_order_date r) ∧
    (∀ row', row' ∈ source_products (db ctx) → p_id row' = i_product_id it →
             row' = row).
Proof.
  intros Hrun Hkey Hit.
  apply result_of_Some in Hrun as [w' Hrun].
  apply new_lifecycle_generate_ok in Hrun as Hok.
  rewrite (ok_items _ _ Hok) in Hit.
  apply elem_of_concat in Hit as (c & Hitc & Hc).
  apply list_elem_of_fmap in Hc as (o & -> & Ho).
  apply list_elem_of_fmap in Hitc as (i & -> & Hi).
  pose proof (ok_orders _ _ Hok) as Hords. rewrite Forall_forall in Hords.
  destruct (Hords _ Ho) as (_ & _ & _ & Hitems).
  rewrite Forall_forall in Hitems.
  destruct (Hitems _ Hi) as (Hdate & info & Hinfo & Hprod).
  apply product_dict_lookup in Hinfo as (row & Hrow & Hrid & Hcreated).
  exists (status_record o pending (o_order_date o)), row. simpl.
  split_and!; try done.
  - by eapply pending_record_emitted.
  - lia.
  - intros r' Hr' Hid'.
    destruct (order_record_origin _ _ _ Hok Hr')
      as (o' & chunk & Ho' & Hro' & Hrc & Hchunk & _).
    assert (o' = o) as ->.
    { eapply NoDup_fmap_eq; [exact (ok_ids _ _ Hok)|done|done|congruence]. }
    apply order_chunk_fields in Hchunk. rewrite Forall_forall in Hchunk.
    by destruct (Hchunk _ Hrc).
  - intros row' Hrow' Hid'.
    eapply NoDup_fmap_eq; [exact Hkey|done|done|congruence].
Qed.

Lemma item_after_order_and_product_witness :
  ∃ r row,
    r ∈ all_order_records demo_generation ∧
    r_id r = i_order_id demo_item_record ∧ r_status r = pending ∧
    row ∈ source_products (db demo_ctx) ∧
    p_id row = i_product_id demo_item_record ∧
    p_created_at row ≤ r_order_date r ∧
    r_order_date r ≤ i_created_at demo_item_record ∧
    (∀ r', r' ∈ all_order_records demo_generation →
           r_id r' = i_order_id demo_item_record →
           r_order_date r' = r_order_date r) ∧
    (∀ row', row' ∈ source_products (db demo_ctx) →
             p_id row' = i_product_id demo_item_record → row' = row).
Proof.
  apply (item_after_order_and_product demo_ctx 0 13 3 30 (Some 20089)
           demo_world demo_generation demo_item_record).
  - vm_compute. reflexivity.
  - apply (bool_decide_unpack _). vm_compute. exact I.
  - apply (list_elem_of_lookup_2 _ 11%nat). vm_compute. reflexivity.
Defined.

(** ** Status resolution *)

Lemma chunks_count e C R pending chunks :
  Forall2 (order_chunk e C R) pending chunks →
  length (with_status completed (concat chunks))
    = length (filter (fun o => o ∈ C) pending) ∧
  length (with_status cancelled (concat chunks))
    = length (filter (fun o => o ∉ C) pending).
Proof.
  unfold with_status.
  induction 1 as [|o c pending chunks Hc _ [IH1 IH2]]; [done|].
  simpl concat. rewrite !filter_app, !length_app, IH1, IH2.
  destruct Hc as (prog & Hshape & ->).
  destruct Hshape.
  - rewrite (filter_cons_False (fun o => o ∈ C)) by done.
    rewrite (filter_cons_True (fun o => o ∉ C)) by done. done.
  - rewrite (filter_cons_True (fun o => o ∈ C)) by done.
    rewrite (filter_cons_False (fun o => o ∉ C)) by (intros Hn; by apply Hn).
    done.
  - rewrite (filter_cons_True (fun o => o ∈ C)) by done.
    rewrite (filter_cons_False (fun o => o ∉ C)) by (intros Hn; by apply Hn).
    done.
Qed.

Lemma filter_elem_of_length {A} `{!EqDecision A} (l C : list A) :
  NoDup l → NoDup C → (∀ x, x ∈ C → x ∈ l) →
  length (filter (fun x => x ∈ C) l) = length C.
Proof.
  intros Hl HC Hsub. apply Permutation_length, NoDup_Permutation.
  - by apply NoDup_filter.
  - done.
  - intros x. rewrite list_elem_of_filter.
    split; [by intros [? _]|intros Hx; split; auto].
Qed.

Lemma items_of_order ctx g o :
  generation_ok ctx g → o ∈ g_pending_orders g →
  items_of (o_id o) (all_item_records g) = item_chunk o.
Proof.
  intros Hok Ho. apply list_elem_of_lookup in Ho as [i Hi].
  unfold items_of. rewrite (ok_items _ _ Hok).
  eapply (filter_concat_by_key o_id i_order_id);
    [|apply (ok_ids _ _ Hok)|exact Hi|].
  - apply Forall2_fmap_r, Forall_Forall2_diag, Forall_forall.
    intros; apply item_chunk_keyed.
  - rewrite list_lookup_fmap, Hi. done.
Qed.

(** C5. In every run of the new-lifecycle engine: a logical order with no
    item row has one cancelled row and neither a completed nor a refunded
    row; the orders flagged as having items are those with an item row;
    the number of completed orders is the integer part of the number of
    orders with items times a rate between 0.90 and 1.00; and every other
    order is cancelled. *)
Theorem zero_item_orders_are_cancelled ctx now num_orders max_items days
    start_date w g :
  result_of (new_lifecycle_generate ctx now num_orders max_items days
               start_date w) = Some (Some g) →
  (∀ r, r ∈ all_order_records g →
        items_of (r_id r) (all_item_records g) = [] →
        let recs := records_of (r_id r) (all_order_records g) in
        with_status completed recs = [] ∧ with_status refunded recs = [] ∧
        length (with_status cancelled recs) = 1%nat) ∧
  (∀ o, o ∈ g_pending_orders g →
        (o_has_items o = true ↔ items_of (o_id o) (all_item_records g) ≠ [])) ∧
  ((9 # 10 <= g_completion_rate g)%Q ∧ (g_completion_rate g <= 1)%Q) ∧
  Z.of_nat (length (with_status completed (all_order_records g))) =
    py_int (inject_Z (Z.of_nat (length (orders_with_items g)))
            * g_completion_rate g) ∧
  (length (with_status completed (all_order_records g)) +
   length (with_status cancelled (all_order_records g))
   = length (g_pending_orders g))%nat.
Proof.
  intros Hrun.
  apply result_of_Some in Hrun as [w' Hrun].
  apply new_lifecycle_generate_ok in Hrun as Hok.
  pose proof (ok_orders _ _ Hok) as Hords. rewrite Forall_forall in Hords.
  assert (∀ o, o ∈ g_pending_orders g →
               (o_has_items o = true ↔
                items_of (o_id o) (all_item_records g) ≠ [])) as Hflag.
  { intros o Ho. rewrite (items_of_order _ _ _ Hok Ho). unfold item_chunk.
    destruct (Hords _ Ho) as (_ & Hfalse & Htrue & _).
    split.
    - intros Ht Hnil. apply fmap_nil_inv in Hnil. by apply Htrue.
    - intros Hne. destruct (o_has_items o); [done|].
      rewrite Hfalse in Hne; done. }
  destruct (ok_records _ _ Hok) as (chunks & Hall & Hrecs).
  destruct (chunks_count _ _ _ _ _ Hall) as [Hcompl Hcanc].
  rewrite <- Hrecs in Hcompl, Hcanc.
  assert (NoDup (g_pending_orders g)) as Hnd
    by (eapply NoDup_fmap_1; exact (ok_ids _ _ Hok)).
  split_and!.
  - intros r Hr Hnil recs.
    destruct (order_record_origin _ _ _ Hok Hr)
      as (o & chunk & Ho & Hid & Hrc & Hchunk & Hrs & _).
    subst recs. unfold records_of. rewrite Hrs.
    assert (o ∉ g_completed_orders g) as Hnc.
    { intros Hc. apply (ok_completed _ _ Hok) in Hc as [_ Hc].
      apply (Hflag _ Ho) in Hc. apply Hc. by rewrite <- Hid. }
    destruct Hchunk as (prog & Hshape & ->).
    destruct Hshape; done.
  - exact Hflag.
  - exact (proj1 (ok_rate _ _ Hok)).
  - exact (proj2 (ok_rate _ _ Hok)).
  - rewrite Hcompl, filter_elem_of_length.
    + exact (ok_completed_count _ _ Hok).
    + done.
    + exact (ok_completed_NoDup _ _ Hok).
    + intros o Ho. by apply (ok_completed _ _ Hok).
  - rewrite Hcompl, Hcanc, <- length_app.
    apply Permutation_length, filter_app_complement.
Qed.

Lemma zero_item_orders_are_cancelled_witness :
  (∀ r, r ∈ all_order_records demo_generation →
        items_of (r_id r) (all_item_records demo_generation) = [] →
        let recs := records_of (r_id r) (all_order_records demo_generation) in
        with_status completed recs = [] ∧ with_status refunded recs = [] ∧
        length (with_status cancelled recs) = 1%nat) ∧
  (∀ o, o ∈ g_pending_orders demo_generation →
        (o_has_items o = true ↔
         items_of (o_id o) (all_item_records demo_generation) ≠ [])) ∧
  ((9 # 10 <= g_completion_rate demo_generation)%Q ∧
   (g_completion_rate demo_generation <= 1)%Q) ∧
  Z.of_nat (length (with_status completed (all_order_records demo_generation))) =
    py_int (inject_Z (Z.of_nat (length (orders_with_items demo_generation)))
            * g_completion_rate demo_generation) ∧
  (length (with_status completed (all_order_records demo_generation)) +
   length (with_status cancelled (all_order_records demo_generation))
   = length (g_pending_orders demo_generation))%nat.
Proof.
  apply (zero_item_orders_are_cancelled demo_ctx 0 13 3 30 (Some 20089)
           demo_world demo_generation).
  vm_compute. reflexivity.
Defined.

(** ** A window that ends before the first product *)

Lemma sql_min_spec l m :
  sql_min l = Some m → m ∈ l ∧ ∀ x, x ∈ l → m ≤ x.
Proof.
  revert m. induction l as [|y l IH]; intros m H; [discriminate|].
  simpl in H. destruct (sql_min l) as [m'|] eqn:Hl.
  - destruct (IH _ eq_refl) as [Hin Hle]. simplify_eq. split.
    + destruct (Z.min_spec y m') as [[_ ->]|[_ ->]]; [by left|by right].
    + intros x [->|Hx]%elem_of_cons; [lia|]. specialize (Hle _ Hx). lia.
  - simplify_eq. destruct l; [|discriminate]. split; [by left|].
    intros x [->|Hx]%elem_of_cons; [lia|]. by apply elem_of_nil in Hx.
Qed.

Lemma sql_min_None l : sql_min l = None → l = [].
Proof. destruct l; [done|discriminate]. Qed.

Lemma product_dict_nonempty rows : rows ≠ [] → product_dict rows ≠ ∅.
Proof.
  destruct rows as [|r rows _] using rev_ind; [done|]. intros _.
  unfold product_dict. rewrite foldl_app. simpl. apply insert_non_empty.
Qed.

Lemma choice_nonempty {A} (l : list A) w :
  l ≠ [] → ∃ x w', choice l w = Ok x w'.
Proof. destruct l; [done|]. intros _. unfold choice. eauto. Qed.

Lemma generate_random_timestamp_empty_window start_date end_date w :
  end_date < start_date →
  generate_random_timestamp start_date end_date w = Raise ValueError.
Proof.
  intros H. unfold generate_random_timestamp. apply bind_Raise.
  apply randint_empty. unfold td_days.
  apply Z.div_lt_upper_bound; [done|]. lia.
Qed.

(** C10. When the end of the window computed for the orders table precedes
    the creation timestamp of the earliest product, the engine moves the
    start of the window to one minute after the earliest product it has
    read, so that the window ends before it starts; with at least one
    order requested the first draw of an order date then calls
    [randint] on an empty range and the run raises [ValueError] instead of
    returning the reported abort. *)
Theorem window_before_products_raises ctx now num_orders max_items days
    start_date w first_product :
  connected ctx = true →
  source_customers (db ctx) ≠ [] →
  sql_min (p_created_at <$> source_products (db ctx)) = Some first_product →
  (standalone_calculate_date_range (db ctx) now t_source_orders days
     start_date).2 < first_product →
  0 < num_orders →
  ∃ min_product_time,
    sql_min (pd_created_at <$>
             (snd <$> map_to_list (product_dict (source_products (db ctx)))))
      = Some min_product_time ∧
    first_product ≤ min_product_time ∧
    (let '(range_start, range_end) :=
       standalone_calculate_date_range (db ctx) now t_source_orders days
         start_date in
     let '(start_datetime, end_datetime) :=
       order_window (db ctx) now days start_date min_product_time in
     end_datetime = range_end ∧ end_datetime < start_datetime ∧
     (range_start ≤ range_end →
      start_datetime = min_product_time + mk_timedelta 0 0 1 0) ∧
     ∀ w1, generate_random_timestamp start_datetime end_datetime w1
           = Raise ValueError) ∧
    new_lifecycle_generate ctx now num_orders max_items days start_date w
      = Raise ValueError ∧
    populate_orders_and_items_new_lifecycle ctx now num_orders max_items days
      start_date w = Raise ValueError.
Proof.
  intros Hconn Hcust Hfirst Hend Hn.
  assert (source_products (db ctx) ≠ []) as Hrows.
  { intros Hnil. rewrite Hnil in Hfirst. discriminate. }
  pose proof (product_dict_nonempty _ Hrows) as Hdict.
  destruct (sql_min (pd_created_at <$>
              (snd <$> map_to_list (product_dict (source_products (db ctx))))))
    as [mp|] eqn:Hmin.
  2:{ apply sql_min_None in Hmin. apply fmap_nil_inv, fmap_nil_inv in Hmin.
      by apply map_to_list_empty_iff in Hmin. }
  assert (first_product ≤ mp) as Hle.
  { apply sql_min_spec in Hmin as [Hin _].
    apply list_elem_of_fmap in Hin as (info & -> & Hin).
    apply list_elem_of_fmap in Hin as ([k info'] & -> & Hin).
    apply elem_of_map_to_list in Hin.
    apply product_dict_lookup in Hin as (row & Hrow & _ & Heq).
    simpl. rewrite Heq.
    apply sql_min_spec in Hfirst as [_ Hall]. apply Hall.
    by apply list_elem_of_fmap_2. }
  assert (let '(s, e) := order_window (db ctx) now days start_date mp in
          e = (standalone_calculate_date_range (db ctx) now t_source_orders
                 days start_date).2 ∧ e < s ∧
          ((standalone_calculate_date_range (db ctx) now t_source_orders
              days start_date).1 ≤
           (standalone_calculate_date_range (db ctx) now t_source_orders
              days start_date).2 → s = mp + mk_timedelta 0 0 1 0)) as Hwin.
  { unfold order_window.
    destruct (standalone_calculate_date_range _ _ _ _ _) as [rs re].
    simpl in *. destruct (Z.ltb_spec rs mp) as [Hlt|Hge].
    - split_and!; [done| |done]. unfold mk_timedelta, us_per_minute, us_per_second. lia.
    - split_and!; [done|lia|lia]. }
  assert (new_lifecycle_generate ctx now num_orders max_items days start_date w
          = Raise ValueError) as Hraise.
  { unfold new_lifecycle_generate. rewrite Hconn. simpl.
    rewrite bool_decide_eq_false_2 by (by intros ?%fmap_nil_inv).
    rewrite bool_decide_eq_false_2 by done.
    rewrite Hmin.
    destruct (order_window _ _ _ _ _) as [s e]. destruct Hwin as (_ & Hlt & _).
    apply bind_Raise.
    destruct (Z.to_nat num_orders) as [|n] eqn:Hnat; [lia|].
    apply repeatM_Raise_first. unfold stage1_step.
    destruct (choice_nonempty (c_id <$> source_customers (db ctx)) w)
      as (cid & w1 & Hc); [by intros ?%fmap_nil_inv|].
    rewrite (bind_step _ _ _ _ _ Hc). apply bind_Raise.
    by apply generate_random_timestamp_empty_window. }
  exists mp. split_and!; try done.
  - destruct (standalone_calculate_date_range _ _ _ _ _) as [rs re].
    destruct (order_window _ _ _ _ _) as [s e].
    destruct Hwin as (He & Hlt & Hpush). simpl in *.
    split_and!; try done.
    intros w1. by apply generate_random_timestamp_empty_window.
  - unfold populate_orders_and_items_new_lifecycle. by apply bind_Raise.
Qed.

Lemma window_before_products_raises_witness :
  ∃ min_product_time,
    sql_min (pd_created_at <$>
             (snd <$> map_to_list (product_dict (source_products (db demo_ctx)))))
      = Some min_product_time ∧
    strptime_date 20085 ≤ min_product_time ∧
    (let '(range_start, range_end) :=
       standalone_calculate_date_range (db demo_ctx) 0 t_source_orders 30
         (Some 20000) in
     let '(start_datetime, end_datetime) :=
       order_window (db demo_ctx) 0 30 (Some 20000) min_product_time in
     end_datetime = range_end ∧ end_datetime < start_datetime ∧
     (range_start ≤ range_end →
      start_datetime = min_product_time + mk_timedelta 0 0 1 0) ∧
     ∀ w1, generate_random_timestamp start_datetime end_datetime w1
           = Raise ValueError) ∧
    new_lifecycle_generate demo_ctx 0 1 3 30 (Some 20000) demo_world
      = Raise ValueError ∧
    populate_orders_and_items_new_lifecycle demo_ctx 0 1 3 30 (Some 20000)
      demo_world = Raise ValueError.
Proof.
  apply (window_before_products_raises demo_ctx 0 1 3 30 (Some 20000)
           demo_world (strptime_date 20085)).
  - reflexivity.
  - discriminate.
  - vm_compute. reflexivity.
  - vm_compute. reflexivity.
  - lia.
Defined.

(** ** Where the clamp and the random date break the order of the stages *)

(** C3, at two runs over the thirty days from 2025-01-01.  In the first
    the order placed on 2025-01-30 at 21:56:55, inside the window, is due
    for cancellation one to four days later, past the end of the window,
    so the cancelled row is dated four hours before the end: before the
    pending row.  In the second an order is completed inside the window and its
    refund, due past the end, is dated twelve hours before the end:
    before the completed row. *)
Theorem stage_order_broken_by_clamp :
  (result_of demo_run = Some (Some demo_generation) ∧
   ∃ p t,
     all_order_records demo_generation !! 0%nat = Some p ∧
     all_order_records demo_generation !! 1%nat = Some t ∧
     r_id t = r_id p ∧ r_status p = pending ∧ r_status t = cancelled ∧
     g_start_datetime demo_generation ≤ r_order_date p ∧
     r_order_date p ≤ g_end_datetime demo_generation ∧
     r_created_at t < r_created_at p) ∧
  (result_of clamp_run = Some (Some clamp_generation) ∧
   ∃ c f,
     all_order_records clamp_generation !! 1%nat = Some c ∧
     all_order_records clamp_generation !! 2%nat = Some f ∧
     r_id f = r_id c ∧ r_status c = completed ∧ r_status f = refunded ∧
     r_created_at c ≤ g_end_datetime clamp_generation ∧
     r_created_at f < r_created_at c).
Proof.
  split; (split; [vm_compute; reflexivity|]);
    eexists _, _; split_and!; try reflexivity; vm_compute; congruence.
Qed.

(** C6, at the first of these runs: the order stamped 2025-01-31 15:26:25
    has its pending row, and its item, dated after the end of the window,
    2025-01-31 00:00:00. *)
Theorem timestamps_past_window_end :
  result_of demo_run = Some (Some demo_generation) ∧
  ∃ p it,
    all_order_records demo_generation !! 12%nat = Some p ∧
    all_item_records demo_generation !! 7%nat = Some it ∧
    r_status p = pending ∧ i_order_id it = r_id p ∧
    g_end_datetime demo_generation = strptime_date 20089 + mk_timedelta 30 0 0 0 ∧
    g_end_datetime demo_generation < r_created_at p ∧
    g_end_datetime demo_generation < i_created_at it.
Proof.
  split; [vm_compute; reflexivity|].
  eexists _, _; split_and!; try reflexivity; vm_compute; congruence.
Qed.

(** The date drawn by [generate_random_timestamp] can pass the end of its
    range by up to 23:59:59. *)
Lemma generate_random_timestamp_overshoot :
  result_of (generate_random_timestamp (strptime_date 20089)
               (strptime_date 20090) demo_world)
  = Some (strptime_date 20090 + mk_timedelta 0 22 57 56).
Proof. vm_compute. reflexivity. Qed.

(** ** The date range *)

(** C7 fails for the range of the run: asked on 2025-01-12 for the thirty
    days from 2025-01-01, the function returns an end on 2025-01-31, after
    the current time. *)
Lemma standalone_range_not_as_specified :
  ¬ date_range_as_specified (db demo_ctx) (strptime_date 20100)
      t_source_orders 30 (Some 20089)
      (standalone_calculate_date_range (db demo_ctx) (strptime_date 20100)
         t_source_orders 30 (Some 20089)).
Proof. intros (_ & H & _). vm_compute in H. by apply H. Qed.

(** On an empty table and with no start date the range of the run starts at
    the current time, not at a fixed date, and ends thirty days later. *)
Lemma standalone_range_on_empty_table :
  standalone_calculate_date_range (db demo_ctx) (strptime_date 20100)
    t_source_orders 30 None
  = (strptime_date 20100, strptime_date 20130).
Proof. vm_compute. reflexivity. Qed.

(** C7, amended.  The range of the run starts at midnight of the explicit
    start date when one is given; otherwise at a time not earlier than the
    latest row of the table, or at the current time when the table is
    empty; and it always ends exactly [days] days after its start, whatever
    the current time. *)
Theorem standalone_date_range_spec s now t days start_date :
  let '(start_datetime, end_datetime) :=
    standalone_calculate_date_range s now t days start_date in
  end_datetime = start_datetime + mk_timedelta days 0 0 0 ∧
  match start_date with
  | Some d => start_datetime = strptime_date d
  | None =>
      match select_max_created_at s t with
      | Some m => m ≤ start_datetime
      | None => start_datetime = now
      end
  end.
Proof.
  unfold standalone_calculate_date_range.
  destruct start_date as [d|]; [done|].
  destruct (select_max_created_at s t); split; done || lia.
Qed.

(** ** Two runs in succession *)

(** With no start date, the range starts exactly at the latest row of a
    table that has rows. *)
Lemma standalone_start_is_max s now t days m :
  select_max_created_at s t = Some m →
  (standalone_calculate_date_range s now t days None).1 = m.
Proof. intros Hm. unfold standalone_calculate_date_range. by rewrite Hm. Qed.

(** C8, at two runs in succession: the worked run of thirteen orders from
    2025-01-01, then a run for one order with no start date against the
    store that the first has left.  The window of the second run starts
    at the latest timestamp of the first run, not after it; the order it
    generates is dated at that very timestamp and receives the identifier
    of the first-run order stamped 2025-01-31 15:26:25. *)
Theorem second_run_collides_with_first :
  result_of first_run = Some (true, after_first_run) ∧
  result_of second_run = Some (Some second_generation) ∧
  select_max_created_at (db after_first_run) t_source_orders
    = Some (g_start_datetime second_generation) ∧
  ∃ old new,
    source_orders (db after_first_run) !! 12%nat = Some old ∧
    all_order_records second_generation !! 0%nat = Some new ∧
    r_status old = pending ∧ r_status new = pending ∧
    r_created_at new = r_created_at old ∧
    r_id new = r_id old.
Proof.
  split_and!; try (vm_compute; reflexivity).
  eexists _, _; split_and!; reflexivity.
Qed.

(** ** Emails *)

(** C9, for two customers requested against the store of the worked run,
    which holds ada@example.org: after fifty retries the loop keeps the
    email it has, so both new customers get the persisted email. *)
Theorem duplicate_email_after_retries :
  ∃ a b,
    result_of (populate_customers demo_ctx 0 2 30 (Some 20089) same_email_world)
      = Some [a; b] ∧
    (c_email <$> source_customers (db demo_ctx)) !! 0%nat = Some (n_email a) ∧
    n_email b = n_email a.
Proof.
  eexists _, _; split_and!; [vm_compute; reflexivity|reflexivity|reflexivity].
Qed.

(** The loop keeps an email that is already taken only when the first
    candidate and every retry of the budget were taken. *)
Lemma retry_email_duplicate budget existing_emails email w email' w' :
  retry_email budget existing_emails email w = Ok email' w' →
  email' ∈ existing_emails →
  email ∈ existing_emails ∧
  ∀ i, (i < budget)%nat → faker_tape w i ∈ existing_emails.
Proof.
  revert email w. induction budget as [|budget IH]; intros email w H Hdup; simpl in H.
  - ret_inv H. split; [done|]. lia.
  - destruct (decide (email ∈ existing_emails)) as [Hin|Hnot]; [|by ret_inv H].
    bind_inv H. unfold next_fake in E. simplify_eq.
    apply IH in H as [Hv Htape]; [|done]. split; [done|].
    intros [|i] Hi; [done|]. apply (Htape i). lia.
Qed.

(** * Further properties of the script *)

(** ** Computations that return *)

Lemma returns_ret {A} (a : A) w (P : A → Prop) : P a → returns (mret a) w P.
Proof. intros H. exists a, w. done. Qed.

Lemma returns_bind {A B} (m : M A) (f : A → M B) w (P : A → Prop) (Q : B → Prop) :
  returns m w P → (∀ a w1, P a → returns (f a) w1 Q) → returns (m ≫= f) w Q.
Proof.
  intros (a & w1 & Hm & Ha) Hf. destruct (Hf a w1 Ha) as (b & w2 & Hb & HQ).
  exists b, w2. split; [|done]. by rewrite (bind_step _ _ _ _ _ Hm).
Qed.

Lemma returns_weaken {A} (m : M A) w (P Q : A → Prop) :
  returns m w P → (∀ a, P a → Q a) → returns m w Q.
Proof. intros (a & w' & Hm & Ha) HPQ. exists a, w'. auto. Qed.

Lemma returns_post {A} (m : M A) w (Q : A → Prop) :
  returns m w (fun _ => True) → (∀ a w', m w = Ok a w' → Q a) → returns m w Q.
Proof. intros (a & w' & Hm & _) HQ. exists a, w'. eauto. Qed.

Lemma returns_randbelow n w : 0 < n → returns (randbelow n) w (fun z => 0 ≤ z < n).
Proof.
  intros Hn. unfold randbelow. eapply (returns_bind _ _ _ (fun _ => True)).
  - exists (rand_tape w O). eexists. split; [reflexivity|]. exact I.
  - intros z w1 _. apply returns_ret. by apply Z.mod_pos_bound.
Qed.

Lemma returns_randint a b w : a ≤ b → returns (randint a b) w (fun z => a ≤ z ≤ b).
Proof.
  intros Hab. unfold randint. rewrite (proj2 (Z.ltb_ge b a) Hab).
  eapply returns_bind; [apply returns_randbelow; lia|].
  intros z w1 Hz. apply returns_ret. cbv beta in *. lia.
Qed.

Lemma returns_choice {A} (l : list A) w : l ≠ [] → returns (choice l) w (fun x => x ∈ l).
Proof.
  intros Hl. destruct (choice_nonempty l w Hl) as (x & w' & Hx).
  exists x, w'. split; [done|]. by eapply choice_Ok.
Qed.

Lemma returns_random_unit w :
  returns random_unit w (fun u => (0 <= u)%Q ∧ (u < 1)%Q).
Proof.
  apply returns_post.
  - unfold random_unit. eapply returns_bind; [by apply returns_randbelow|].
    intros z w1 _. by apply returns_ret.
  - intros u w' Hu. by eapply random_unit_Ok.
Qed.

Lemma returns_uniform a b w :
  (a <= b)%Q → returns (uniform a b) w (fun q => (a <= q)%Q ∧ (q <= b)%Q).
Proof.
  intros Hab. apply returns_post.
  - unfold uniform. eapply returns_bind; [apply returns_random_unit|].
    intros u w1 _. by apply returns_ret.
  - intros q w' Hq. eapply uniform_Ok; eauto.
Qed.

Lemma returns_sample_loop {A} k (pool : list A) w :
  (k ≤ length pool)%nat → returns (sample_loop k pool) w (fun _ => True).
Proof.
  revert pool w. induction k as [|k IH]; intros pool w Hk; simpl.
  - by apply returns_ret.
  - eapply returns_bind; [apply returns_randbelow; lia|].
    intros j w1 Hj. cbv beta in Hj.
    destruct (lookup_lt_is_Some_2 pool (Z.to_nat j)) as [x Hx]; [lia|].
    rewrite Hx. eapply returns_bind.
    + apply IH. rewrite length_delete by eauto. lia.
    + intros xs w2 _. by apply returns_ret.
Qed.

Lemma returns_sample {A} (l : list A) k w :
  0 ≤ k ≤ Z.of_nat (length l) →
  returns (sample l k) w
    (fun xs => length xs = Z.to_nat k ∧ ∃ rest, xs ++ rest ≡ₚ l).
Proof.
  intros Hk. apply returns_post.
  - unfold sample.
    replace ((k <? 0) || (Z.of_nat (length l) <? k)) with false
      by (symmetry; apply orb_false_intro; lia).
    apply returns_sample_loop. lia.
  - intros xs w' Hxs. eapply sample_Ok; eauto.
Qed.

Lemma returns_repeatM {A} (P : nat → A → Prop) (body : A → M A) n :
  (∀ i a w, P i a → returns (body a) w (P (S i))) →
  ∀ k a w, P k a → returns (repeatM n body a) w (P (n + k)%nat).
Proof.
  intros Hstep. induction n as [|n IH]; intros k a w HP; simpl.
  - by apply returns_ret.
  - eapply returns_bind; [by apply Hstep|].
    intros a' w1 Ha'. replace (S (n + k)) with (n + S k)%nat by lia. by apply IH.
Qed.

Lemma returns_foldM {A B} (P : list B → A → Prop) (body : A → B → M A) :
  (∀ x xs a w, P (x :: xs) a → returns (body a x) w (P xs)) →
  ∀ xs a w, P xs a → returns (foldM body xs a) w (P []).
Proof.
  intros Hstep xs. induction xs as [|x xs IH]; intros a w HP; simpl.
  - by apply returns_ret.
  - eapply returns_bind; [by apply Hstep|]. intros a' w1 Ha'. by apply IH.
Qed.

(** ** The two random dates *)

Lemma generate_random_timestamp_Ok start_date end_date w t w' :
  generate_random_timestamp start_date end_date w = Ok t w' →
  start_date ≤ end_date ∧
  start_date ≤ t ≤ end_date + mk_timedelta 0 23 59 59 ∧
  (t - start_date) mod us_per_second = 0.
Proof.
  intros H. unfold generate_random_timestamp in H.
  bind_inv H. bind_inv H. bind_inv H. bind_inv H. ret_inv H.
  apply randint_Ok in E, E0, E1, E2. unfold td_days in E.
  assert (0 < us_per_day) as Hday by done.
  pose proof (Z.mul_div_le (end_date - start_date) us_per_day Hday) as Hfloor.
  assert (0 ≤ end_date - start_date) as Hpos.
  { destruct (Z.le_gt_cases 0 (end_date - start_date)) as [|Hneg]; [done|].
    pose proof (Z.div_lt_upper_bound (end_date - start_date) us_per_day 0 Hday).
    lia. }
  split_and!; [lia| | |].
  - unfold mk_timedelta, us_per_day, us_per_hour, us_per_minute, us_per_second. lia.
  - unfold mk_timedelta, us_per_day, us_per_hour, us_per_minute, us_per_second in *.
    nia.
  - unfold mk_timedelta, us_per_day, us_per_hour, us_per_minute, us_per_second.
    replace (start_date + (v * (24 * (60 * (60 * 1000000))) +
               v0 * (60 * (60 * 1000000)) + v1 * (60 * 1000000) + v2 * 1000000)
             - start_date)
      with ((v * 86400 + v0 * 3600 + v1 * 60 + v2) * 1000000) by lia.
    apply Z.mod_mul. done.
Qed.

Lemma returns_generate_random_timestamp start_date end_date w :
  start_date ≤ end_date →
  returns (generate_random_timestamp start_date end_date) w
    (fun t => start_date ≤ t ≤ end_date + mk_timedelta 0 23 59 59 ∧
              (t - start_date) mod us_per_second = 0).
Proof.
  intros Hle. apply returns_post.
  - unfold generate_random_timestamp.
    eapply returns_bind.
    { apply returns_randint. unfold td_days. apply Z.div_pos; [lia|done]. }
    intros d w1 _.
    eapply returns_bind; [by apply returns_randint|]. intros h w2 _.
    eapply returns_bind; [by apply returns_randint|]. intros m w3 _.
    eapply returns_bind; [by apply returns_randint|]. intros s w4 _.
    by apply returns_ret.
  - intros t w' Ht. apply generate_random_timestamp_Ok in Ht. tauto.
Qed.

(** X1. [generate_random_timestamp] raises [ValueError] exactly when the
    range is reversed; otherwise it returns a date that is a whole number
    of seconds after the start, not before the start, and past the end by
    at most 23:59:59. *)
Theorem generate_random_timestamp_spec start_date end_date w :
  if end_date <? start_date
  then generate_random_timestamp start_date end_date w = Raise ValueError
  else returns (generate_random_timestamp start_date end_date) w
         (fun t => start_date ≤ t ≤ end_date + mk_timedelta 0 23 59 59 ∧
                   (t - start_date) mod us_per_second = 0).
Proof.
  destruct (Z.ltb_spec end_date start_date) as [Hlt|Hle].
  - by apply generate_random_timestamp_empty_window.
  - by apply returns_generate_random_timestamp.
Qed.

Lemma random_timestamp_Ok start_dt end_dt w t w' :
  random_timestamp start_dt end_dt w = Ok t w' →
  start_dt ≤ end_dt →
  start_dt ≤ t ≤ end_dt ∧ (t - start_dt) mod us_per_second = 0.
Proof.
  intros H Hle. unfold random_timestamp in H. bind_inv H. ret_inv H.
  apply randint_Ok in E. unfold td_int_total_seconds in E.
  rewrite Z.quot_div_nonneg in E by (done || lia).
  assert (0 < us_per_second) as Hs by done.
  pose proof (Z.mul_div_le (end_dt - start_dt) us_per_second Hs) as Hfloor.
  unfold mk_timedelta. split.
  - nia.
  - replace (start_dt + (0 * us_per_day + 0 * us_per_hour + 0 * us_per_minute
             + v * us_per_second) - start_dt) with (v * us_per_second) by lia.
    apply Z.mod_mul. done.
Qed.

Lemma returns_random_timestamp start_dt end_dt w :
  start_dt ≤ end_dt →
  returns (random_timestamp start_dt end_dt) w
    (fun t => start_dt ≤ t ≤ end_dt ∧ (t - start_dt) mod us_per_second = 0).
Proof.
  intros Hle. apply returns_post.
  - unfold random_timestamp. eapply returns_bind.
    + apply returns_randint. unfold td_int_total_seconds.
      apply Z.quot_pos; [lia|done].
    + intros s w1 _. by apply returns_ret.
  - intros t w' Ht. by eapply random_timestamp_Ok.
Qed.

(** X2. On a range that is not reversed [random_timestamp] returns a date
    within the range, a whole number of seconds after its start. *)
Theorem random_timestamp_in_range start_dt end_dt w :
  start_dt ≤ end_dt →
  returns (random_timestamp start_dt end_dt) w
    (fun t => start_dt ≤ t ≤ end_dt ∧ (t - start_dt) mod us_per_second = 0).
Proof. apply returns_random_timestamp. Qed.

Lemma random_timestamp_in_range_witness :
  returns (random_timestamp (strptime_date 20089) (strptime_date 20119))
    demo_world
    (fun t => strptime_date 20089 ≤ t ≤ strptime_date 20119 ∧
              (t - strptime_date 20089) mod us_per_second = 0).
Proof.
  apply (random_timestamp_in_range (strptime_date 20089) (strptime_date 20119)
           demo_world).
  vm_compute. discriminate.
Defined.

(** X3. On a reversed range [random_timestamp] raises [ValueError] when the
    end is a second or more before the start; when it is less than a
    second before, the number of seconds truncates to zero and the start
    itself is returned, although it lies after the end. *)
Theorem random_timestamp_reversed start_dt end_dt w :
  end_dt < start_dt →
  if end_dt <=? start_dt - us_per_second
  then random_timestamp start_dt end_dt w = Raise ValueError
  else result_of (random_timestamp start_dt end_dt w) = Some start_dt.
Proof.
  intros Hlt. unfold random_timestamp, td_int_total_seconds.
  destruct (Z.leb_spec end_dt (start_dt - us_per_second)) as [H|H].
  - apply bind_Raise, randint_empty.
    apply Z.opp_lt_mono. rewrite <- Z.quot_opp_l by done. simpl.
    apply Z.quot_str_pos. unfold us_per_second in *. lia.
  - assert ((end_dt - start_dt) ÷ us_per_second = 0) as ->.
    { apply Z.opp_inj. rewrite <- Z.quot_opp_l by done. simpl.
      apply Z.quot_small. unfold us_per_second in *. lia. }
    unfold randint, randbelow, next_rand. simpl.
    unfold mbind, M_bind, bind, mret, M_ret, ret. simpl.
    rewrite Z.mod_1_r. unfold mk_timedelta. f_equal. lia.
Qed.

Lemma random_timestamp_reversed_witness :
  result_of (random_timestamp (strptime_date 20089)
               (strptime_date 20089 - 500000) demo_world)
  = Some (strptime_date 20089).
Proof.
  apply (random_timestamp_reversed (strptime_date 20089)
           (strptime_date 20089 - 500000) demo_world).
  vm_compute. reflexivity.
Defined.

(** ** The older date range *)

(** X4. [calculate_date_range] always returns a window that is not empty
    and does not pass the current time, whatever the table holds and
    whatever start date and number of days are asked for. *)
Theorem calculate_date_range_clamped s now t days start_date :
  let '(start_datetime, end_datetime) :=
    calculate_date_range s now t days start_date in
  end_datetime ≤ now ∧ start_datetime < end_datetime.
Proof.
  unfold calculate_date_range.
  repeat (case_match; simplify_eq);
    unfold mk_timedelta, us_per_hour, us_per_minute, us_per_second in *; lia.
Qed.

(** X5. When the table has rows and its latest row is at least an hour and
    a minute old, [calculate_date_range] starts one minute after that row,
    strictly after the existing data, and pays no attention to the start
    date it is given. *)
Theorem calculate_date_range_after_max s now t days start_date m :
  select_max_created_at s t = Some m →
  m + mk_timedelta 0 1 1 0 ≤ now →
  (calculate_date_range s now t days start_date).1 = m + mk_timedelta 0 0 1 0 ∧
  m < (calculate_date_range s now t days start_date).1.
Proof.
  intros Hm Hnow. unfold calculate_date_range. rewrite Hm.
  repeat (case_match; simplify_eq); simpl;
    unfold mk_timedelta, us_per_hour, us_per_minute, us_per_second in *; lia.
Qed.

Lemma calculate_date_range_after_max_witness :
  (calculate_date_range (db after_first_run) (strptime_date 20130)
     t_source_orders 7 (Some 20089)).1
    = 1738337185000000 + mk_timedelta 0 0 1 0 ∧
  1738337185000000 <
    (calculate_date_range (db after_first_run) (strptime_date 20130)
       t_source_orders 7 (Some 20089)).1.
Proof.
  apply (calculate_date_range_after_max (db after_first_run)
           (strptime_date 20130) t_source_orders 7 (Some 20089)
           1738337185000000).
  - vm_compute. reflexivity.
  - vm_compute. discriminate.
Defined.

(** X6. When the latest row of the table is dated less than a minute
    before the current time, or after it, [calculate_date_range] falls
    back to the hour that ends now: the window then starts before the
    latest row. *)
Theorem calculate_date_range_future_rows s now t days start_date m :
  select_max_created_at s t = Some m →
  now ≤ m + mk_timedelta 0 0 1 0 →
  calculate_date_range s now t days start_date
    = (now - mk_timedelta 0 1 0 0, now) ∧
  (calculate_date_range s now t days start_date).1 < m.
Proof.
  intros Hm Hnow. unfold calculate_date_range. rewrite Hm.
  repeat (case_match; simplify_eq); simpl;
    unfold mk_timedelta, us_per_hour, us_per_minute, us_per_second in *;
    first [lia | split; [f_equal; lia|lia]].
Qed.

Lemma calculate_date_range_future_rows_witness :
  calculate_date_range (db after_first_run) (strptime_date 20100)
    t_source_orders 7 None
    = (strptime_date 20100 - mk_timedelta 0 1 0 0, strptime_date 20100) ∧
  (calculate_date_range (db after_first_run) (strptime_date 20100)
     t_source_orders 7 None).1 < 1738337185000000.
Proof.
  apply (calculate_date_range_future_rows (db after_first_run)
           (strptime_date 20100) t_source_orders 7 None 1738337185000000).
  - vm_compute. reflexivity.
  - vm_compute. discriminate.
Defined.

(** ** Rounding *)

Lemma round2_bounds q a b :
  (inject_Z a <= q)%Q → (q <= inject_Z b)%Q → a ≤ round2 q ≤ b.
Proof.
  intros Ha Hb. unfold round2.
  pose proof (Qfloor_resp_le _ _ Ha) as Hfa. rewrite Qfloor_Z in Hfa.
  pose proof (Qfloor_resp_le _ _ Hb) as Hfb. rewrite Qfloor_Z in Hfb.
  assert (Qfloor q < b ∨
          Qcompare (q - inject_Z (Qfloor q)) (1 # 2) = Lt) as Hup.
  { destruct (Z.eq_dec (Qfloor q) b) as [Heq|Hne]; [|left; lia].
    right. apply (proj1 (Qlt_alt _ _)). rewrite Heq.
    set (x := inject_Z b) in *. lra. }
  destruct (Qcompare _ _); [destruct (Z.even _)| |];
    destruct Hup as [Hup|Hup]; try discriminate; lia.
Qed.

(** ** The customer generator: rows and dates *)

Lemma returns_next_fake w : returns next_fake w (fun _ => True).
Proof. eexists _, _. split; [reflexivity|done]. Qed.

Lemma returns_retry_email budget existing_emails email w :
  returns (retry_email budget existing_emails email) w (fun _ => True).
Proof.
  revert email w. induction budget as [|budget IH]; intros email w; simpl.
  - by apply returns_ret.
  - destruct (decide _); [|by apply returns_ret].
    eapply returns_bind; [apply returns_next_fake|]. intros; apply IH.
Qed.

Lemma date_of_mono t1 t2 : t1 ≤ t2 → date_of t1 ≤ date_of t2.
Proof. intros H. unfold date_of. by apply Z.div_le_mono. Qed.

Lemma standalone_range_ordered s now t days start_date :
  0 ≤ days →
  (standalone_calculate_date_range s now t days start_date).1 ≤
  (standalone_calculate_date_range s now t days start_date).2.
Proof.
  intros Hd. pose proof (mk_timedelta_nonneg days 0 0 0).
  unfold standalone_calculate_date_range.
  destruct start_date; simpl; lia.
Qed.

(** X7. With a number of days that is not negative, [populate_customers]
    returns: it builds one row per requested customer (none when the
    request is zero or negative), each with a creation timestamp inside
    the window of the customers table and a signup date between the dates
    of the window's two ends. *)
Theorem populate_customers_rows ctx now num_records days start_date w :
  0 ≤ days →
  returns (populate_customers ctx now num_records days start_date) w
    (fun rows =>
       length rows = Z.to_nat num_records ∧
       let '(start_dt, end_dt) :=
         standalone_calculate_date_range (db ctx) now t_source_customers
           days start_date in
       Forall (customer_tuple_ok start_dt end_dt) rows).
Proof.
  intros Hd. unfold populate_customers.
  pose proof (standalone_range_ordered (db ctx) now t_source_customers days
                start_date Hd) as Hord.
  destruct (standalone_calculate_date_range _ _ _ _ _) as [s e]. simpl in Hord.
  destruct (Z.leb_spec num_records 0) as [Hn|Hn].
  { apply returns_ret. split; [|done]. simpl. lia. }
  set (P := fun (i : nat) (acc : list customer_tuple * gset string) =>
              length acc.1 = i ∧ Forall (customer_tuple_ok s e) acc.1).
  assert (∀ i acc w0, P i acc →
            returns (customer_step s e acc) w0 (P (S i))) as Hstep.
  { intros i [rows existing] w0 [Hlen Hrows]. unfold customer_step.
    eapply returns_bind; [apply returns_next_fake|]. intros name w1 _.
    eapply returns_bind; [apply returns_next_fake|]. intros email w2 _.
    eapply returns_bind; [apply returns_retry_email|]. intros email' w3 _.
    eapply returns_bind; [apply returns_next_fake|]. intros country w4 _.
    eapply returns_bind; [by apply returns_random_timestamp|].
    intros signup w5 [Hsignup _].
    eapply returns_bind; [by apply returns_random_timestamp|].
    intros created w6 [Hcreated _].
    apply returns_ret. unfold P in *. simpl in *. split.
    - rewrite length_app. simpl. lia.
    - apply Forall_app. split; [done|]. apply Forall_singleton.
      split; simpl; [done|]. split; apply date_of_mono; lia. }
  eapply returns_bind.
  - apply (returns_repeatM P _ (Z.to_nat num_records) Hstep O). by split.
  - intros [rows existing] w1 [Hlen Hrows]. apply returns_ret.
    simpl in *. split; [lia|done].
Qed.

Lemma populate_customers_rows_witness :
  returns (populate_customers demo_ctx 0 2 30 (Some 20089)) same_email_world
    (fun rows =>
       length rows = Z.to_nat 2 ∧
       let '(start_dt, end_dt) :=
         standalone_calculate_date_range (db demo_ctx) 0 t_source_customers
           30 (Some 20089) in
       Forall (customer_tuple_ok start_dt end_dt) rows).
Proof.
  apply (populate_customers_rows demo_ctx 0 2 30 (Some 20089) same_email_world).
  lia.
Defined.

(** ** The product generator *)

Lemma returns_random_price (a b : Z) w :
  a ≤ b →
  returns (random_price (inject_Z a) (inject_Z b)) w
    (fun p => 100 * a ≤ p ≤ 100 * b).
Proof.
  intros Hab. unfold random_price. eapply returns_bind.
  - apply returns_uniform. unfold Qle; simpl; lia.
  - intros d w1 [Hlo Hhi]. apply returns_ret. apply round2_bounds.
    + rewrite inject_Z_mult. apply Qmult_le_l; done.
    + rewrite inject_Z_mult. apply Qmult_le_l; done.
Qed.

Lemma premium_test_agrees :
  Forall (fun base_name =>
    Forall (fun category =>
      str_contains "Luxury" category || str_contains "Premium" base_name
      = String.prefix "Premium "
          (String.append base_name
             (String.append " " (first_word category))))
      PRODUCT_CATEGORIES) base_names.
Proof. apply (bool_decide_unpack _). vm_compute. exact I. Qed.

Lemma product_step_returns start_dt end_dt rows w :
  start_dt ≤ end_dt →
  returns (product_step start_dt end_dt rows) w
    (fun rows' => ∃ row, rows' = rows ++ [row]
                         ∧ product_tuple_ok start_dt end_dt row).
Proof.
  intros Hle. unfold product_step.
  eapply returns_bind; [by apply returns_choice|]. intros base_name w1 Hbase.
  eapply returns_bind; [by apply returns_choice|]. intros category w2 Hcat.
  pose proof premium_test_agrees as Hagree.
  rewrite Forall_forall in Hagree. specialize (Hagree _ Hbase).
  rewrite Forall_forall in Hagree. specialize (Hagree _ Hcat).
  set (name := String.append base_name
                 (String.append " " (first_word category))) in *.
  eapply (returns_bind _ _ _
            (fun p => (price_tier name category).1 ≤ p
                      ∧ p ≤ (price_tier name category).2 ∧ 0 ≤ p)).
  - unfold price_tier. rewrite <- Hagree.
    destruct (str_contains "Luxury" category || str_contains "Premium" base_name).
    + eapply returns_weaken; [apply (returns_random_price 200 800); lia|].
      simpl. lia.
    + destruct (str_contains "Accessories" category
                || str_contains "Jewelry" category).
      * eapply returns_weaken; [apply (returns_random_price 25 200); lia|].
        simpl. lia.
      * eapply returns_weaken; [apply (returns_random_price 30 150); lia|].
        simpl. lia.
  - intros price w3 (Hlo & Hhi & Hpos).
    eapply returns_bind; [by apply returns_random_timestamp|].
    intros created w4 [Hcreated _]. apply returns_ret.
    eexists. split; [reflexivity|].
    unfold product_tuple_ok; simpl. split_and!; try done; try lia.
    by exists base_name.
Qed.

(** X8. With a number of days that is not negative, [populate_products]
    returns: it builds one row per requested product (none when the
    request is zero or negative); each row has one of the twenty
    categories, a name made of a base name and the first word of the
    category, a creation timestamp inside the window of the products
    table, and a price that is never negative and lies in the band of its
    kind: 200.00 to 800.00 for a "Premium" name, else 25.00 to 200.00 for
    an accessories or jewelry category, else 30.00 to 150.00.  A "Luxury"
    name earns no higher band, because no category contains that word. *)
Theorem populate_products_rows ctx now num_records days start_date w :
  0 ≤ days →
  returns (populate_products ctx now num_records days start_date) w
    (fun rows =>
       length rows = Z.to_nat num_records ∧
       let '(start_dt, end_dt) :=
         standalone_calculate_date_range (db ctx) now t_source_products
           days start_date in
       Forall (product_tuple_ok start_dt end_dt) rows).
Proof.
  intros Hd. unfold populate_products.
  pose proof (standalone_range_ordered (db ctx) now t_source_products days
                start_date Hd) as Hord.
  destruct (standalone_calculate_date_range _ _ _ _ _) as [s e]. simpl in Hord.
  destruct (Z.leb_spec num_records 0) as [Hn|Hn].
  { apply returns_ret. split; [|done]. simpl. lia. }
  set (P := fun (i : nat) (rows : list product_tuple) =>
              length rows = i ∧ Forall (product_tuple_ok s e) rows).
  eapply returns_weaken.
  - apply (returns_repeatM P (product_step s e) (Z.to_nat num_records)).
    + intros i rows w0 [Hlen Hrows].
      eapply returns_weaken; [by apply product_step_returns|].
      intros rows' (row & -> & Hrow). split.
      * rewrite length_app. simpl. lia.
      * apply Forall_app. split; [done|]. by apply Forall_singleton.
    + by split.
  - intros rows [Hlen Hrows]. simpl in Hlen. split; [lia|done].
Qed.

Lemma populate_products_rows_witness :
  returns (populate_products demo_ctx 0 5 30 (Some 20089)) demo_world
    (fun rows =>
       length rows = Z.to_nat 5 ∧
       let '(start_dt, end_dt) :=
         standalone_calculate_date_range (db demo_ctx) 0 t_source_products
           30 (Some 20089) in
       Forall (product_tuple_ok start_dt end_dt) rows).
Proof.
  apply (populate_products_rows demo_ctx 0 5 30 (Some 20089) demo_world). lia.
Defined.

(** ** The customer generator: emails *)

Lemma repeatM_inv_w {A} (P : nat → A → world → Prop) (body : A → M A) N :
  (∀ i a w a' w', (i < N)%nat → P i a w → body a w = Ok a' w' → P (S i) a' w') →
  ∀ n k a w a' w', (n + k ≤ N)%nat → P k a w →
    repeatM n body a w = Ok a' w' → P (n + k)%nat a' w'.
Proof.
  intros Hstep. induction n as [|n IH]; intros k a w a' w' Hk HP H; simpl in H.
  - by ret_inv H.
  - bind_inv H. replace (S n + k)%nat with (n + S k)%nat by lia.
    eapply IH; [lia| |exact H]. eapply Hstep; [|exact HP|exact E]. lia.
Qed.

Lemma next_fake_at k w0 w s w' :
  faker_at k w0 w → next_fake w = Ok s w' →
  s = faker_tape w0 k ∧ faker_at (S k) w0 w'.
Proof.
  intros Hat H. unfold next_fake in H. simplify_eq. split.
  - rewrite (Hat O). f_equal. lia.
  - intros n. simpl. rewrite (Hat (S n)). f_equal. lia.
Qed.

Lemma random_timestamp_faker start_dt end_dt w t w' :
  random_timestamp start_dt end_dt w = Ok t w' → faker_tape w' = faker_tape w.
Proof.
  unfold random_timestamp, randint. intros H. bind_inv H. ret_inv H.
  destruct (_ <? _); [discriminate|].
  bind_inv E. ret_inv E. unfold randbelow in E0. bind_inv E0. ret_inv E0.
  unfold next_rand in E. by simplify_eq.
Qed.

Lemma retry_email_at k w0 budget existing_emails email w email' w' :
  faker_at k w0 w →
  retry_email budget existing_emails email w = Ok email' w' →
  ∃ j, (j ≤ budget)%nat ∧ faker_at (k + j) w0 w' ∧
       (email' = email ∨ ∃ q, (q < k + j)%nat ∧ faker_tape w0 q = email') ∧
       (email' ∈ existing_emails →
        email ∈ existing_emails ∧
        ∀ i, (i < budget)%nat → faker_tape w0 (k + i) ∈ existing_emails).
Proof.
  revert k email w. induction budget as [|budget IH]; intros k email w Hat H;
    simpl in H.
  - ret_inv H. exists O. rewrite Nat.add_0_r.
    split; [lia|]. split; [done|]. split; [by left|].
    intros Hin. split; [done|]. lia.
  - destruct (decide (email ∈ existing_emails)) as [Hin|Hnot].
    + bind_inv H. destruct (next_fake_at _ _ _ _ _ Hat E) as [-> Hat'].
      destruct (IH _ _ _ Hat' H) as (j & Hj & Hatj & Hsrc & Hdup).
      exists (S j). replace (k + S j)%nat with (S k + j)%nat by lia.
      split; [lia|]. split; [done|]. split.
      * right. destruct Hsrc as [->|(q & ? & ?)]; [exists k|exists q];
          split; try done; lia.
      * intros Hdup'. destruct (Hdup Hdup') as [H0 Hrest]. split; [done|].
        intros [|i] Hi; [by rewrite Nat.add_0_r|].
        replace (k + S i)%nat with (S k + i)%nat by lia. apply Hrest. lia.
    + ret_inv H. exists O. rewrite Nat.add_0_r.
      split; [lia|]. split; [done|]. split; [by left|]. done.
Qed.

Lemma customer_step_inv w0 persisted N start_dt end_dt i acc w acc' w' :
  Forall (fresh_within_budget w0 persisted) (seq 0 (53 * N)) →
  (i < N)%nat →
  customers_inv w0 persisted i acc w →
  customer_step start_dt end_dt acc w = Ok acc' w' →
  customers_inv w0 persisted (S i) acc' w'.
Proof.
  intros Hfresh Hi (k & Hk & Hat & Hsub & Hsrc & Hnd & Hrows) H.
  destruct acc as [rows existing]. cbn [fst snd] in *.
  unfold customer_step in H.
  bind_inv H. destruct (next_fake_at _ _ _ _ _ Hat E) as [-> Hat1].
  bind_inv H. destruct (next_fake_at _ _ _ _ _ Hat1 E0) as [-> Hat2].
  bind_inv H.
  destruct (retry_email_at _ _ _ _ _ _ _ _ Hat2 E1)
    as (j & Hj & Hat3 & Hfrom & Hdup).
  bind_inv H. destruct (next_fake_at _ _ _ _ _ Hat3 E2) as [-> Hat4].
  bind_inv H. apply random_timestamp_faker in E3.
  bind_inv H. apply random_timestamp_faker in E4. ret_inv H.
  rename v into email.
  assert (∃ q, (q < S (S k) + j)%nat ∧ faker_tape w0 q = email) as Hanswer.
  { destruct Hfrom as [->|?]; [|done]. exists (S k). split; [lia|done]. }
  assert (email ∉ existing) as Hnew.
  { intros Hin. destruct (Hdup Hin) as [Hfirst Hretries].
    rewrite Forall_forall in Hfresh.
    assert (S k ∈ seq 0 (53 * N)) as Hpos by (apply elem_of_seq; lia).
    specialize (Hfresh _ Hpos). unfold fresh_within_budget in Hfresh.
    apply Exists_exists in Hfresh as (j0 & Hj0 & Hnotin & Hnever).
    apply elem_of_seq in Hj0.
    assert (faker_tape w0 (S k + j0) ∈ existing) as Htaken.
    { destruct j0 as [|j0]; [by rewrite Nat.add_0_r|].
      replace (S k + S j0)%nat with (S (S k) + j0)%nat by lia.
      apply Hretries. lia. }
    destruct (Hsrc _ Htaken) as [?|(q & Hq & Heq)]; [done|].
    rewrite Forall_forall in Hnever. apply (Hnever q); [|done].
    apply elem_of_seq. lia. }
  exists (S (S (S k) + j)). cbn [fst snd]. split_and!.
  - lia.
  - intros n. rewrite E4, E3. apply Hat4.
  - intros e He. apply elem_of_union. right. by apply Hsub.
  - intros e [He|He]%elem_of_union.
    + apply elem_of_singleton in He as ->. right.
      destruct Hanswer as (q & ? & ?). exists q. split; [lia|done].
    + destruct (Hsrc _ He) as [?|(q & ? & ?)]; [by left|].
      right. exists q. split; [lia|done].
  - rewrite fmap_app. simpl. apply NoDup_app. split_and!; [done| |apply NoDup_singleton].
    intros e He Heq%list_elem_of_singleton. subst e. by destruct (Hrows _ He).
  - intros e He. rewrite fmap_app in He. simpl in He.
    apply elem_of_app in He as [He|Heq%list_elem_of_singleton].
    + destruct (Hrows _ He). split; [|done]. apply elem_of_union. by right.
    + subst e. split; [apply elem_of_union; left; by apply elem_of_singleton|].
      intros Hp. apply Hnew. by apply Hsub.
Qed.

(** X9. The emails that [populate_customers] hands to the insert are
    pairwise distinct and none is a persisted email, provided Faker never
    runs the retry budget out: among any 51 consecutive answers it gives
    (a first email and fifty retries), one is neither persisted nor a
    repetition of an earlier answer. *)
Theorem populate_customers_distinct_emails ctx now num_records days start_date
    w rows :
  result_of (populate_customers ctx now num_records days start_date w)
    = Some rows →
  Forall (fresh_within_budget w (c_email <$> source_customers (db ctx)))
         (seq 0 (53 * Z.to_nat num_records)) →
  NoDup (n_email <$> rows) ∧
  Forall (fun row => n_email row ∉ c_email <$> source_customers (db ctx)) rows.
Proof.
  intros Hrun Hfresh. apply result_of_Some in Hrun as [w' Hrun].
  unfold populate_customers in Hrun.
  destruct (num_records <=? 0).
  { ret_inv Hrun. split; [apply NoDup_nil_2|done]. }
  destruct (standalone_calculate_date_range _ _ _ _ _) as [s e].
  bind_inv Hrun. destruct v as [rows' existing]. ret_inv Hrun.
  set (persisted := c_email <$> source_customers (db ctx)) in *.
  assert (customers_inv w persisted O ([], list_to_set persisted) w) as Hinit.
  { exists O. cbn [fst snd]. split; [lia|]. split; [done|]. split_and!.
    - intros e0 He. by apply elem_of_list_to_set.
    - intros e0 He. left. by apply elem_of_list_to_set in He.
    - apply NoDup_nil_2.
    - intros e0 He. by apply elem_of_nil in He. }
  assert (Z.to_nat num_records + 0 ≤ Z.to_nat num_records)%nat as Hbound by lia.
  pose proof (repeatM_inv_w (customers_inv w persisted) (customer_step s e)
                (Z.to_nat num_records)
                (fun i a w0 a' w0' Hi Ha Hs =>
                   customer_step_inv w persisted (Z.to_nat num_records) s e
                     i a w0 a' w0' Hfresh Hi Ha Hs)
                (Z.to_nat num_records) O _ _ _ _ Hbound Hinit E)
    as (k & _ & _ & _ & _ & Hnd & Hrows).
  cbn [fst snd] in *. split; [done|]. apply Forall_forall. intros row Hrow.
  apply (Hrows (n_email row)). by apply list_elem_of_fmap_2.
Qed.

Lemma populate_customers_distinct_emails_witness :
  ∃ a b,
    result_of (populate_customers demo_ctx 0 2 30 (Some 20089)
                 mostly_fresh_world) = Some [a; b] ∧
    NoDup (n_email <$> [a; b]) ∧
    Forall (fun row => n_email row ∉ c_email <$> source_customers (db demo_ctx))
           [a; b].
Proof.
  eexists _, _. split; [vm_compute; reflexivity|].
  apply (populate_customers_distinct_emails demo_ctx 0 2 30 (Some 20089)
           mostly_fresh_world).
  - vm_compute. reflexivity.
  - apply (bool_decide_unpack _). vm_compute. exact I.
Defined.

(** ** The engine: customers, dates and numbering *)

Lemma stamp_count_app stamp ids1 ids2 :
  stamp_count stamp (ids1 ++ ids2)
  = (stamp_count stamp ids1 + stamp_count stamp ids2)%nat.
Proof. unfold stamp_count. by rewrite filter_app, length_app. Qed.

Lemma stamp_count_singleton stamp oid :
  stamp_count stamp [oid] = if decide (oid_stamp oid = stamp) then 1%nat else 0%nat.
Proof.
  unfold stamp_count. destruct (decide (oid_stamp oid = stamp)).
  - by rewrite filter_cons_True.
  - by rewrite filter_cons_False.
Qed.

Lemma stage1_step_facts customer_ids s e acc w acc' w' :
  stage1_facts customer_ids s e acc →
  stage1_step customer_ids s e acc w = Ok acc' w' →
  stage1_facts customer_ids s e acc'.
Proof.
  destruct acc as [pending counters]. intros (Hkeys & Hcount & Hnum) H.
  unfold stage1_facts in *. cbn [fst snd] in *. unfold stage1_step in H.
  bind_inv H. bind_inv H. ret_inv H.
  apply choice_Ok in E. apply generate_random_timestamp_Ok in E0 as (_ & Hdate & _).
  set (ts := strftime_seconds v0) in *.
  set (counters' := match counters !! ts with
                    | None => <[ts:=1]> counters
                    | Some c => <[ts:=c + 1]> counters
                    end) in *.
  assert (∀ stamp, default 0 (counters' !! stamp)
                   = default 0 (counters !! stamp)
                     + (if decide (stamp = ts) then 1 else 0)) as Hcounters.
  { intros stamp. subst counters'. destruct (decide (stamp = ts)) as [->|Hne].
    - destruct (counters !! ts) eqn:Hts; rewrite lookup_insert_eq; simpl; lia.
    - destruct (counters !! ts); rewrite lookup_insert_ne by done; lia. }
  set (oid := {| oid_stamp := ts; oid_seq := default 0 (counters' !! ts) |}).
  unfold stage1_facts. cbn [fst snd]. rewrite !fmap_app.
  cbn [fmap list_fmap]. fold oid.
  split_and!.
  - apply Forall_app. split; [done|]. apply Forall_singleton.
    unfold key_ok, order_key; simpl. done.
  - intros stamp. rewrite stamp_count_app, Hcounters, Hcount.
    rewrite stamp_count_singleton. simpl.
    destruct (decide (stamp = ts)) as [->|Hne].
    + rewrite decide_True by done. lia.
    + rewrite decide_False by congruence. lia.
  - intros i x Hx. apply lookup_app_Some in Hx as [Hx|[Hlen Hx]].
    + pose proof (lookup_lt_Some _ _ _ Hx) as Hlt.
      rewrite take_app_le by lia. by apply Hnum.
    + apply list_lookup_singleton_Some in Hx as [Hi <-].
      rewrite take_ge by (rewrite length_app; simpl; lia).
      simpl. rewrite stamp_count_app, Hcounters, Hcount.
      rewrite stamp_count_singleton. simpl.
      rewrite !decide_True by done. lia.
Qed.

Lemma stage2_step_key product_data max_items pending ref w pending' w' :
  stage2_step product_data max_items pending ref w = Ok pending' w' →
  order_key <$> pending' = order_key <$> pending.
Proof.
  intros H. unfold stage2_step in H.
  destruct (pending !! ref) as [o|] eqn:Ho; [|discriminate].
  destruct (eligible_products_at product_data (o_order_date o)); [by ret_inv H|].
  bind_inv H. bind_inv H. destruct v0 as [[items pio] total]. ret_inv H.
  rewrite list_fmap_insert. apply list_insert_id.
  rewrite list_lookup_fmap, Ho. done.
Qed.

(** ** The engine: items *)

Lemma item_step_bounds product_data order_date items pio total w items' pio'
    total' w' :
  item_step product_data (eligible_products_at product_data order_date)
            order_date (items, pio, total) w = Ok (items', pio', total') w' →
  ∃ it, items' = items ++ [it] ∧ item_bounds product_data order_date it.
Proof.
  intros H. unfold item_step in H.
  apply bind_Ok in H as (found & w1 & _ & H).
  apply bind_Ok in H as (product_id & w2 & _ & H).
  apply bind_Ok in H as (quantity & w3 & Hq & H).
  apply bind_Ok in H as (catalog_price & w4 & Hc & H).
  apply bind_Ok in H as (r & w5 & _ & H).
  apply bind_Ok in H as (unit_price & w6 & Hu & H).
  apply bind_Ok in H as (minutes & w7 & Hm & H).
  apply bind_Ok in H as (seconds & w8 & Hs & H).
  ret_inv H.
  eexists. split; [reflexivity|].
  apply randint_Ok in Hq, Hm, Hs.
  destruct (product_data !! product_id) as [info|] eqn:Hinfo; [|discriminate].
  ret_inv Hc.
  unfold item_bounds; simpl. split_and!; try lia.
  - unfold mk_timedelta, us_per_minute, us_per_second. lia.
  - unfold mk_timedelta, us_per_minute, us_per_second. lia.
  - exists info. split; [done|].
    destruct (Qle_bool (1 # 10) r).
    + ret_inv Hu. left. apply round2_inject_Z.
    + apply bind_Ok in Hu as (discount & w9 & Hd & Hu). ret_inv Hu. right.
      apply uniform_Ok in Hd as [Hlo Hhi]; [|by unfold Qle].
      exists discount. done.
Qed.

Lemma item_loop_bounds product_data order_date n w items pio total w' :
  repeatM n (item_step product_data
               (eligible_products_at product_data order_date) order_date)
          ([], ∅, 0) w = Ok (items, pio, total) w' →
  length items = n ∧ Forall (item_bounds product_data order_date) items.
Proof.
  intros H.
  pose (P := fun (i : nat) (acc : list item * gset Z * Z) =>
               length acc.1.1 = i ∧
               Forall (item_bounds product_data order_date) acc.1.1).
  assert (P (n + 0)%nat (items, pio, total)) as HP.
  { eapply (repeatM_inv P); [| |exact H]; [|by split].
    intros i [[its p] t] w0 [[its' p'] t'] w0' [Hlen Hall] Hs.
    apply item_step_bounds in Hs as (it & -> & Hit). unfold P; simpl in *.
    split.
    - rewrite length_app. simpl. lia.
    - apply Forall_app. split; [done|]. by apply Forall_singleton. }
  rewrite Nat.add_0_r in HP. exact HP.
Qed.

Lemma stage2_step_facts product_data max_items keys ref refs pending w pending' w' :
  stage2_facts product_data max_items keys (ref :: refs) pending →
  stage2_step product_data max_items pending ref w = Ok pending' w' →
  stage2_facts product_data max_items keys refs pending'.
Proof.
  intros (Hinv & Hkeys & Hitems) H. split_and!.
  - eapply stage2_step_inv; eauto.
  - apply stage2_step_key in H. congruence.
  - destruct Hinv as (_ & Hfresh & _). unfold stage2_step in H.
    destruct (pending !! ref) as [o|] eqn:Ho; [|discriminate].
    destruct (eligible_products_at product_data (o_order_date o)) eqn:Hel;
      [by ret_inv H|].
    rewrite <- Hel in H.
    bind_inv H. bind_inv H. destruct v0 as [[items pio] total]. ret_inv H.
    apply randint_Ok in E.
    rewrite (Hfresh ref o) in E0 by (by left || done).
    apply item_loop_bounds in E0 as [Hlen Hall].
    apply Forall_insert; [done|]. split; simpl; [lia|done].
Qed.

Lemma stage2_loop_facts product_data max_items keys refs pending w pending' w' :
  stage2_facts product_data max_items keys refs pending →
  foldM (stage2_step product_data max_items) refs pending w = Ok pending' w' →
  order_key <$> pending' = keys ∧
  Forall (items_bounds product_data max_items) pending'.
Proof.
  intros Hinv H.
  eapply (foldM_inv (stage2_facts product_data max_items keys)) in H;
    [| |exact Hinv].
  - destruct H as (_ & ? & ?). done.
  - intros x xs a w0 a' w0' Ha Hs. eapply stage2_step_facts; eauto.
Qed.

Lemma new_lifecycle_generate_facts ctx now num_orders max_items days start_date
    w g w' :
  new_lifecycle_generate ctx now num_orders max_items days start_date w
    = Ok (Some g) w' →
  generation_facts ctx now max_items days start_date g.
Proof.
  intros H. unfold new_lifecycle_generate in H.
  destruct (connected ctx); simpl in H; [|by ret_inv H].
  case_bool_decide; [by ret_inv H|].
  case_bool_decide; [by ret_inv H|].
  destruct (sql_min _) as [min_product_time|] eqn:Hmin; [|discriminate].
  destruct (order_window _ _ _ _ _) as [start_datetime end_datetime] eqn:Hwin.
  bind_inv H. destruct v as [pending1 counters].
  bind_inv H. bind_inv H. rename v0 into refs.
  bind_inv H. rename v0 into pending.
  bind_inv H. rename v0 into completion_rate.
  bind_inv H. rename v0 into completed_orders.
  bind_inv H. rename v0 into refund_rate.
  bind_inv H. rename v0 into refunded_orders.
  bind_inv H. destruct v0 as [recs items]. ret_inv H.
  pose proof E as Hst1. apply stage1_loop_inv in Hst1 as [Hnd1 Hpr1].
  assert (stage1_facts (c_id <$> source_customers (db ctx))
                       start_datetime end_datetime (pending1, counters))
    as (Hkeys1 & _ & Hnum1).
  { refine (repeatM_inv (fun _ => stage1_facts _ start_datetime end_datetime)
                        _ _ _ O _ _ _ _ _ E).
    - intros i a wa a' wa' Ha Hs. eapply stage1_step_facts; eauto.
    - unfold stage1_facts; simpl. split_and!.
      + constructor.
      + intros stamp. by rewrite lookup_empty.
      + by intros i oid Hi. }
  cbn [fst snd] in *.
  assert (NoDup refs) as Hrefs.
  { eapply sample_NoDup; [|exact E1]. apply NoDup_seq. }
  pose proof E2 as Hst2.
  eapply (stage2_loop_inv _ _ (o_id <$> pending1)) in Hst2 as [Hok Hids].
  2:{ split_and!; [done| |by eapply Forall_impl; [exact Hpr1|];
                           intros; apply pristine_order_ok|done].
      intros i o _ Hlk. rewrite Forall_forall in Hpr1.
      apply list_elem_of_lookup_2 in Hlk. by destruct (Hpr1 _ Hlk) as (_ & _ & ?). }
  eapply (stage2_loop_facts _ _ (order_key <$> pending1)) in E2 as [Hkeys Hitems].
  2:{ split_and!.
      - split_and!.
        + done.
        + intros i o _ Hlk. rewrite Forall_forall in Hpr1.
          apply list_elem_of_lookup_2 in Hlk.
          by destruct (Hpr1 _ Hlk) as (_ & _ & ?).
        + eapply Forall_impl; [exact Hpr1|]. intros; by apply pristine_order_ok.
        + rewrite <- !list_fmap_compose. done.
      - done.
      - eapply Forall_impl; [exact Hpr1|]. intros o (_ & _ & Hnil).
        unfold items_bounds. rewrite Hnil. split; [simpl; lia|done]. }
  assert (NoDup pending) as Hndp.
  { eapply NoDup_fmap_1. rewrite Hids. exact Hnd1. }
  set (owi := filter (fun o => o_has_items o = true) pending) in *.
  assert (NoDup completed_orders) as Hndc.
  { destruct (decide (owi = [])) as [He|Hne].
    - rewrite bool_decide_eq_true_2 in E4 by done. ret_inv E4. apply NoDup_nil_2.
    - rewrite bool_decide_eq_false_2 in E4 by done.
      eapply sample_NoDup; [|exact E4]. by apply NoDup_filter. }
  apply uniform_Ok in E5; [|by unfold Qle].
  constructor; simpl.
  - exists min_product_time. by rewrite Hwin.
  - by rewrite Hkeys.
  - by rewrite Hids.
  - done.
  - destruct (decide (completed_orders = [])) as [He|Hne].
    + rewrite bool_decide_eq_true_2 in E6 by done. ret_inv E6. apply NoDup_nil_2.
    + rewrite bool_decide_eq_false_2 in E6 by done.
      eapply sample_NoDup; [|exact E6]. done.
  - exists refund_rate. split_and!; [apply E5|apply E5|].
    destruct (decide (completed_orders = [])) as [He|Hne].
    + rewrite bool_decide_eq_true_2 in E6 by done. ret_inv E6.
      symmetry. exact (py_int_zero refund_rate).
    + rewrite bool_decide_eq_false_2 in E6 by done.
      pose proof E6 as Hs. apply sample_Ok in Hs as [Hlen _].
      unfold sample in E6. destruct (_ || _) eqn:Hk; [discriminate|].
      apply orb_false_elim in Hk as [Hk _]. apply Z.ltb_ge in Hk.
      rewrite Hlen. lia.
Qed.

(** ** The engine: what the rows carry *)

Lemma order_chunk_key e C R o c :
  order_chunk e C R o c →
  Forall (fun r => (r_id r, r_customer_id r, r_order_date r) = order_key o) c.
Proof.
  intros (prog & Hshape & ->). destruct Hshape; repeat constructor.
Qed.

Lemma order_window_after_products s now days start_date min_product_time :
  min_product_time ≤ (order_window s now days start_date min_product_time).1.
Proof.
  unfold order_window.
  destruct (standalone_calculate_date_range _ _ _ _ _) as [s0 e0].
  destruct (Z.ltb_spec s0 min_product_time); simpl;
    unfold mk_timedelta, us_per_minute, us_per_second; lia.
Qed.

Lemma product_dict_lookup_row_acc rows (m : gmap Z product_info) k info :
  foldl (fun m row =>
           <[p_id row := {| pd_created_at := p_created_at row;
                            pd_price := p_price row |}]> m) m rows !! k
    = Some info →
  (∃ row, row ∈ rows ∧ p_id row = k ∧ pd_created_at info = p_created_at row
          ∧ pd_price info = p_price row)
  ∨ m !! k = Some info.
Proof.
  revert m. induction rows as [|row rows IH]; intros m H; simpl in H; [by right|].
  apply IH in H as [(row' & ? & ? & ? & ?)|H].
  - left. exists row'. split_and!; try done. by right.
  - destruct (decide (p_id row = k)) as [<-|Hne].
    + rewrite lookup_insert_eq in H. simplify_eq. left. exists row.
      split_and!; try done. by left.
    + rewrite lookup_insert_ne in H by done. by right.
Qed.

Lemma product_dict_lookup_row rows k info :
  product_dict rows !! k = Some info →
  ∃ row, row ∈ rows ∧ p_id row = k ∧ pd_created_at info = p_created_at row
         ∧ pd_price info = p_price row.
Proof.
  intros H. apply product_dict_lookup_row_acc in H as [?|H]; [done|].
  by rewrite lookup_empty in H.
Qed.

Lemma earliest_product_row rows m :
  sql_min (pd_created_at <$> (snd <$> map_to_list (product_dict rows))) = Some m →
  ∃ row, row ∈ rows ∧ p_created_at row = m.
Proof.
  intros H. apply sql_min_spec in H as [Hin _].
  apply list_elem_of_fmap in Hin as (info & -> & Hin).
  apply list_elem_of_fmap in Hin as ([k info'] & -> & Hin).
  apply elem_of_map_to_list in Hin.
  apply product_dict_lookup_row in Hin as (row & ? & _ & ? & _).
  exists row. simpl in *. split; [done|congruence].
Qed.

(** X10. Every order row of a run carries a customer of the store and an
    order date that is not before the start of the window, not more than
    23:59:59 after its end, and not before the earliest product of the
    store; the identifier of the row is stamped with the second of that
    order date. *)
Theorem order_rows_customer_and_date ctx now num_orders max_items days
    start_date w g r :
  result_of (new_lifecycle_generate ctx now num_orders max_items days
               start_date w) = Some (Some g) →
  r ∈ all_order_records g →
  r_customer_id r ∈ c_id <$> source_customers (db ctx) ∧
  g_start_datetime g ≤ r_order_date r ∧
  r_order_date r ≤ g_end_datetime g + mk_timedelta 0 23 59 59 ∧
  (∃ row, row ∈ source_products (db ctx) ∧ p_created_at row ≤ r_order_date r) ∧
  oid_stamp (r_id r) = strftime_seconds (r_order_date r).
Proof.
  intros Hrun Hr. apply result_of_Some in Hrun as [w' Hrun].
  pose proof (new_lifecycle_generate_ok _ _ _ _ _ _ _ _ _ Hrun) as Hok.
  pose proof (new_lifecycle_generate_facts _ _ _ _ _ _ _ _ _ Hrun) as Hf.
  destruct (order_record_origin _ _ _ Hok Hr)
    as (o & chunk & Ho & _ & Hrc & Hchunk & _).
  apply order_chunk_key in Hchunk. rewrite Forall_forall in Hchunk.
  specialize (Hchunk _ Hrc). unfold order_key in Hchunk. simplify_eq.
  pose proof (gf_keys _ _ _ _ _ _ Hf) as Hkeys. rewrite Forall_forall in Hkeys.
  destruct (Hkeys (order_key o)) as (Hc & [Hs He] & Hstamp);
    [by apply list_elem_of_fmap_2|].
  unfold order_key in *. simpl in *.
  destruct (gf_window _ _ _ _ _ _ Hf) as (m & Hm & Hwin).
  pose proof (order_window_after_products (db ctx) now days start_date m) as Hle.
  rewrite <- Hwin in Hle. simpl in Hle.
  apply earliest_product_row in Hm as (row & Hrow & Hcreated).
  split_and!; try congruence.
  exists row. split; [done|]. lia.
Qed.

Lemma order_rows_customer_and_date_witness :
  r_customer_id demo_completed_record ∈ c_id <$> source_customers (db demo_ctx) ∧
  g_start_datetime demo_generation ≤ r_order_date demo_completed_record ∧
  r_order_date demo_completed_record
    ≤ g_end_datetime demo_generation + mk_timedelta 0 23 59 59 ∧
  (∃ row, row ∈ source_products (db demo_ctx) ∧
          p_created_at row ≤ r_order_date demo_completed_record) ∧
  oid_stamp (r_id demo_completed_record)
    = strftime_seconds (r_order_date demo_completed_record).
Proof.
  apply (order_rows_customer_and_date demo_ctx 0 13 3 30 (Some 20089)
           demo_world demo_generation demo_completed_record).
  - vm_compute. reflexivity.
  - apply (list_elem_of_lookup_2 _ 20%nat). vm_compute. reflexivity.
Defined.

(** X11. The sequence number in the identifier of an order is the number
    of orders of the run, up to and including that order, whose order date
    falls in the same second: orders of one second are numbered 1, 2, 3,
    ... in the order of their creation. *)
Theorem order_ids_numbered_per_second ctx now num_orders max_items days
    start_date w g i o :
  result_of (new_lifecycle_generate ctx now num_orders max_items days
               start_date w) = Some (Some g) →
  g_pending_orders g !! i = Some o →
  oid_stamp (o_id o) = strftime_seconds (o_order_date o) ∧
  oid_seq (o_id o)
    = Z.of_nat (length (filter (fun o' => strftime_seconds (o_order_date o')
                                          = strftime_seconds (o_order_date o))
                               (take (S i) (g_pending_orders g)))).
Proof.
  intros Hrun Hi. apply result_of_Some in Hrun as [w' Hrun].
  pose proof (new_lifecycle_generate_facts _ _ _ _ _ _ _ _ _ Hrun) as Hf.
  pose proof (gf_keys _ _ _ _ _ _ Hf) as Hkeys. rewrite Forall_forall in Hkeys.
  assert (∀ o', o' ∈ g_pending_orders g →
                oid_stamp (o_id o') = strftime_seconds (o_order_date o'))
    as Hstamp.
  { intros o' Ho'. destruct (Hkeys (order_key o')) as (_ & _ & ?);
      [by apply list_elem_of_fmap_2|done]. }
  split; [apply Hstamp; by eapply list_elem_of_lookup_2|].
  rewrite (gf_numbered _ _ _ _ _ _ Hf i (o_id o))
    by (by rewrite list_lookup_fmap, Hi).
  f_equal. unfold stamp_count. rewrite <- fmap_take.
  assert (∀ l : list order,
            (∀ o', o' ∈ l → oid_stamp (o_id o') = strftime_seconds (o_order_date o')) →
            length (filter (fun oid => oid_stamp oid = oid_stamp (o_id o)) (o_id <$> l))
            = length (filter (fun o' => strftime_seconds (o_order_date o')
                                        = strftime_seconds (o_order_date o)) l))
    as Hcount.
  { rewrite (Hstamp o) by (by eapply list_elem_of_lookup_2).
    induction l as [|a l IH]; intros Hl; [done|].
    rewrite fmap_cons.
    assert (oid_stamp (o_id a) = strftime_seconds (o_order_date a)) as Ha
      by (apply Hl; by left).
    assert (∀ o', o' ∈ l →
              oid_stamp (o_id o') = strftime_seconds (o_order_date o')) as Hl'
      by (intros; apply Hl; by right).
    destruct (decide (strftime_seconds (o_order_date a)
                      = strftime_seconds (o_order_date o))) as [Heq|Hne].
    - rewrite !filter_cons_True by congruence. simpl. by rewrite IH.
    - rewrite !filter_cons_False by congruence. by apply IH. }
  apply Hcount. intros o' Ho'. apply Hstamp.
  apply list_elem_of_lookup in Ho' as [j Hj].
  apply lookup_take_Some in Hj as [Hj _]. by eapply list_elem_of_lookup_2.
Qed.

Lemma order_ids_numbered_per_second_witness :
  oid_stamp (o_id demo_order) = strftime_seconds (o_order_date demo_order) ∧
  oid_seq (o_id demo_order)
    = Z.of_nat (length (filter
                  (fun o' => strftime_seconds (o_order_date o')
                             = strftime_seconds (o_order_date demo_order))
                  (take 10 (g_pending_orders demo_generation)))).
Proof.
  apply (order_ids_numbered_per_second demo_ctx 0 13 3 30 (Some 20089)
           demo_world demo_generation 9%nat demo_order).
  - vm_compute. reflexivity.
  - vm_compute. reflexivity.
Defined.

(** ** The engine: item rows *)

Lemma discounted_price_bounds price discount :
  0 ≤ price → (1 # 10 <= discount)%Q → (discount <= 3 # 10)%Q →
  0 ≤ round2 (inject_Z price * (1 - discount))%Q ≤ price.
Proof.
  intros Hp Hlo Hhi.
  assert (0 <= inject_Z price)%Q as Hq by (unfold Qle; simpl; lia).
  set (x := inject_Z price) in *.
  apply round2_bounds; fold x.
  - change (inject_Z 0) with 0%Q. nra.
  - nra.
Qed.

(** X12. Every item row of a run has a quantity of 1, 2 or 3, is dated
    from one minute to 60 minutes and 59 seconds after the order date of
    its order, and is priced at the catalogue price of a product row with
    its product identifier, or at that price less a discount of 10 to 30
    per cent, rounded to the cent; when no catalogue price is negative,
    the unit price is neither negative nor above that catalogue price. *)
Theorem item_rows_within_bounds ctx now num_orders max_items days start_date
    w g it :
  result_of (new_lifecycle_generate ctx now num_orders max_items days
               start_date w) = Some (Some g) →
  it ∈ all_item_records g →
  1 ≤ i_quantity it ≤ 3 ∧
  ∃ r row,
    r ∈ all_order_records g ∧ r_id r = i_order_id it ∧ r_status r = pending ∧
    r_order_date r + mk_timedelta 0 0 1 0 ≤ i_created_at it ∧
    i_created_at it ≤ r_order_date r + mk_timedelta 0 0 60 59 ∧
    row ∈ source_products (db ctx) ∧ p_id row = i_product_id it ∧
    (i_unit_price it = p_price row ∨
     ∃ discount, (1 # 10 <= discount)%Q ∧ (discount <= 3 # 10)%Q ∧
       i_unit_price it = round2 (inject_Z (p_price row) * (1 - discount))%Q) ∧
    (0 ≤ p_price row → 0 ≤ i_unit_price it ≤ p_price row).
Proof.
  intros Hrun Hit. apply result_of_Some in Hrun as [w' Hrun].
  pose proof (new_lifecycle_generate_ok _ _ _ _ _ _ _ _ _ Hrun) as Hok.
  pose proof (new_lifecycle_generate_facts _ _ _ _ _ _ _ _ _ Hrun) as Hf.
  rewrite (ok_items _ _ Hok) in Hit.
  apply elem_of_concat in Hit as (c & Hitc & Hc).
  apply list_elem_of_fmap in Hc as (o & -> & Ho).
  apply list_elem_of_fmap in Hitc as (i & -> & Hi).
  pose proof (gf_items _ _ _ _ _ _ Hf) as Hitems. rewrite Forall_forall in Hitems.
  destruct (Hitems _ Ho) as [_ Hall]. rewrite Forall_forall in Hall.
  destruct (Hall _ Hi) as (Hq & Hlo & Hhi & info & Hinfo & Hprice).
  apply product_dict_lookup_row in Hinfo as (row & Hrow & Hrid & _ & Hp).
  split; [done|].
  exists (status_record o pending (o_order_date o)), row. simpl.
  rewrite <- Hp. split_and!; try done.
  - by eapply pending_record_emitted.
  - intros Hpos. destruct Hprice as [->|(d & Hd1 & Hd2 & ->)]; [lia|].
    by apply discounted_price_bounds.
Qed.

Lemma item_rows_within_bounds_witness :
  1 ≤ i_quantity demo_item_record ≤ 3 ∧
  ∃ r row,
    r ∈ all_order_records demo_generation ∧
    r_id r = i_order_id demo_item_record ∧ r_status r = pending ∧
    r_order_date r + mk_timedelta 0 0 1 0 ≤ i_created_at demo_item_record ∧
    i_created_at demo_item_record ≤ r_order_date r + mk_timedelta 0 0 60 59 ∧
    row ∈ source_products (db demo_ctx) ∧
    p_id row = i_product_id demo_item_record ∧
    (i_unit_price demo_item_record = p_price row ∨
     ∃ discount, (1 # 10 <= discount)%Q ∧ (discount <= 3 # 10)%Q ∧
       i_unit_price demo_item_record
         = round2 (inject_Z (p_price row) * (1 - discount))%Q) ∧
    (0 ≤ p_price row → 0 ≤ i_unit_price demo_item_record ≤ p_price row).
Proof.
  apply (item_rows_within_bounds demo_ctx 0 13 3 30 (Some 20089)
           demo_world demo_generation demo_item_record).
  - vm_compute. reflexivity.
  - apply (list_elem_of_lookup_2 _ 11%nat). vm_compute. reflexivity.
Defined.

Lemma item_rows_of_unknown_order ctx g oid :
  generation_ok ctx g → oid ∉ o_id <$> g_pending_orders g →
  items_of oid (all_item_records g) = [].
Proof.
  intros Hok Hnot. unfold items_of. apply filter_none.
  rewrite (ok_items _ _ Hok). apply Forall_forall. intros it Hit Heq.
  apply elem_of_concat in Hit as (c & Hitc & Hc).
  apply list_elem_of_fmap in Hc as (o & -> & Ho).
  apply list_elem_of_fmap in Hitc as (i & -> & Hi).
  apply Hnot. simpl in Heq. subst oid. by apply list_elem_of_fmap_2.
Qed.

(** X13. No order of a run has more item rows than [max_items_per_order]. *)
Theorem item_rows_per_order_bounded ctx now num_orders max_items days
    start_date w g oid :
  result_of (new_lifecycle_generate ctx now num_orders max_items days
               start_date w) = Some (Some g) →
  Z.of_nat (length (items_of oid (all_item_records g))) ≤ Z.max 0 max_items.
Proof.
  intros Hrun. apply result_of_Some in Hrun as [w' Hrun].
  pose proof (new_lifecycle_generate_ok _ _ _ _ _ _ _ _ _ Hrun) as Hok.
  pose proof (new_lifecycle_generate_facts _ _ _ _ _ _ _ _ _ Hrun) as Hf.
  destruct (decide (oid ∈ o_id <$> g_pending_orders g)) as [Hin|Hnot].
  - apply list_elem_of_fmap in Hin as (o & -> & Ho).
    rewrite (items_of_order _ _ _ Hok Ho). unfold item_chunk.
    rewrite length_fmap.
    pose proof (gf_items _ _ _ _ _ _ Hf) as Hitems.
    rewrite Forall_forall in Hitems. by destruct (Hitems _ Ho).
  - rewrite (item_rows_of_unknown_order _ _ _ Hok Hnot). simpl. lia.
Qed.

Lemma item_rows_per_order_bounded_witness :
  Z.of_nat (length (items_of (o_id demo_order)
                             (all_item_records demo_generation))) ≤ Z.max 0 3.
Proof.
  apply (item_rows_per_order_bounded demo_ctx 0 13 3 30 (Some 20089)
           demo_world demo_generation (o_id demo_order)).
  vm_compute. reflexivity.
Defined.

(** ** The engine: the timestamps of the later stages *)

Ltac split_elems :=
  repeat match goal with
         | H : _ ∈ _ :: _ |- _ => apply elem_of_cons in H as [->|H]
         | H : _ ∈ [] |- _ => by apply elem_of_nil in H
         end.

Lemma stage_time_bounds end_datetime base dmax t :
  stage_time end_datetime base dmax t →
  t ≤ end_datetime ∧
  (base + mk_timedelta 1 0 0 0 ≤ t ∧ t ≤ base + mk_timedelta dmax 0 0 0
   ∨ end_datetime - mk_timedelta 0 12 0 0 ≤ t ∧ t < end_datetime
     ∧ end_datetime < base + mk_timedelta dmax 0 0 0).
Proof.
  intros (d & Hd & [[Hle ->]|[Hlt (h & Hh & ->)]]);
    unfold mk_timedelta, us_per_day, us_per_hour, us_per_minute,
      us_per_second in *; lia.
Qed.

(** X14. A completed, cancelled or refunded row of a run is never dated
    after the end of the window: it is dated at least one day after the
    order date, or else within the twelve hours before the end of the
    window. *)
Theorem stage_rows_not_after_window_end ctx now num_orders max_items days
    start_date w g r :
  result_of (new_lifecycle_generate ctx now num_orders max_items days
               start_date w) = Some (Some g) →
  r ∈ all_order_records g → r_status r ≠ pending →
  r_created_at r ≤ g_end_datetime g ∧
  (r_order_date r + mk_timedelta 1 0 0 0 ≤ r_created_at r ∨
   g_end_datetime g - mk_timedelta 0 12 0 0 ≤ r_created_at r).
Proof.
  intros Hrun Hr Hst. apply result_of_Some in Hrun as [w' Hrun].
  pose proof (new_lifecycle_generate_ok _ _ _ _ _ _ _ _ _ Hrun) as Hok.
  destruct (order_record_origin _ _ _ Hok Hr)
    as (o & chunk & Ho & _ & Hrc & (prog & Hshape & ->) & _).
  destruct Hshape as [t Hc Ht|t Hc Hnr Ht|t t' Hc Hr' Ht Ht'];
    split_elems; simpl in *; try done;
    try apply stage_time_bounds in Ht; try apply stage_time_bounds in Ht';
    unfold mk_timedelta, us_per_day, us_per_hour, us_per_minute,
      us_per_second in *; lia.
Qed.

Lemma stage_rows_not_after_window_end_witness :
  r_created_at demo_completed_record ≤ g_end_datetime demo_generation ∧
  (r_order_date demo_completed_record + mk_timedelta 1 0 0 0
     ≤ r_created_at demo_completed_record ∨
   g_end_datetime demo_generation - mk_timedelta 0 12 0 0
     ≤ r_created_at demo_completed_record).
Proof.
  apply (stage_rows_not_after_window_end demo_ctx 0 13 3 30 (Some 20089)
           demo_world demo_generation demo_completed_record).
  - vm_compute. reflexivity.
  - apply (list_elem_of_lookup_2 _ 20%nat). vm_compute. reflexivity.
  - discriminate.
Defined.

(** X15. For an order placed at least six days before the end of the
    window the stages are in order: its completed, cancelled or refunded
    row is dated at least one day after its pending row, and its refunded
    row at least one day after its completed row. *)
Theorem stage_rows_in_order_away_from_end ctx now num_orders max_items days
    start_date w g r1 r2 :
  result_of (new_lifecycle_generate ctx now num_orders max_items days
               start_date w) = Some (Some g) →
  r1 ∈ all_order_records g → r2 ∈ all_order_records g →
  r_id r1 = r_id r2 →
  r_order_date r1 + mk_timedelta 6 0 0 0 ≤ g_end_datetime g →
  (r_status r1 = pending ∧ r_status r2 ≠ pending) ∨
  (r_status r1 = completed ∧ r_status r2 = refunded) →
  r_created_at r1 + mk_timedelta 1 0 0 0 ≤ r_created_at r2.
Proof.
  intros Hrun Hr1 Hr2 Hid Hend Hst. apply result_of_Some in Hrun as [w' Hrun].
  pose proof (new_lifecycle_generate_ok _ _ _ _ _ _ _ _ _ Hrun) as Hok.
  destruct (order_record_origin _ _ _ Hok Hr1)
    as (o & chunk & Ho & _ & Hrc1 & (prog & Hshape & ->) & Hfilter & _).
  assert (r2 ∈ status_record o pending (o_order_date o) :: prog) as Hrc2.
  { rewrite <- Hfilter. apply list_elem_of_filter. split; [congruence|done]. }
  destruct Hshape as [t Hc Ht|t Hc Hnr Ht|t t' Hc Hr' Ht Ht'];
    split_elems; simpl in *;
    try apply stage_time_bounds in Ht; try apply stage_time_bounds in Ht';
    destruct Hst as [[? ?]|[? ?]]; try done;
    unfold mk_timedelta, us_per_day, us_per_hour, us_per_minute,
      us_per_second in *; lia.
Qed.

Lemma stage_rows_in_order_away_from_end_witness :
  r_created_at demo_pending_record + mk_timedelta 1 0 0 0
    ≤ r_created_at demo_completed_record.
Proof.
  apply (stage_rows_in_order_away_from_end demo_ctx 0 13 3 30 (Some 20089)
           demo_world demo_generation demo_pending_record
           demo_completed_record).
  - vm_compute. reflexivity.
  - apply (list_elem_of_lookup_2 _ 19%nat). vm_compute. reflexivity.
  - apply (list_elem_of_lookup_2 _ 20%nat). vm_compute. reflexivity.
  - reflexivity.
  - vm_compute. discriminate.
  - left. split; [reflexivity|discriminate].
Defined.

(** ** The engine: how many rows *)

Lemma chunks_refunded_count e C R pending chunks :
  (∀ o, o ∈ R → o ∈ C) →
  Forall2 (order_chunk e C R) pending chunks →
  length (with_status refunded (concat chunks))
    = length (filter (fun o => o ∈ R) pending) ∧
  length (concat chunks)
    = (2 * length pending + length (filter (fun o => o ∈ R) pending))%nat.
Proof.
  unfold with_status. intros Hsub.
  induction 1 as [|o c pending chunks Hc _ [IH1 IH2]]; [done|].
  simpl concat. rewrite !filter_app, !length_app, IH1, IH2.
  destruct Hc as (prog & Hshape & ->).
  destruct Hshape.
  - rewrite (filter_cons_False (fun o => o ∈ R)) by auto. simpl. lia.
  - rewrite (filter_cons_False (fun o => o ∈ R)) by auto. simpl. lia.
  - rewrite (filter_cons_True (fun o => o ∈ R)) by done. simpl. lia.
Qed.

Lemma py_int_share n rate :
  0 ≤ n → (0 <= rate)%Q → (rate <= 1)%Q →
  0 ≤ py_int (inject_Z n * rate) ≤ n.
Proof.
  intros Hn Hlo Hhi. destruct rate as [p d]. unfold py_int, Qle in *.
  simpl in *. rewrite Z.mul_1_r in *.
  assert (0 ≤ n * p) as Hnp by nia.
  split; [apply Z.quot_pos; lia|].
  apply Z.quot_le_upper_bound; nia.
Qed.

Lemma py_int_tenth n rate :
  0 ≤ n → (0 <= rate)%Q → (rate <= 10 # 100)%Q →
  10 * py_int (inject_Z n * rate) ≤ n.
Proof.
  intros Hn Hlo Hhi. destruct rate as [p d]. unfold py_int, Qle in *.
  cbn [Qnum Qden inject_Z Qmult] in *. rewrite Pos.mul_1_l.
  assert (0 ≤ n * p) as Hnp by nia.
  pose proof (Z.quot_pos (n * p) (Z.pos d) Hnp ltac:(lia)) as Hq.
  pose proof (Z.mul_quot_le (n * p) (Z.pos d) Hnp ltac:(lia)) as Hm.
  assert (Z.pos d * (10 * (n * p ÷ Z.pos d)) ≤ Z.pos d * n) as Hd by nia.
  apply Z.mul_le_mono_pos_l in Hd; lia.
Qed.

Lemma status_row_counts ctx now num_orders max_items days start_date w g w' :
  new_lifecycle_generate ctx now num_orders max_items days start_date w
    = Ok (Some g) w' →
  length (with_status completed (all_order_records g))
    = length (g_completed_orders g) ∧
  length (with_status refunded (all_order_records g))
    = length (g_refunded_orders g) ∧
  length (all_order_records g)
    = (2 * Z.to_nat num_orders + length (g_refunded_orders g))%nat.
Proof.
  intros Hrun.
  pose proof (new_lifecycle_generate_ok _ _ _ _ _ _ _ _ _ Hrun) as Hok.
  pose proof (new_lifecycle_generate_facts _ _ _ _ _ _ _ _ _ Hrun) as Hf.
  pose proof (new_lifecycle_generate_count _ _ _ _ _ _ _ _ _ Hrun) as Hn.
  destruct (ok_records _ _ Hok) as (chunks & Hall & Hrecs).
  assert (NoDup (g_pending_orders g)) as Hnd
    by (eapply NoDup_fmap_1; apply (ok_ids _ _ Hok)).
  pose proof (chunks_count _ _ _ _ _ Hall) as [Hc _].
  pose proof (chunks_refunded_count _ _ _ _ _ (ok_refunded _ _ Hok) Hall)
    as [Hr Ht].
  rewrite Hrecs, Hc, Hr, Ht, Hn.
  rewrite (filter_elem_of_length _ (g_completed_orders g)); try done.
  - rewrite (filter_elem_of_length _ (g_refunded_orders g)); try done.
    + apply (gf_refunded_NoDup _ _ _ _ _ _ Hf).
    + intros o Ho. apply (ok_completed _ _ Hok). by apply (ok_refunded _ _ Hok).
  - apply (ok_completed_NoDup _ _ Hok).
  - intros o Ho. by apply (ok_completed _ _ Hok).
Qed.

(** X16. The number of refunded rows of a run is the integer part of the
    number of completed rows times a rate between 0.05 and 0.10: at most
    one completed order in ten is refunded, and none when fewer than ten
    are completed. *)
Theorem refunded_rows_share ctx now num_orders max_items days start_date w g :
  result_of (new_lifecycle_generate ctx now num_orders max_items days
               start_date w) = Some (Some g) →
  (∃ refund_rate,
     (5 # 100 <= refund_rate)%Q ∧ (refund_rate <= 10 # 100)%Q ∧
     Z.of_nat (length (with_status refunded (all_order_records g))) =
       py_int (inject_Z (Z.of_nat (length (with_status completed
                                             (all_order_records g))))
               * refund_rate)) ∧
  (10 * length (with_status refunded (all_order_records g))
     ≤ length (with_status completed (all_order_records g)))%nat.
Proof.
  intros Hrun. apply result_of_Some in Hrun as [w' Hrun].
  pose proof (new_lifecycle_generate_facts _ _ _ _ _ _ _ _ _ Hrun) as Hf.
  destruct (status_row_counts _ _ _ _ _ _ _ _ _ Hrun) as (-> & -> & _).
  destruct (gf_refund_rate _ _ _ _ _ _ Hf) as (rate & Hlo & Hhi & Hcount).
  split; [by exists rate|].
  assert (0 <= rate)%Q as Hpos.
  { eapply Qle_trans; [|exact Hlo]. by unfold Qle. }
  pose proof (py_int_tenth (Z.of_nat (length (g_completed_orders g))) rate
                ltac:(lia) Hpos Hhi).
  lia.
Qed.

Lemma refunded_rows_share_witness :
  (∃ refund_rate,
     (5 # 100 <= refund_rate)%Q ∧ (refund_rate <= 10 # 100)%Q ∧
     Z.of_nat (length (with_status refunded
                         (all_order_records demo_generation))) =
       py_int (inject_Z (Z.of_nat (length (with_status completed
                                     (all_order_records demo_generation))))
               * refund_rate)) ∧
  (10 * length (with_status refunded (all_order_records demo_generation))
     ≤ length (with_status completed (all_order_records demo_generation)))%nat.
Proof.
  apply (refunded_rows_share demo_ctx 0 13 3 30 (Some 20089) demo_world
           demo_generation).
  vm_compute. reflexivity.
Defined.

(** X17. A run that is asked for [num_orders] orders builds two order rows
    for each of them and a third for each refunded one. *)
Theorem order_row_count ctx now num_orders max_items days start_date w g :
  result_of (new_lifecycle_generate ctx now num_orders max_items days
               start_date w) = Some (Some g) →
  length (all_order_records g)
    = (2 * Z.to_nat num_orders
       + length (with_status refunded (all_order_records g)))%nat.
Proof.
  intros Hrun. apply result_of_Some in Hrun as [w' Hrun].
  destruct (status_row_counts _ _ _ _ _ _ _ _ _ Hrun) as (_ & -> & ->). done.
Qed.

Lemma order_row_count_witness :
  length (all_order_records demo_generation)
    = (2 * Z.to_nat 13
       + length (with_status refunded (all_order_records demo_generation)))%nat.
Proof.
  apply (order_row_count demo_ctx 0 13 3 30 (Some 20089) demo_world
           demo_generation).
  vm_compute. reflexivity.
Defined.

(** ** The engine: every sampled order gets items *)

Lemma filter_insert_length {A} (P : A → Prop) `{!∀ x, Decision (P x)}
    (l : list A) i x y :
  l !! i = Some x → ¬ P x → P y →
  length (filter P (<[i:=y]> l)) = S (length (filter P l)).
Proof.
  intros Hx Hnx Hy. revert i Hx.
  induction l as [|a l IH]; intros [|i] Hx; simpl in Hx; try discriminate.
  - simplify_eq. simpl.
    rewrite filter_cons_True by done. by rewrite filter_cons_False.
  - simpl. destruct (decide (P a)).
    + rewrite !filter_cons_True by done. simpl. by rewrite (IH i).
    + rewrite !filter_cons_False by done. by apply IH.
Qed.

Lemma eligible_products_nonempty product_data m order_date :
  sql_min (pd_created_at <$> (snd <$> map_to_list product_data)) = Some m →
  m ≤ order_date →
  eligible_products_at product_data order_date ≠ [].
Proof.
  intros Hm Hle Hnil. apply sql_min_spec in Hm as [Hin _].
  apply list_elem_of_fmap in Hin as (info & -> & Hin).
  apply list_elem_of_fmap in Hin as (kv & -> & Hin).
  unfold eligible_products_at in Hnil. apply fmap_nil_inv in Hnil.
  assert (kv ∈ filter (fun kv => pd_created_at (snd kv) <= order_date)
                      (map_to_list product_data)) as Hkv
    by (by apply list_elem_of_filter).
  rewrite Hnil in Hkv. by apply elem_of_nil in Hkv.
Qed.

Lemma stage2_step_flag product_data max_items pending ref w pending' w' o :
  pending !! ref = Some o →
  eligible_products_at product_data (o_order_date o) ≠ [] →
  stage2_step product_data max_items pending ref w = Ok pending' w' →
  ∃ o', pending' = <[ref := o']> pending ∧ o_has_items o' = true ∧
        o_order_date o' = o_order_date o.
Proof.
  intros Ho Hel H. unfold stage2_step in H. rewrite Ho in H.
  destruct (eligible_products_at product_data (o_order_date o)); [done|].
  bind_inv H. bind_inv H. destruct v0 as [[items pio] total]. ret_inv H.
  eexists. split; [reflexivity|]. done.
Qed.

Lemma stage2_loop_flags product_data max_items m k refs pending w pending' w' :
  sql_min (pd_created_at <$> (snd <$> map_to_list product_data)) = Some m →
  NoDup refs →
  (∀ i, i ∈ refs → ∃ o, pending !! i = Some o ∧ o_has_items o = false) →
  Forall (fun o => m ≤ o_order_date o) pending →
  (length (filter (fun o => o_has_items o = true) pending) + length refs = k)%nat →
  foldM (stage2_step product_data max_items) refs pending w = Ok pending' w' →
  length (filter (fun o => o_has_items o = true) pending') = k.
Proof.
  intros Hm Hnd Hfresh Hdates Hlen H.
  pose (Q := fun (refs : list nat) (pending : list order) =>
    NoDup refs ∧
    (∀ i, i ∈ refs → ∃ o, pending !! i = Some o ∧ o_has_items o = false) ∧
    Forall (fun o => m ≤ o_order_date o) pending ∧
    (length (filter (fun o => o_has_items o = true) pending) + length refs
     = k)%nat).
  assert (Q [] pending') as (_ & _ & _ & Hk).
  { refine (foldM_inv Q _ _ refs pending w pending' w' _ H); [|done].
    clear Hnd Hfresh Hdates Hlen H.
    intros ref rest a wa a' wa' (Hnd & Hfresh & Hdates & Hlen) Hs.
    apply NoDup_cons in Hnd as [Hnotin Hnd].
    destruct (Hfresh ref) as (o & Ho & Hflag); [by left|].
    assert (m ≤ o_order_date o) as Hdate.
    { rewrite Forall_forall in Hdates. apply Hdates.
      by eapply list_elem_of_lookup_2. }
    eapply stage2_step_flag in Hs as (o' & -> & Hflag' & Hdate');
      [|exact Ho|by eapply eligible_products_nonempty].
    unfold Q. split_and!.
    - done.
    - intros i Hi. rewrite list_lookup_insert_ne by (intros ->; done).
      apply Hfresh. by right.
    - apply Forall_insert; [done|]. lia.
    - rewrite (filter_insert_length _ _ _ o) by (done || congruence).
      simpl in Hlen. lia. }
  simpl in Hk. lia.
Qed.

(** X18. Every order that stage 2 samples receives items, because no order
    is dated before the earliest product: the number of orders with items
    is the integer part of [num_orders] times a rate between 0.85 and
    1.00. *)
Theorem orders_with_items_share ctx now num_orders max_items days start_date
    w g :
  result_of (new_lifecycle_generate ctx now num_orders max_items days
               start_date w) = Some (Some g) →
  ∃ item_rate,
    (85 # 100 <= item_rate)%Q ∧ (item_rate <= 1)%Q ∧
    Z.of_nat (length (orders_with_items g))
      = py_int (inject_Z num_orders * item_rate).
Proof.
  intros Hrun. apply result_of_Some in Hrun as [w' H].
  unfold new_lifecycle_generate in H.
  destruct (connected ctx); simpl in H; [|by ret_inv H].
  case_bool_decide; [by ret_inv H|].
  case_bool_decide; [by ret_inv H|].
  destruct (sql_min _) as [m|] eqn:Hmin; [|discriminate].
  destruct (order_window _ _ _ _ _) as [start_datetime end_datetime] eqn:Hwin.
  apply bind_Ok in H as ([pending1 counters] & w1 & Hst1 & H).
  apply bind_Ok in H as (item_rate & w2 & Hrate & H).
  apply bind_Ok in H as (refs & w3 & Hrefs & H).
  apply bind_Ok in H as (pending & w4 & Hst2 & H).
  apply bind_Ok in H as (completion_rate & w5 & _ & H).
  apply bind_Ok in H as (completed_orders & w6 & _ & H).
  apply bind_Ok in H as (refund_rate & w7 & _ & H).
  apply bind_Ok in H as (refunded_orders & w8 & _ & H).
  apply bind_Ok in H as ([recs items] & w9 & _ & H). ret_inv H.
  unfold orders_with_items. simpl.
  apply uniform_Ok in Hrate; [|by unfold Qle].
  exists item_rate. split_and!; [apply Hrate|apply Hrate|].
  pose proof Hst1 as Hpr. apply stage1_loop_inv in Hpr as [_ Hpr].
  assert (stage1_facts (c_id <$> source_customers (db ctx))
                       start_datetime end_datetime (pending1, counters))
    as (Hkeys & _ & _).
  { refine (repeatM_inv (fun _ => stage1_facts _ start_datetime end_datetime)
                        _ _ _ O _ _ _ _ _ Hst1).
    - intros i a wa a' wa' Ha Hs. eapply stage1_step_facts; eauto.
    - unfold stage1_facts; simpl. split_and!.
      + constructor.
      + intros stamp. by rewrite lookup_empty.
      + by intros i oid Hi. }
  cbn [fst snd] in Hkeys.
  pose proof (order_window_after_products (db ctx) now days start_date m) as Hle.
  rewrite Hwin in Hle. simpl in Hle.
  pose proof Hrefs as Hsample. apply sample_Ok in Hsample as [Hlen _].
  assert (0 ≤ py_int (inject_Z num_orders * item_rate)) as Hk.
  { unfold sample in Hrefs. destruct (_ || _) eqn:Hb; [discriminate|].
    apply orb_false_elim in Hb as [Hb _]. by apply Z.ltb_ge in Hb. }
  rewrite (stage2_loop_flags (product_dict (source_products (db ctx))) max_items
             m (Z.to_nat (py_int (inject_Z num_orders * item_rate)))
             refs pending1 w3 pending w4); try done.
  - lia.
  - eapply sample_NoDup; [|exact Hrefs]. apply NoDup_seq.
  - intros i Hi. eapply sample_elem_of in Hi; [|exact Hrefs].
    apply elem_of_seq in Hi.
    destruct (lookup_lt_is_Some_2 pending1 i) as [o Ho]; [lia|].
    exists o. split; [done|]. rewrite Forall_forall in Hpr.
    destruct (Hpr o) as (_ & ? & _); [by eapply list_elem_of_lookup_2|done].
  - apply Forall_forall. intros o Ho. rewrite Forall_forall in Hkeys.
    destruct (Hkeys (order_key o)) as (_ & [Hs _] & _);
      [by apply list_elem_of_fmap_2|]. simpl in Hs. lia.
  - rewrite filter_none; [simpl; lia|].
    eapply Forall_impl; [exact Hpr|]. intros o (_ & Hf & _). congruence.
Qed.

Lemma orders_with_items_share_witness :
  ∃ item_rate,
    (85 # 100 <= item_rate)%Q ∧ (item_rate <= 1)%Q ∧
    Z.of_nat (length (orders_with_items demo_generation))
      = py_int (inject_Z 13 * item_rate).
Proof.
  apply (orders_with_items_share demo_ctx 0 13 3 30 (Some 20089) demo_world
           demo_generation).
  vm_compute. reflexivity.
Defined.

(** ** The engine: runs that reach the insertion *)

Lemma returns_stage1_step customer_ids s e acc w :
  customer_ids ≠ [] → s ≤ e →
  returns (stage1_step customer_ids s e acc) w
    (fun acc' => length acc'.1 = S (length acc.1)).
Proof.
  intros Hids Hse. apply returns_post.
  - destruct acc as [pending counters]. unfold stage1_step.
    eapply returns_bind; [by apply returns_choice|]. intros c w1 _.
    eapply returns_bind; [by apply returns_generate_random_timestamp|].
    intros t w2 _. by apply returns_ret.
  - intros acc' w' H. by eapply stage1_step_length.
Qed.

Lemma returns_try_unique_product budget eligible pio w :
  eligible ≠ [] →
  returns (try_unique_product budget eligible pio) w
    (fun found => ∀ p, found = Some p → p ∈ eligible).
Proof.
  intros Hne. revert w. induction budget as [|budget IH]; intros w; simpl.
  - by apply returns_ret.
  - eapply returns_bind; [by apply returns_choice|]. intros p w1 Hp.
    destruct (_ || _); [|apply IH].
    apply returns_ret. by intros ? [= <-].
Qed.

Lemma returns_item_step product_data order_date acc w :
  eligible_products_at product_data order_date ≠ [] →
  returns (item_step product_data
             (eligible_products_at product_data order_date) order_date acc) w
    (fun _ => True).
Proof.
  intros Hne. destruct acc as [[items pio] total]. unfold item_step.
  eapply returns_bind; [by apply returns_try_unique_product|].
  intros found w1 Hfound.
  eapply (returns_bind _ _ _
            (fun p => p ∈ eligible_products_at product_data order_date)).
  { destruct found as [p|]; [apply returns_ret; by apply Hfound|].
    by apply returns_choice. }
  intros product_id w2 Hp.
  eapply returns_bind; [by apply returns_randint|]. intros quantity w3 _.
  apply eligible_products_at_elem in Hp as (info & -> & _).
  eapply returns_bind; [by apply (returns_ret _ _ (fun _ => True))|].
  intros catalog_price w4 _.
  eapply returns_bind; [apply returns_random_unit|]. intros r w5 _.
  eapply (returns_bind _ _ _ (fun _ => True)).
  { destruct (Qle_bool (1 # 10) r); [by apply returns_ret|].
    eapply returns_bind; [by apply returns_uniform|].
    intros d w6 _. by apply returns_ret. }
  intros unit_price w6 _.
  eapply returns_bind; [by apply returns_randint|]. intros minutes w7 _.
  eapply returns_bind; [by apply returns_randint|]. intros seconds w8 _.
  by apply returns_ret.
Qed.

Lemma returns_stage2_step product_data max_items pending ref w :
  1 ≤ max_items → (ref < length pending)%nat →
  returns (stage2_step product_data max_items pending ref) w
    (fun pending' => length pending' = length pending).
Proof.
  intros Hmax Href. apply returns_post.
  - unfold stage2_step.
    destruct (lookup_lt_is_Some_2 pending ref Href) as [o ->].
    destruct (eligible_products_at product_data (o_order_date o)) eqn:Hel;
      [by apply returns_ret|].
    rewrite <- Hel.
    eapply returns_bind; [by apply returns_randint|]. intros num_items w1 _.
    eapply (returns_bind _ _ _ (fun _ => True)).
    + pose proof (returns_repeatM (fun _ _ => True)
                    (item_step product_data
                       (eligible_products_at product_data (o_order_date o))
                       (o_order_date o)) (Z.to_nat num_items)) as Hloop.
      eapply returns_weaken; [apply (Hloop ltac:(intros; apply returns_item_step;
                                                   by rewrite Hel) O)|]; done.
    + intros [[items pio] total] w2 _. by apply returns_ret.
  - intros pending' w' H. by eapply stage2_step_length.
Qed.

Lemma returns_clamp_to_end end_datetime t w :
  returns (clamp_to_end end_datetime t) w (fun _ => True).
Proof.
  unfold clamp_to_end. destruct (end_datetime <? t); [|by apply returns_ret].
  eapply returns_bind; [by apply returns_randint|]. intros h w1 _.
  by apply returns_ret.
Qed.

Lemma returns_materialize_order end_datetime completed_orders refunded_orders
    acc o w :
  returns (materialize_order end_datetime completed_orders refunded_orders
             acc o) w (fun _ => True).
Proof.
  destruct acc as [recs items]. unfold materialize_order.
  eapply (returns_bind _ _ _ (fun _ => True)).
  - unfold status_progression. destruct (bool_decide (o ∈ completed_orders)).
    + eapply returns_bind; [by apply returns_randint|]. intros d w1 _.
      eapply returns_bind; [apply returns_clamp_to_end|]. intros t w2 _.
      destruct (bool_decide (o ∈ refunded_orders)); [|by apply returns_ret].
      eapply returns_bind; [by apply returns_randint|]. intros d' w3 _.
      eapply returns_bind; [apply returns_clamp_to_end|]. intros t' w4 _.
      by apply returns_ret.
    + eapply returns_bind; [by apply returns_randint|]. intros d w1 _.
      eapply returns_bind; [apply returns_clamp_to_end|]. intros t w2 _.
      by apply returns_ret.
  - intros prog w1 _. by apply returns_ret.
Qed.

Lemma returns_sample_share {A} (l : list A) rate w :
  (0 <= rate)%Q → (rate <= 1)%Q →
  returns (if bool_decide (l = []) then mret []
           else sample l (py_int (inject_Z (Z.of_nat (length l)) * rate)))
          w (fun _ => True).
Proof.
  intros Hlo Hhi. case_bool_decide; [by apply returns_ret|].
  eapply returns_weaken; [apply returns_sample|done].
  apply py_int_share; [lia|done|done].
Qed.

Lemma order_window_ordered s now days start_date rows m :
  0 ≤ days →
  (∀ row, row ∈ rows →
     p_created_at row + mk_timedelta 0 0 1 0
       ≤ (standalone_calculate_date_range s now t_source_orders days
            start_date).2) →
  sql_min (pd_created_at <$> (snd <$> map_to_list (product_dict rows))) = Some m →
  (order_window s now days start_date m).1
    ≤ (order_window s now days start_date m).2.
Proof.
  intros Hdays Hrows Hm.
  apply earliest_product_row in Hm as (row & Hrow & <-).
  specialize (Hrows _ Hrow).
  pose proof (standalone_range_ordered s now t_source_orders days start_date
                Hdays) as Hord.
  unfold order_window.
  destruct (standalone_calculate_date_range _ _ _ _ _) as [s0 e0].
  simpl in *. destruct (Z.ltb_spec s0 (p_created_at row)); simpl; lia.
Qed.

(** X19. A run reaches the insertion, with one logical order for each
    order requested, whenever the connection is open, the store has a
    customer and a product, the numbers of orders and of days are not
    negative, [max_items_per_order] is at least 1, and every product was
    created at least a minute before the end of the date range of the
    orders table. *)
Theorem generation_returns ctx now num_orders max_items days start_date w :
  connected ctx = true →
  source_customers (db ctx) ≠ [] →
  source_products (db ctx) ≠ [] →
  0 ≤ num_orders → 1 ≤ max_items → 0 ≤ days →
  (∀ row, row ∈ source_products (db ctx) →
     p_created_at row + mk_timedelta 0 0 1 0
       ≤ (standalone_calculate_date_range (db ctx) now t_source_orders days
            start_date).2) →
  returns (new_lifecycle_generate ctx now num_orders max_items days
             start_date) w
    (fun result => ∃ g, result = Some g ∧
                        length (g_pending_orders g) = Z.to_nat num_orders).
Proof.
  intros Hconn Hcust Hprod Hn Hmax Hdays Hrows.
  assert (returns (new_lifecycle_generate ctx now num_orders max_items days
                     start_date) w (fun result => is_Some result)) as Hret.
  { unfold new_lifecycle_generate. rewrite Hconn. simpl.
    rewrite bool_decide_eq_false_2
      by (intros Hnil; apply fmap_nil_inv in Hnil; done).
    rewrite bool_decide_eq_false_2 by (by apply product_dict_nonempty).
    destruct (sql_min _) as [m|] eqn:Hm.
    2:{ apply sql_min_None in Hm. apply fmap_nil_inv, fmap_nil_inv in Hm.
        apply map_to_list_empty_iff in Hm.
        by apply product_dict_nonempty in Hm. }
    pose proof (order_window_ordered _ _ _ _ _ _ Hdays Hrows Hm) as Hwin.
    destruct (order_window _ _ _ _ _) as [start_datetime end_datetime].
    simpl in Hwin.
    eapply (returns_bind _ _ _
              (fun acc => length acc.1 = Z.to_nat num_orders)).
    { pose proof (returns_repeatM (fun i (acc : list order * gmap Z Z) =>
                                     length acc.1 = i)
                    (stage1_step (c_id <$> source_customers (db ctx))
                       start_datetime end_datetime)
                    (Z.to_nat num_orders)) as Hloop.
      eapply returns_weaken; [apply (Hloop ltac:(
        intros i a w0 <-; apply returns_stage1_step;
          [intros Hnil; apply fmap_nil_inv in Hnil; done|done]) O)|].
      - done.
      - intros a Ha. cbv beta in Ha. lia. }
    intros [pending1 counters] w1 Hlen. simpl in Hlen.
    eapply returns_bind; [by apply returns_uniform|].
    intros item_rate w2 [Hlo Hhi].
    eapply returns_bind.
    { apply returns_sample. rewrite length_seq, Hlen, Z2Nat.id by done.
      apply py_int_share; [done| |done].
      eapply Qle_trans; [|exact Hlo]. by unfold Qle. }
    intros refs w3 [_ [rest Hperm]].
    eapply (returns_bind _ _ _ (fun _ => True)).
    { pose proof (returns_foldM
                    (fun (refs : list nat) (pending : list order) =>
                       ∀ i, i ∈ refs → (i < length pending)%nat)
                    (stage2_step (product_dict (source_products (db ctx)))
                       max_items)) as Hloop.
      eapply returns_weaken; [apply Hloop|done].
      - intros ref refs' pending w0 Hin.
        eapply returns_weaken.
        + apply returns_stage2_step; [done|]. apply Hin. by left.
        + intros pending' Hlen' i Hi. cbv beta in Hlen'. rewrite Hlen'.
          apply Hin. by right.
      - intros i Hi.
        assert (i ∈ seq 0 (length pending1)) as Hseq.
        { rewrite <- Hperm. apply elem_of_app. by left. }
        apply elem_of_seq in Hseq. lia. }
    intros pending w4 _.
    eapply returns_bind; [by apply returns_uniform|].
    intros completion_rate w5 [Hclo Hchi].
    eapply returns_bind.
    { apply returns_sample_share; [|done].
      eapply Qle_trans; [|exact Hclo]. by unfold Qle. }
    intros completed_orders w6 _.
    eapply returns_bind; [by apply returns_uniform|].
    intros refund_rate w7 [Hrlo Hrhi].
    eapply returns_bind.
    { apply returns_sample_share.
      - eapply Qle_trans; [|exact Hrlo]. by unfold Qle.
      - eapply Qle_trans; [exact Hrhi|]. by unfold Qle. }
    intros refunded_orders w8 _.
    eapply (returns_bind _ _ _ (fun _ => True)).
    { pose proof (returns_foldM (fun _ (_ : list order_record * list item_record)
                                 => True)
                    (materialize_order end_datetime completed_orders
                       refunded_orders)) as Hloop.
      eapply returns_weaken; [apply Hloop|done]; [|done].
      intros o os acc w0 _. apply returns_materialize_order. }
    intros [recs items] w9 _. by apply returns_ret. }
  destruct Hret as (result & w' & Hrun & [g ->]).
  exists (Some g), w'. split; [done|]. exists g. split; [done|].
  by eapply new_lifecycle_generate_count.
Qed.

Lemma generation_returns_witness :
  returns (new_lifecycle_generate demo_ctx 0 13 3 30 (Some 20089)) demo_world
    (fun result => ∃ g, result = Some g ∧
                        length (g_pending_orders g) = Z.to_nat 13).
Proof.
  apply (generation_returns demo_ctx 0 13 3 30 (Some 20089) demo_world).
  - reflexivity.
  - discriminate.
  - discriminate.
  - lia.
  - lia.
  - lia.
  - apply Forall_forall. apply (bool_decide_unpack _). vm_compute. exact I.
Defined.

(** ** The engine: runs that report a failure *)

(** X20. Without a connection, without a customer or without a product the
    engine returns [False] before it draws any random number, and leaves
    the store as it is. *)
Theorem engine_aborts_without_inputs ctx now num_orders max_items days
    start_date w :
  connected ctx = false ∨ source_customers (db ctx) = []
    ∨ source_products (db ctx) = [] →
  populate_orders_and_items_new_lifecycle ctx now num_orders max_items days
    start_date w = Ok (false, ctx) w.
Proof.
  intros H.
  assert (new_lifecycle_generate ctx now num_orders max_items days start_date w
          = Ok None w) as Hgen.
  { unfold new_lifecycle_generate.
    destruct (connected ctx); simpl; [|done].
    destruct H as [H|[H|H]]; [done| |].
    - rewrite H. done.
    - case_bool_decide; [done|]. rewrite H. done. }
  unfold populate_orders_and_items_new_lifecycle.
  by rewrite (bind_step _ _ _ _ _ Hgen).
Qed.

Lemma engine_aborts_without_inputs_witness :
  populate_orders_and_items_new_lifecycle
    {| connected := false; db := db demo_ctx |} 0 13 3 30 (Some 20089)
    demo_world
  = Ok (false, {| connected := false; db := db demo_ctx |}) demo_world.
Proof.
  apply (engine_aborts_without_inputs
           {| connected := false; db := db demo_ctx |} 0 13 3 30 (Some 20089)
           demo_world).
  left. reflexivity.
Defined.

(** X21. Asked for no order at all, the engine inserts nothing and returns
    [False], although nothing has failed before the closing report: the
    report divides by the number of orders. *)
Theorem zero_orders_reported_as_failure ctx now max_items days start_date w :
  connected ctx = true →
  source_customers (db ctx) ≠ [] →
  source_products (db ctx) ≠ [] →
  returns (populate_orders_and_items_new_lifecycle ctx now 0 max_items days
             start_date) w
    (fun result => result = (false, ctx)).
Proof.
  intros Hconn Hcust Hprod.
  unfold populate_orders_and_items_new_lifecycle.
  eapply (returns_bind _ _ _
            (fun r => ∃ g, r = Some g ∧ all_order_records g = []
                           ∧ all_item_records g = [])).
  - unfold new_lifecycle_generate. rewrite Hconn. simpl.
    rewrite bool_decide_eq_false_2
      by (intros Hnil; apply fmap_nil_inv in Hnil; done).
    rewrite bool_decide_eq_false_2 by (by apply product_dict_nonempty).
    destruct (sql_min _) as [m|] eqn:Hm.
    2:{ apply sql_min_None in Hm. apply fmap_nil_inv, fmap_nil_inv in Hm.
        apply map_to_list_empty_iff in Hm.
        by apply product_dict_nonempty in Hm. }
    destruct (order_window _ _ _ _ _) as [start_datetime end_datetime].
    eapply (returns_bind _ _ _ (fun acc => acc.1 = []));
      [by apply returns_ret|].
    intros [pending1 counters] w1 Hnil. simpl in Hnil. subst pending1.
    eapply returns_bind; [by apply returns_uniform|].
    intros item_rate w2 _. rewrite py_int_zero.
    eapply (returns_bind _ _ _ (fun refs => refs = []));
      [by apply returns_ret|].
    intros refs w3 ->.
    eapply (returns_bind _ _ _ (fun pending => pending = []));
      [by apply returns_ret|].
    intros pending w4 ->.
    eapply returns_bind; [by apply returns_uniform|].
    intros completion_rate w5 _.
    eapply (returns_bind _ _ _ (fun completed => completed = [])).
    { rewrite bool_decide_eq_true_2 by done. by apply returns_ret. }
    intros completed_orders w6 ->.
    eapply returns_bind; [by apply returns_uniform|].
    intros refund_rate w7 _.
    eapply (returns_bind _ _ _ (fun refunded => True)).
    { rewrite bool_decide_eq_true_2 by done. by apply returns_ret. }
    intros refunded_orders w8 _.
    eapply (returns_bind _ _ _ (fun acc => acc = ([], [])));
      [by apply returns_ret|].
    intros [recs items] w9 [= -> ->].
    apply returns_ret. eexists. split; [reflexivity|]. done.
  - intros r w1 (g & -> & Hrecs & Hitems). simpl.
    apply returns_ret. rewrite Hrecs, Hitems, !app_nil_r.
    destruct ctx as [c [? ? ? ?]]. done.
Qed.

Lemma zero_orders_reported_as_failure_witness :
  returns (populate_orders_and_items_new_lifecycle demo_ctx 0 0 3 30
             (Some 20089)) demo_world
    (fun result => result = (false, demo_ctx)).
Proof.
  apply (zero_orders_reported_as_failure demo_ctx 0 3 30 (Some 20089)
           demo_world).
  - reflexivity.
  - discriminate.
  - discriminate.
Defined.

(** ** The engine: a bound on the items that is not positive *)

Lemma py_int_share_positive n rate :
  2 ≤ n → (85 # 100 <= rate)%Q → 1 ≤ py_int (inject_Z n * rate).
Proof.
  intros Hn Hlo. destruct rate as [p d]. unfold py_int, Qle in *.
  cbn [Qnum Qden inject_Z Qmult] in *. rewrite Pos.mul_1_l.
  apply Z.quot_le_lower_bound; [done|]. nia.
Qed.

(** X22. A run that is asked for two orders or more with
    [max_items_per_order] below 1 raises [ValueError] where a run with a
    positive bound reaches the insertion: stage 2 samples at least one
    order, finds a product for it, and draws the number of its items from
    an empty range. *)
Theorem nonpositive_max_items_raises ctx now num_orders max_items days
    start_date w :
  connected ctx = true →
  source_customers (db ctx) ≠ [] →
  source_products (db ctx) ≠ [] →
  2 ≤ num_orders → max_items ≤ 0 → 0 ≤ days →
  (∀ row, row ∈ source_products (db ctx) →
     p_created_at row + mk_timedelta 0 0 1 0
       ≤ (standalone_calculate_date_range (db ctx) now t_source_orders days
            start_date).2) →
  new_lifecycle_generate ctx now num_orders max_items days start_date w
    = Raise ValueError.
Proof.
  intros Hconn Hcust Hprod Hn Hmax Hdays Hrows.
  unfold new_lifecycle_generate. rewrite Hconn. simpl.
  rewrite bool_decide_eq_false_2
    by (intros Hnil; apply fmap_nil_inv in Hnil; done).
  rewrite bool_decide_eq_false_2 by (by apply product_dict_nonempty).
  destruct (sql_min _) as [m|] eqn:Hm.
  2:{ apply sql_min_None in Hm. apply fmap_nil_inv, fmap_nil_inv in Hm.
      apply map_to_list_empty_iff in Hm.
      by apply product_dict_nonempty in Hm. }
  pose proof (order_window_ordered _ _ _ _ _ _ Hdays Hrows Hm) as Hwin.
  pose proof (order_window_after_products (db ctx) now days start_date m)
    as Hafter.
  destruct (order_window _ _ _ _ _) as [start_datetime end_datetime].
  simpl in Hwin, Hafter.
  (* stage 1 returns *)
  pose proof (returns_repeatM (fun i (acc : list order * gmap Z Z) =>
                                 length acc.1 = i)
                (stage1_step (c_id <$> source_customers (db ctx))
                   start_datetime end_datetime)
                (Z.to_nat num_orders)) as Hloop.
  destruct (Hloop ltac:(
      intros i a w0 <-; apply returns_stage1_step;
        [intros Hnil; apply fmap_nil_inv in Hnil; done|done]) O ([], ∅) w eq_refl)
    as ([pending1 counters] & w1 & Hst1 & Hlen).
  clear Hloop. simpl in Hlen.
  rewrite (bind_step _ _ _ _ _ Hst1).
  assert (stage1_facts (c_id <$> source_customers (db ctx))
                       start_datetime end_datetime (pending1, counters))
    as (Hkeys & _ & _).
  { refine (repeatM_inv (fun _ => stage1_facts _ start_datetime end_datetime)
                        _ _ _ O _ _ _ _ _ Hst1).
    - intros i a wa a' wa' Ha Hs. eapply stage1_step_facts; eauto.
    - unfold stage1_facts; simpl. split_and!.
      + constructor.
      + intros stamp. by rewrite lookup_empty.
      + by intros i oid Hi. }
  cbn [fst snd] in Hkeys.
  (* the share of orders that get items *)
  destruct (returns_uniform (85 # 100) 1 w1 ltac:(by unfold Qle))
    as (item_rate & w2 & Hu & Hlo & Hhi).
  rewrite (bind_step _ _ _ _ _ Hu).
  assert (0 <= item_rate)%Q as Hpos.
  { eapply Qle_trans; [|exact Hlo]. by unfold Qle. }
  pose proof (py_int_share num_orders item_rate ltac:(lia) Hpos Hhi) as Hk.
  pose proof (py_int_share_positive num_orders item_rate Hn Hlo) as Hk1.
  destruct (returns_sample (seq 0 (length pending1))
              (py_int (inject_Z num_orders * item_rate)) w2)
    as (refs & w3 & Hs & Hrefs & rest & Hperm).
  { rewrite length_seq. lia. }
  rewrite (bind_step _ _ _ _ _ Hs).
  destruct refs as [|ref refs]; [simpl in Hrefs; lia|].
  (* the first sampled order *)
  apply bind_Raise. simpl. apply bind_Raise.
  assert (ref ∈ seq 0 (length pending1)) as Href.
  { rewrite <- Hperm. by left. }
  apply elem_of_seq in Href.
  destruct (lookup_lt_is_Some_2 pending1 ref) as [o Ho]; [lia|].
  unfold stage2_step. rewrite Ho.
  assert (m ≤ o_order_date o) as Hdate.
  { rewrite Forall_forall in Hkeys.
    destruct (Hkeys (order_key o)) as (_ & [Hstart _] & _).
    - apply list_elem_of_fmap_2. by eapply list_elem_of_lookup_2.
    - simpl in Hstart. lia. }
  pose proof (eligible_products_nonempty _ _ _ Hm Hdate) as Hel.
  destruct (eligible_products_at _ _); [done|].
  apply bind_Raise, randint_empty. lia.
Qed.

Lemma nonpositive_max_items_raises_witness :
  new_lifecycle_generate demo_ctx 0 13 0 30 (Some 20089) demo_world
    = Raise ValueError.
Proof.
  apply (nonpositive_max_items_raises demo_ctx 0 13 0 30 (Some 20089)
           demo_world).
  - reflexivity.
  - discriminate.
  - discriminate.
  - lia.
  - lia.
  - lia.
  - apply Forall_forall. apply (bool_decide_unpack _). vm_compute. exact I.
Defined.
